(** * VibeSniff Lite: the suspicion scoring engine and its signal providers

    A shallow embedding of the scanner class of the repository
    ([getETLDPlusOne], [getDomainAge], [getTLSAge], [getWaybackFirstSeen]
    and the scoring part of [scan]) together with the inline scoring of the
    HTTP server, and the properties the specification states about them.

    JavaScript numbers are IEEE 754 binary64 values; they are modelled with
    the Standard Library's executable specification of floating-point
    arithmetic ([SpecFloat]) at precision 53 and maximal exponent 1024, so
    that every sum, comparison and rounding below is the one the
    interpreter performs. *)

From Stdlib Require Import ZArith Bool List String Ascii Lia DecimalString.
From Stdlib Require Import Floats.SpecFloat.
Import ListNotations.

Local Open Scope Z_scope.

(** ** JavaScript numbers *)

Module JsNumber.

Definition prec : Z := 53.
Definition emax : Z := 1024.

Definition number : Type := spec_float.

Definition NaN : number := S754_nan.

(** An integer as a number (rounded to nearest even when it does not fit
    in 53 bits). *)
Definition of_Z (z : Z) : number := binary_normalize prec emax z 0 false.
Definition of_nat (n : nat) : number := of_Z (Z.of_nat n).

Definition add : number -> number -> number := SFadd prec emax.
Definition sub : number -> number -> number := SFsub prec emax.
Definition mul : number -> number -> number := SFmul prec emax.
Definition div : number -> number -> number := SFdiv prec emax.
Definition ltb : number -> number -> bool := SFltb.
Definition leb : number -> number -> bool := SFleb.
(** [a > b] is [b < a]. *)
Definition gtb (a b : number) : bool := SFltb b a.

(** A decimal literal [digits / 10^scale], such as [0.35 = decimal 35 2].
    Both operands are exact and the division is correctly rounded, so the
    result is the binary64 value nearest to the decimal, which is what
    the source literal denotes. *)
Definition decimal (digits : Z) (scale : nat) : number :=
  div (of_Z digits) (of_Z (10 ^ Z.of_nat scale)).

(** [Math.abs]. *)
Definition Math_abs : number -> number := SFabs.

(** [Math.min] of two arguments: NaN when either is NaN, and [-0] counts
    as smaller than [+0]. *)
Definition Math_min (a b : number) : number :=
  match SFcompare a b with
  | None => NaN
  | Some Lt => a
  | Some Gt => b
  | Some Eq => match a with S754_zero true => a | _ => b end
  end.

(** The mantissa of a finite number with its sign. *)
Definition signed (s : bool) (m : positive) : Z :=
  if s then Z.neg m else Z.pos m.

(** [Math.ceil]: the smallest integral number not below the argument;
    NaN, the infinities, the zeros and integral values are returned
    unchanged, and a result of zero keeps the sign of the argument. *)
Definition Math_ceil (x : number) : number :=
  match x with
  | S754_finite s m e =>
      if 0 <=? e then x
      else
        let n := - ((- signed s m) / 2 ^ (- e)) in
        if n =? 0 then S754_zero s else of_Z n
  | _ => x
  end.

(** [Math.round]: the integral number nearest to the argument, ties
    towards plus infinity; a result of zero keeps the sign of the
    argument. *)
Definition Math_round (x : number) : number :=
  match x with
  | S754_finite s m e =>
      if 0 <=? e then x
      else
        let n := (2 * signed s m + 2 ^ (- e)) / 2 ^ (1 - e) in
        if n =? 0 then S754_zero s else of_Z n
  | _ => x
  end.

Definition is_nan (x : number) : bool :=
  match x with S754_nan => true | _ => false end.

(** The integer a number denotes, when it denotes one. *)
Definition to_Z (x : number) : option Z :=
  match x with
  | S754_zero _ => Some 0
  | S754_finite s m e =>
      if 0 <=? e then Some (signed s m * 2 ^ e)
      else if (Z.pos m) mod 2 ^ (- e) =? 0
           then Some (signed s m / 2 ^ (- e))
           else None
  | _ => None
  end.

End JsNumber.

Import JsNumber.

Declare Scope js_scope.
Delimit Scope js_scope with js.
Bind Scope js_scope with number.
Infix "+" := add : js_scope.
Infix "-" := sub : js_scope.
Infix "*" := mul : js_scope.
Infix "/" := div : js_scope.
Infix "<?" := ltb : js_scope.
Infix "<=?" := leb : js_scope.
Infix ">?" := gtb : js_scope.


Local Open Scope list_scope.
Local Open Scope string_scope.

(** ** Data of a scan *)

(** A value that is a number or [null]. *)
Definition nullable : Type := option number.

(** [ToNumber] on such a value: [null] converts to [+0]. *)
Definition ToNumber (x : nullable) : number :=
  match x with Some n => n | None => of_Z 0 end.

(** [x !== null]. *)
Definition not_null (x : nullable) : bool :=
  match x with Some _ => true | None => false end.

(** [x < c] for a nullable [x] and a numeric literal [c]. *)
Definition lt_literal (x : nullable) (c : number) : bool :=
  (ToNumber x <? c)%js.

(** What [Promise.all] hands to the scoring part of [scan]: the results of
    the three signal providers. *)
Record Signals := {
  domainAge : nullable;
  tlsAge : nullable;
  waybackFirstSeen : nullable
}.

(** The local variables of [scan] that the scoring part reads; they are
    computed from the rendered page before the scoring starts. *)
Record PageAnalysis := {
  hasPasswordForm : bool;
  hasActionMismatch : bool;
  suspiciousFormPatterns : list string;
  externalHostsCount : nat;
  foundSuspiciousKeywords : list string;
  suspiciousLinkPatterns : list string;
  hasPopups : bool;
  hasRedirects : bool;
  suspiciousIframes : list string
}.

Record RiskFactor := {
  factor : string;
  weight : number;
  value : nullable
}.

Inductive RiskLevel := LOW | MEDIUM | HIGH.

(** The three variables the scoring part updates: [score], [reasons] and
    [riskFactors]. *)
Record Vars := {
  score : number;
  reasons : list string;
  riskFactors : list RiskFactor
}.

(** The fields of the object [scan] returns that depend on the scoring. *)
Record ScanResult := {
  result_score : number;
  riskLevel : RiskLevel;
  result_reasons : list string;
  result_riskFactors : list RiskFactor;
  domainAgeDays : nullable;
  tlsAgeDays : nullable;
  waybackFirstSeenDays : nullable;
  externalHosts : nat
}.

(** [arr.push(x)]. *)
Definition push {A : Type} (arr : list A) (x : A) : list A :=
  (arr ++ [x])%list.

(** [arr.join(sep)] on an array of strings. *)
Definition join (sep : string) (arr : list string) : string :=
  String.concat sep arr.

(** [arr.length > n] and [arr.length === 0]. *)
Definition length_gt {A : Type} (arr : list A) (n : nat) : bool :=
  Nat.ltb n (List.length arr).

Definition fallback_reason : string :=
  "No obvious suspicious patterns detected".

(** ** The scoring part of [scan] *)

Section Scoring.

(** Conversion of a number to a string, as template literals perform it;
    it is the interpreter's and is left abstract. *)
Variable Number_toString : number -> string.

Definition show (x : nullable) : string :=
  match x with Some n => Number_toString n | None => "null" end.

Definition show_nat (n : nat) : string := Number_toString (of_nat n).

Variable sig : Signals.
Variable page : PageAnalysis.

(** Domain age analysis. *)
Definition domain_age_analysis (v : Vars) : Vars :=
  if not_null (domainAge sig) && lt_literal (domainAge sig) (of_Z 7) then
    {| score := (score v + decimal 35 2)%js;
       reasons := push (reasons v)
         ("Domain age is " ++ show (domainAge sig) ++ " days (suspicious if < 7)");
       riskFactors := push (riskFactors v)
         {| factor := "New Domain"; weight := decimal 35 2;
            value := domainAge sig |} |}
  else if not_null (domainAge sig) && lt_literal (domainAge sig) (of_Z 30) then
    {| score := (score v + decimal 15 2)%js;
       reasons := push (reasons v)
         ("Domain age is " ++ show (domainAge sig) ++ " days (somewhat new)");
       riskFactors := push (riskFactors v)
         {| factor := "Recent Domain"; weight := decimal 15 2;
            value := domainAge sig |} |}
  else v.

(** TLS certificate analysis. *)
Definition tls_certificate_analysis (v : Vars) : Vars :=
  if not_null (tlsAge sig) && lt_literal (tlsAge sig) (of_Z 7) then
    {| score := (score v + decimal 20 2)%js;
       reasons := push (reasons v)
         ("TLS certificate age is " ++ show (tlsAge sig) ++ " days (suspicious if < 7)");
       riskFactors := push (riskFactors v)
         {| factor := "New Certificate"; weight := decimal 20 2;
            value := tlsAge sig |} |}
  else v.

(** Form analysis. *)
Definition password_form_analysis (v : Vars) : Vars :=
  if hasPasswordForm page then
    {| score := (score v + decimal 20 2)%js;
       reasons := push (reasons v) "Contains password form";
       riskFactors := push (riskFactors v)
         {| factor := "Password Form"; weight := decimal 20 2;
            value := Some (of_Z 1) |} |}
  else v.

Definition action_mismatch_analysis (v : Vars) : Vars :=
  if hasActionMismatch page then
    {| score := (score v + decimal 25 2)%js;
       reasons := push (reasons v) "Password form action points to different domain";
       riskFactors := push (riskFactors v)
         {| factor := "Action Mismatch"; weight := decimal 25 2;
            value := Some (of_Z 1) |} |}
  else v.

Definition suspicious_forms_analysis (v : Vars) : Vars :=
  if length_gt (suspiciousFormPatterns page) 0 then
    {| score := (score v + decimal 15 2)%js;
       reasons := push (reasons v)
         ("Suspicious form patterns: " ++ join ", " (suspiciousFormPatterns page));
       riskFactors := push (riskFactors v)
         {| factor := "Suspicious Forms"; weight := decimal 15 2;
            value := Some (of_nat (List.length (suspiciousFormPatterns page))) |} |}
  else v.

(** External resources analysis. *)
Definition external_hosts_analysis (v : Vars) : Vars :=
  if Nat.ltb 8 (externalHostsCount page) then
    {| score := (score v + decimal 10 2)%js;
       reasons := push (reasons v)
         ("High number of external hosts: " ++ show_nat (externalHostsCount page)
          ++ " (suspicious if > 8)");
       riskFactors := push (riskFactors v)
         {| factor := "High External Hosts"; weight := decimal 10 2;
            value := Some (of_nat (externalHostsCount page)) |} |}
  else v.

(** Content analysis. *)
Definition keywords_analysis (v : Vars) : Vars :=
  if length_gt (foundSuspiciousKeywords page) 3 then
    {| score := (score v + decimal 15 2)%js;
       reasons := push (reasons v)
         ("High number of suspicious keywords: "
          ++ show_nat (List.length (foundSuspiciousKeywords page)));
       riskFactors := push (riskFactors v)
         {| factor := "Suspicious Keywords"; weight := decimal 15 2;
            value := Some (of_nat (List.length (foundSuspiciousKeywords page))) |} |}
  else v.

Definition links_analysis (v : Vars) : Vars :=
  if length_gt (suspiciousLinkPatterns page) 0 then
    {| score := (score v + decimal 10 2)%js;
       reasons := push (reasons v)
         ("Suspicious link patterns detected: "
          ++ show_nat (List.length (suspiciousLinkPatterns page)));
       riskFactors := push (riskFactors v)
         {| factor := "Suspicious Links"; weight := decimal 10 2;
            value := Some (of_nat (List.length (suspiciousLinkPatterns page))) |} |}
  else v.

Definition popups_analysis (v : Vars) : Vars :=
  if hasPopups page || hasRedirects page then
    {| score := (score v + decimal 10 2)%js;
       reasons := push (reasons v) "Contains popup or redirect scripts";
       riskFactors := push (riskFactors v)
         {| factor := "Popups/Redirects"; weight := decimal 10 2;
            value := Some (of_Z 1) |} |}
  else v.

Definition iframes_analysis (v : Vars) : Vars :=
  if length_gt (suspiciousIframes page) 0 then
    {| score := (score v + decimal 10 2)%js;
       reasons := push (reasons v)
         ("Suspicious iframes detected: "
          ++ show_nat (List.length (suspiciousIframes page)));
       riskFactors := push (riskFactors v)
         {| factor := "Suspicious Iframes"; weight := decimal 10 2;
            value := Some (of_nat (List.length (suspiciousIframes page))) |} |}
  else v.

(** The variables after every rule has been evaluated, in source order. *)
Definition rules_applied : Vars :=
  iframes_analysis
    (popups_analysis
      (links_analysis
        (keywords_analysis
          (external_hosts_analysis
            (suspicious_forms_analysis
              (action_mismatch_analysis
                (password_form_analysis
                  (tls_certificate_analysis
                    (domain_age_analysis
                      {| score := of_Z 0; reasons := []; riskFactors := [] |}))))))))).

(** [score = Math.min(score, 1.0)]. *)
Definition cap (s : number) : number := Math_min s (of_Z 1).

(** Determine risk level. *)
Definition risk_level_of (s : number) : RiskLevel :=
  if (s >? decimal 7 1)%js then HIGH
  else if (s >? decimal 4 1)%js then MEDIUM
  else LOW.

(** [Math.round(score * 100) / 100]. *)
Definition round2 (s : number) : number :=
  (Math_round (s * of_Z 100) / of_Z 100)%js.

(** If no suspicious indicators, add a reason. *)
Definition with_fallback (rs : list string) : list string :=
  if Nat.eqb (List.length rs) 0 then push rs fallback_reason else rs.

Definition scan : ScanResult :=
  let v := rules_applied in
  let score := cap (score v) in
  let riskLevel := risk_level_of score in
  let reasons := with_fallback (reasons v) in
  {| result_score := round2 score;
     riskLevel := riskLevel;
     result_reasons := reasons;
     result_riskFactors := riskFactors v;
     domainAgeDays := domainAge sig;
     tlsAgeDays := tlsAge sig;
     waybackFirstSeenDays := waybackFirstSeen sig;
     externalHosts := externalHostsCount page |}.

End Scoring.

(** ** The rule table of the specification *)

(** The rules of the ordered rule set, the domain-age group counting as
    two. *)
Inductive Rule :=
| NewDomain | RecentDomain | NewCertificate | PasswordForm | ActionMismatch
| SuspiciousForms | HighExternalHosts | SuspiciousKeywords | SuspiciousLinks
| PopupsRedirects | SuspiciousIframes.

Definition rule_set : list Rule :=
  [NewDomain; RecentDomain; NewCertificate; PasswordForm; ActionMismatch;
   SuspiciousForms; HighExternalHosts; SuspiciousKeywords; SuspiciousLinks;
   PopupsRedirects; SuspiciousIframes].

(** The weight of a rule, in hundredths. *)
Definition rule_weight (r : Rule) : Z :=
  match r with
  | NewDomain => 35
  | RecentDomain => 15
  | NewCertificate => 20
  | PasswordForm => 20
  | ActionMismatch => 25
  | SuspiciousForms => 15
  | HighExternalHosts => 10
  | SuspiciousKeywords => 15
  | SuspiciousLinks => 10
  | PopupsRedirects => 10
  | SuspiciousIframes => 10
  end.

Definition Rule_eqb (a b : Rule) : bool :=
  match a, b with
  | NewDomain, NewDomain | RecentDomain, RecentDomain
  | NewCertificate, NewCertificate | PasswordForm, PasswordForm
  | ActionMismatch, ActionMismatch | SuspiciousForms, SuspiciousForms
  | HighExternalHosts, HighExternalHosts
  | SuspiciousKeywords, SuspiciousKeywords
  | SuspiciousLinks, SuspiciousLinks | PopupsRedirects, PopupsRedirects
  | SuspiciousIframes, SuspiciousIframes => true
  | _, _ => false
  end.

(** The exact sum of the weights of a list of rules, in hundredths. *)
Definition weight_sum (rs : list Rule) : Z :=
  fold_right (fun r acc => rule_weight r + acc) 0 rs.

Section RuleTable.

Variable Number_toString : number -> string.
Variable sig : Signals.
Variable page : PageAnalysis.

(** The condition of a rule as the specification lists it. *)
Definition rule_condition (r : Rule) : bool :=
  match r with
  | NewDomain =>
      match domainAge sig with Some d => (d <? of_Z 7)%js | None => false end
  | RecentDomain =>
      match domainAge sig with Some d => (d <? of_Z 30)%js | None => false end
  | NewCertificate =>
      match tlsAge sig with Some d => (d <? of_Z 7)%js | None => false end
  | PasswordForm => hasPasswordForm page
  | ActionMismatch => hasActionMismatch page
  | SuspiciousForms => Nat.ltb 0 (List.length (suspiciousFormPatterns page))
  | HighExternalHosts => Nat.ltb 8 (externalHostsCount page)
  | SuspiciousKeywords => Nat.ltb 3 (List.length (foundSuspiciousKeywords page))
  | SuspiciousLinks => Nat.ltb 0 (List.length (suspiciousLinkPatterns page))
  | PopupsRedirects => hasPopups page || hasRedirects page
  | SuspiciousIframes => Nat.ltb 0 (List.length (suspiciousIframes page))
  end.

(** A rule fires when its condition holds; within the domain-age group
    the first matching branch is exclusive. *)
Definition rule_fires (r : Rule) : bool :=
  match r with
  | RecentDomain => negb (rule_condition NewDomain) && rule_condition RecentDomain
  | _ => rule_condition r
  end.

(** The rules that fire, in evaluation order. *)
Definition fired_rules : list Rule := filter rule_fires rule_set.

(** The reason a rule contributes. *)
Definition rule_reason (r : Rule) : string :=
  match r with
  | NewDomain =>
      "Domain age is " ++ show Number_toString (domainAge sig)
        ++ " days (suspicious if < 7)"
  | RecentDomain =>
      "Domain age is " ++ show Number_toString (domainAge sig)
        ++ " days (somewhat new)"
  | NewCertificate =>
      "TLS certificate age is " ++ show Number_toString (tlsAge sig)
        ++ " days (suspicious if < 7)"
  | PasswordForm => "Contains password form"
  | ActionMismatch => "Password form action points to different domain"
  | SuspiciousForms =>
      "Suspicious form patterns: " ++ join ", " (suspiciousFormPatterns page)
  | HighExternalHosts =>
      "High number of external hosts: "
        ++ show_nat Number_toString (externalHostsCount page)
        ++ " (suspicious if > 8)"
  | SuspiciousKeywords =>
      "High number of suspicious keywords: "
        ++ show_nat Number_toString (List.length (foundSuspiciousKeywords page))
  | SuspiciousLinks =>
      "Suspicious link patterns detected: "
        ++ show_nat Number_toString (List.length (suspiciousLinkPatterns page))
  | PopupsRedirects => "Contains popup or redirect scripts"
  | SuspiciousIframes =>
      "Suspicious iframes detected: "
        ++ show_nat Number_toString (List.length (suspiciousIframes page))
  end.

Definition rule_name (r : Rule) : string :=
  match r with
  | NewDomain => "New Domain"
  | RecentDomain => "Recent Domain"
  | NewCertificate => "New Certificate"
  | PasswordForm => "Password Form"
  | ActionMismatch => "Action Mismatch"
  | SuspiciousForms => "Suspicious Forms"
  | HighExternalHosts => "High External Hosts"
  | SuspiciousKeywords => "Suspicious Keywords"
  | SuspiciousLinks => "Suspicious Links"
  | PopupsRedirects => "Popups/Redirects"
  | SuspiciousIframes => "Suspicious Iframes"
  end.

Definition rule_observed (r : Rule) : nullable :=
  match r with
  | NewDomain | RecentDomain => domainAge sig
  | NewCertificate => tlsAge sig
  | PasswordForm | ActionMismatch | PopupsRedirects => Some (of_Z 1)
  | SuspiciousForms => Some (of_nat (List.length (suspiciousFormPatterns page)))
  | HighExternalHosts => Some (of_nat (externalHostsCount page))
  | SuspiciousKeywords => Some (of_nat (List.length (foundSuspiciousKeywords page)))
  | SuspiciousLinks => Some (of_nat (List.length (suspiciousLinkPatterns page)))
  | SuspiciousIframes => Some (of_nat (List.length (suspiciousIframes page)))
  end.

(** The risk factor a rule contributes. *)
Definition rule_factor (r : Rule) : RiskFactor :=
  {| factor := rule_name r;
     weight := decimal (rule_weight r) 2;
     value := rule_observed r |}.

(** What a firing rule does to the three variables. *)
Definition contribute (v : Vars) (r : Rule) : Vars :=
  {| score := (score v + decimal (rule_weight r) 2)%js;
     reasons := push (reasons v) (rule_reason r);
     riskFactors := push (riskFactors v) (rule_factor r) |}.

End RuleTable.

(** The sum as the interpreter accumulates it: left to right from [0], one
    rounded addition per fired rule. *)
Definition accumulate (rs : list Rule) : number :=
  fold_left (fun s r => (s + decimal (rule_weight r) 2)%js) rs (of_Z 0).

(** All the sublists of a list, each in the order of the list. *)
Fixpoint sublists {A : Type} (l : list A) : list (list A) :=
  match l with
  | [] => [[]]
  | x :: t => (map (cons x) (sublists t) ++ sublists t)%list
  end.

Definition RiskLevel_eqb (a b : RiskLevel) : bool :=
  match a, b with
  | LOW, LOW | MEDIUM, MEDIUM | HIGH, HIGH => true
  | _, _ => false
  end.


(** Structural equality of numbers (it tells [+0] from [-0]). *)
Definition identical (a b : number) : bool :=
  match a, b with
  | S754_zero s, S754_zero s' => Bool.eqb s s'
  | S754_infinity s, S754_infinity s' => Bool.eqb s s'
  | S754_nan, S754_nan => true
  | S754_finite s m e, S754_finite s' m' e' =>
      Bool.eqb s s' && Pos.eqb m m' && Z.eqb e e'
  | _, _ => false
  end.

(** The classification bands as the specification words them:
    [score > 0.7] is HIGH, [0.4 < score <= 0.7] is MEDIUM and
    [score <= 0.4] is LOW. *)
Definition in_band (l : RiskLevel) (s : number) : bool :=
  match l with
  | HIGH => (s >? decimal 7 1)%js
  | MEDIUM => (decimal 4 1 <? s)%js && (s <=? decimal 7 1)%js
  | LOW => (s <=? decimal 4 1)%js
  end.

(** The rules that fire under a given truth assignment to the rule
    conditions. *)
Definition fires_under (c : Rule -> bool) (r : Rule) : bool :=
  match r with
  | RecentDomain => negb (c NewDomain) && c RecentDomain
  | _ => c r
  end.

Definition fired_under (c : Rule -> bool) : list Rule :=
  filter (fires_under c) rule_set.

(** The truth assignment that makes exactly the rules of a list true. *)
Definition holds_in (l : list Rule) (r : Rule) : bool :=
  existsb (Rule_eqb r) l.

(** The weights as numbers, computed once. *)
Definition w35 : number := Eval vm_compute in decimal 35 2.
Definition w25 : number := Eval vm_compute in decimal 25 2.
Definition w20 : number := Eval vm_compute in decimal 20 2.
Definition w15 : number := Eval vm_compute in decimal 15 2.
Definition w10 : number := Eval vm_compute in decimal 10 2.

Definition weight_value (r : Rule) : number :=
  match r with
  | NewDomain => w35
  | RecentDomain | SuspiciousForms | SuspiciousKeywords => w15
  | NewCertificate | PasswordForm => w20
  | ActionMismatch => w25
  | HighExternalHosts | SuspiciousLinks | PopupsRedirects | SuspiciousIframes => w10
  end.

Definition accumulate_values (rs : list Rule) : number :=
  fold_left (fun s r => (s + weight_value r)%js) rs (of_Z 0).

(** Decision procedures, run over all the combinations of rules. *)
Definition check_score (l : list Rule) : bool :=
  let s := round2 (cap (accumulate_values l)) in
  identical s (decimal (Z.min (weight_sum l) 100) 2)
  && (of_Z 0 <=? s)%js && (s <=? of_Z 1)%js.

(** The two thresholds as numbers, computed once. *)
Definition threshold_high : number := Eval vm_compute in decimal 7 1.
Definition threshold_medium : number := Eval vm_compute in decimal 4 1.

(** The exact weight sum does not decrease when one more condition
    holds. *)
Definition check_weight_monotone (l : list Rule) : bool :=
  forallb (fun r =>
             holds_in l r
             || (weight_sum (fired_under (holds_in l))
                 <=? weight_sum (fired_under (holds_in (r :: l))))%Z)
          rule_set.

(** The numbers denoted by the decimals 0.00, 0.05, ..., 1.00 are in
    increasing order. *)
Definition check_decimals_sorted : bool :=
  forallb (fun i =>
             forallb (fun j =>
                        Nat.ltb j i
                        || (decimal (5 * Z.of_nat i) 2 <=? decimal (5 * Z.of_nat j) 2)%js)
                     (seq 0 21))
          (seq 0 21).

(** [toLowerCase] on ASCII letters. *)
Definition lower (c : ascii) : ascii :=
  let n := nat_of_ascii c in
  if Nat.leb 65 n && Nat.leb n 90 then ascii_of_nat (n + 32) else c.

Fixpoint toLowerCase (s : string) : string :=
  match s with
  | EmptyString => EmptyString
  | String c t => String (lower c) (toLowerCase t)
  end.

(** ** The inline scoring of the HTTP server

    The [/scan] handler of the server replaces [scanner.scan] by a function
    of its own, whose scoring part follows. *)

Record ServerVars := {
  sv_score : number;
  sv_reasons : list string
}.

Record ServerScanResult := {
  server_score : number;
  server_reasons : list string;
  server_domainAgeDays : nullable;
  server_tlsAgeDays : nullable;
  server_waybackFirstSeenDays : nullable;
  server_externalHosts : nat
}.

Section ServerScoring.

Variable Number_toString : number -> string.
Variable sig : Signals.
(** Of the page analysis the server computes [hasPasswordForm],
    [hasActionMismatch] and [externalHostsCount] only. *)
Variable page : PageAnalysis.

Definition server_domain_age (v : ServerVars) : ServerVars :=
  if not_null (domainAge sig) && lt_literal (domainAge sig) (of_Z 7) then
    {| sv_score := (sv_score v + decimal 35 2)%js;
       sv_reasons := push (sv_reasons v)
         ("Domain age is " ++ show Number_toString (domainAge sig)
          ++ " days (suspicious if < 7)") |}
  else v.

Definition server_tls_age (v : ServerVars) : ServerVars :=
  if not_null (tlsAge sig) && lt_literal (tlsAge sig) (of_Z 7) then
    {| sv_score := (sv_score v + decimal 20 2)%js;
       sv_reasons := push (sv_reasons v)
         ("TLS certificate age is " ++ show Number_toString (tlsAge sig)
          ++ " days (suspicious if < 7)") |}
  else v.

Definition server_password_form (v : ServerVars) : ServerVars :=
  if hasPasswordForm page then
    {| sv_score := (sv_score v + decimal 20 2)%js;
       sv_reasons := push (sv_reasons v) "Contains password form" |}
  else v.

Definition server_action_mismatch (v : ServerVars) : ServerVars :=
  if hasActionMismatch page then
    {| sv_score := (sv_score v + decimal 25 2)%js;
       sv_reasons := push (sv_reasons v)
         "Password form action points to different domain" |}
  else v.

Definition server_external_hosts (v : ServerVars) : ServerVars :=
  if Nat.ltb 8 (externalHostsCount page) then
    {| sv_score := (sv_score v + decimal 10 2)%js;
       sv_reasons := push (sv_reasons v)
         ("High number of external hosts: "
          ++ show_nat Number_toString (externalHostsCount page)
          ++ " (suspicious if > 8)") |}
  else v.

Definition server_scan : ServerScanResult :=
  let v :=
    server_external_hosts
      (server_action_mismatch
        (server_password_form
          (server_tls_age
            (server_domain_age {| sv_score := of_Z 0; sv_reasons := [] |})))) in
  let score := Math_min (sv_score v) (of_Z 1) in
  let reasons := with_fallback (sv_reasons v) in
  {| server_score := round2 score;
     server_reasons := reasons;
     server_domainAgeDays := domainAge sig;
     server_tlsAgeDays := tlsAge sig;
     server_waybackFirstSeenDays := waybackFirstSeen sig;
     server_externalHosts := externalHostsCount page |}.

End ServerScoring.

(** ** A printer for the examples

    [Number.prototype.toString] on NaN, the infinities and integral
    values; fractional values, which none of the examples below prints,
    are not rendered. *)
Definition Number_toString_integral (x : number) : string :=
  match x with
  | S754_nan => "NaN"
  | S754_infinity false => "Infinity"
  | S754_infinity true => "-Infinity"
  | _ => match to_Z x with
         | Some z => NilZero.string_of_int (Z.to_int z)
         | None => ""
         end
  end.

(** A page on which no feature rule fires. *)
Definition plain_page : PageAnalysis :=
  {| hasPasswordForm := false; hasActionMismatch := false;
     suspiciousFormPatterns := []; externalHostsCount := 0;
     foundSuspiciousKeywords := []; suspiciousLinkPatterns := [];
     hasPopups := false; hasRedirects := false; suspiciousIframes := [] |}.

Definition no_signals : Signals :=
  {| domainAge := None; tlsAge := None; waybackFirstSeen := None |}.

(** Inputs used in the examples: a domain registered three days ago with a
    certificate issued two days ago, on a page whose only finding is a form
    with a script action. *)
Definition fresh_signals : Signals :=
  {| domainAge := Some (of_Z 3); tlsAge := Some (of_Z 2);
     waybackFirstSeen := None |}.

Definition script_action_page : PageAnalysis :=
  {| hasPasswordForm := false; hasActionMismatch := false;
     suspiciousFormPatterns := ["Suspicious form action detected"];
     externalHostsCount := 0;
     foundSuspiciousKeywords := []; suspiciousLinkPatterns := [];
     hasPopups := false; hasRedirects := false; suspiciousIframes := [] |}.

(** A page with a password form posting to another domain, many external
    hosts and many suspicious keywords, scanned with no signal available. *)
Definition mismatch_page : PageAnalysis :=
  {| hasPasswordForm := true; hasActionMismatch := true;
     suspiciousFormPatterns := []; externalHostsCount := 9;
     foundSuspiciousKeywords := ["urgent"; "verify"; "account"; "login"];
     suspiciousLinkPatterns := [];
     hasPopups := false; hasRedirects := false; suspiciousIframes := [] |}.

Definition password_page : PageAnalysis :=
  {| hasPasswordForm := true; hasActionMismatch := false;
     suspiciousFormPatterns := []; externalHostsCount := 0;
     foundSuspiciousKeywords := []; suspiciousLinkPatterns := [];
     hasPopups := false; hasRedirects := false; suspiciousIframes := [] |}.

(** The double quote character, as a string. *)
Definition double_quote : string := String (ascii_of_nat 34) EmptyString.

(** A page with a password form, nine external hosts, one suspicious link
    and a popup script, on a host whose certificate is two days old. *)
Definition busy_page : PageAnalysis :=
  {| hasPasswordForm := true; hasActionMismatch := false;
     suspiciousFormPatterns := []; externalHostsCount := 9;
     foundSuspiciousKeywords := [];
     suspiciousLinkPatterns :=
       ["Suspicious link text: " ++ double_quote ++ "Click here" ++ double_quote];
     hasPopups := true; hasRedirects := false; suspiciousIframes := [] |}.

Definition new_certificate : Signals :=
  {| domainAge := None; tlsAge := Some (of_Z 2); waybackFirstSeen := None |}.

(** ** Dates, errors and promises *)

(** A [Date] object: its time value in milliseconds since the epoch, or an
    invalid date. *)
Inductive Date :=
| InvalidDate
| TimeValue (ms : Z).

(** The largest time value a [Date] can hold (8.64e15 ms); a value
    beyond it makes the date invalid. *)
Definition maxTimeValue : Z := 8640000000000000.

(** The number a [Date] converts to in [now - created]. *)
Definition Date_valueOf (d : Date) : number :=
  match d with
  | InvalidDate => NaN
  | TimeValue ms => if (Z.abs ms <=? maxTimeValue)%Z then of_Z ms else NaN
  end.

(** [1000 * 60 * 60 * 24]. *)
Definition msPerDay : number :=
  (((of_Z 1000 * of_Z 60) * of_Z 60) * of_Z 24)%js.

(** The three providers compute an age in the same way:
    [Math.ceil(Math.abs(now - date) / (1000 * 60 * 60 * 24))]. *)
Definition age_in_days (now date : Date) : number :=
  let diffTime := Math_abs (Date_valueOf now - Date_valueOf date)%js in
  Math_ceil (diffTime / msPerDay)%js.

(** A thrown or rejected [Error]. *)
Record JsError := { message : string }.

(** How the body of a function ends: with a returned value or a thrown
    error. *)
Inductive Completion (A : Type) :=
| Returned (v : A)
| Thrown (e : JsError).
Arguments Returned {A} v.
Arguments Thrown {A} e.

(** How a block of statements ends: it runs to its end, or it leaves the
    function. *)
Inductive Outcome (A : Type) :=
| Done
| Exit (c : Completion A).
Arguments Done {A}.
Arguments Exit {A} c.

(** [try { body } catch (error) { handler }]. *)
Definition try_catch {A : Type} (body : Outcome A) (handler : JsError -> Outcome A)
  : Outcome A :=
  match body with
  | Exit (Thrown e) => handler e
  | _ => body
  end.

(** A block followed by the rest of the function body. *)
Definition and_then {A : Type} (block : Outcome A) (rest : Completion A)
  : Completion A :=
  match block with
  | Done => rest
  | Exit c => c
  end.

(** The state of a promise. *)
Inductive Promise (A : Type) :=
| Pending
| Fulfilled (v : A)
| Rejected (e : JsError).
Arguments Pending {A}.
Arguments Fulfilled {A} v.
Arguments Rejected {A} e.

(** The promise an [async] function returns, once its body has ended. *)
Definition async {A : Type} (body : Completion A) : Promise A :=
  match body with
  | Returned v => Fulfilled v
  | Thrown e => Rejected e
  end.

(** What awaiting a promise of a library yields. *)
Inductive Awaited (A : Type) :=
| Resolves (v : A)
| Rejects (e : JsError).
Arguments Resolves {A} v.
Arguments Rejects {A} e.

(** [resolve(v)] inside a [new Promise] executor: only the first call
    settles the promise. *)
Definition resolve {A : Type} (v : A) (p : Promise A) : Promise A :=
  match p with
  | Pending => Fulfilled v
  | _ => p
  end.

(** A property that holds a string or is absent; it is truthy when it
    holds a non-empty string. *)
Definition truthy (x : option string) : bool :=
  match x with
  | Some s => negb (String.eqb s "")
  | None => false
  end.

(** [a || b]. *)
Definition or_else (a b : option string) : option string :=
  if truthy a then a else b.

(** The record [whois-json] resolves to, restricted to the properties
    [getDomainAge] reads. *)
Record WhoisResult := {
  creationDate : option string;
  registered : option string;
  created : option string
}.

(** The certificate object of [socket.getPeerCertificate()]. *)
Record PeerCertificate := {
  valid_from : option string
}.

(** What happens on the socket [connect] returned, in order of
    occurrence: the handshake completes (with the certificate that
    [getPeerCertificate] then returns, if any), an error event, or the
    5-second inactivity timeout. *)
Inductive SocketEvent :=
| SecureConnect (cert : option PeerCertificate)
| SocketError (e : JsError)
| SocketTimeout.

(** [connect(port, hostname, callback)] throws, or returns a socket on
    which events follow. *)
Inductive Connection :=
| ConnectThrows (e : JsError)
| Connected (events : list SocketEvent).

(** A parsed JSON document (the archive index answers with an array of
    rows, each an array of strings; objects do not occur and are left
    out). *)
#[local] Unset Elimination Schemes.
Inductive Json :=
| JNull
| JBool (b : bool)
| JNumber (n : number)
| JString (s : string)
| JArray (items : list Json).
#[local] Set Elimination Schemes.

(** What [fetch] and [response.json()] do. *)
Inductive Fetched :=
| FetchRejects (e : JsError)
| JsonRejects (e : JsError)
| JsonResolves (data : Json).

(** A value or [undefined]. *)
Definition JsValue : Type := option Json.

Definition Json_truthy (v : JsValue) : bool :=
  match v with
  | None | Some JNull => false
  | Some (JBool b) => b
  | Some (JNumber n) =>
      match n with
      | S754_zero _ | S754_nan => false
      | _ => true
      end
  | Some (JString s) => negb (String.eqb s "")
  | Some (JArray _) => true
  end.

(** [v.length > 1]: strings and arrays have a length, the length of a
    boolean or a number is undefined and compares false. *)
Definition length_gt_1 (v : Json) : bool :=
  match v with
  | JString s => (of_Z 1 <? of_nat (String.length s))%js
  | JArray items => (of_Z 1 <? of_nat (List.length items))%js
  | _ => false
  end.

Definition TypeError (msg : string) : JsError := {| message := msg |}.

(** [v[1]]: reading a property of [undefined] or [null] throws. *)
Definition index_1 (v : JsValue) : Completion JsValue :=
  match v with
  | None => Thrown (TypeError "Cannot read properties of undefined (reading '1')")
  | Some JNull => Thrown (TypeError "Cannot read properties of null (reading '1')")
  | Some (JArray items) => Returned (nth_error items 1)
  | Some (JString s) =>
      Returned (match String.get 1 s with
                | Some c => Some (JString (String c EmptyString))
                | None => None
                end)
  | Some (JBool _) | Some (JNumber _) => Returned None
  end.

(** [s.substring(from, to)] for [from <= to]. *)
Definition String_substring (from to : nat) (s : string) : string :=
  String.substring from (to - from)%nat s.

Section Providers.

(** [new Date(string)]: the parser is the interpreter's. *)
Variable Date_parse : string -> Date.

(** [new Date()]: the clock, in milliseconds. *)
Variable now : Z.

(** [new Date(x)] for a property that holds a string or is absent. *)
Definition new_Date (x : option string) : Date :=
  match x with
  | Some s => Date_parse s
  | None => InvalidDate
  end.

(** Get domain age in days using WHOIS.  The argument is what
    [await whois(domain)] does. *)
Definition getDomainAge (whois : Awaited WhoisResult) : Promise nullable :=
  async
    (and_then
       (try_catch
          (match whois with
           | Rejects e => Exit (Thrown e)
           | Resolves result =>
               let creationDate :=
                 or_else (or_else (creationDate result) (registered result))
                         (created result) in
               if truthy creationDate then
                 let created := new_Date creationDate in
                 Exit (Returned (Some (age_in_days (TimeValue now) created)))
               else Done
           end)
          (fun error => Done))
       (Returned None)).

(** The listener of the completed handshake. *)
Definition on_secureConnect (cert : option PeerCertificate)
    (p : Promise nullable) : Promise nullable :=
  match cert with
  | Some c =>
      if truthy (valid_from c) then
        let validFrom := new_Date (valid_from c) in
        let ageInDays := age_in_days (TimeValue now) validFrom in
        resolve (Some ageInDays) p
      else resolve None p
  | None => resolve None p
  end.

Definition on_socket_event (p : Promise nullable) (ev : SocketEvent)
  : Promise nullable :=
  match ev with
  | SecureConnect cert => on_secureConnect cert p
  | SocketError error => resolve None p
  | SocketTimeout => resolve None p
  end.

(** Get TLS certificate age in days.  The promise is created pending;
    the executor registers the listeners, or catches what [connect]
    throws, and the events then run the listeners. *)
Definition getTLSAge (connection : Connection) : Promise nullable :=
  match connection with
  | ConnectThrows error => resolve None Pending
  | Connected events => fold_left on_socket_event events Pending
  end.

(** Query Wayback Machine for earliest snapshot. *)
Definition getWaybackFirstSeen (fetched : Fetched) : Promise nullable :=
  async
    (and_then
       (try_catch
          (match fetched with
           | FetchRejects e => Exit (Thrown e)
           | JsonRejects e => Exit (Thrown e)
           | JsonResolves data =>
               if Json_truthy (Some data) && length_gt_1 data then
                 match index_1 (Some data) with
                 | Thrown e => Exit (Thrown e)
                 | Returned row =>
                     match index_1 row with
                     | Thrown e => Exit (Thrown e)
                     | Returned timestamp =>
                         if Json_truthy timestamp then
                           match timestamp with
                           | Some (JString ts) =>
                               let firstSeen :=
                                 Date_parse
                                   (String_substring 0 4 ts ++ "-"
                                    ++ String_substring 4 6 ts ++ "-"
                                    ++ String_substring 6 8 ts) in
                               Exit (Returned
                                       (Some (age_in_days (TimeValue now) firstSeen)))
                           | _ =>
                               Exit (Thrown
                                 (TypeError "timestamp.substring is not a function"))
                           end
                         else Done
                     end
                 end
               else Done
           end)
          (fun error => Done))
       (Returned None)).

End Providers.

(** ** A date parser for the examples

    The date-only form [YYYY-MM-DD] of the date-time string format, which
    denotes midnight UTC of a calendar day.  Engines accept further,
    implementation-defined formats; the examples below only parse strings
    of this form or strings without any digit. *)

Definition digit_of (c : ascii) : option Z :=
  let n := nat_of_ascii c in
  if Nat.leb 48 n && Nat.leb n 57 then Some (Z.of_nat (n - 48)) else None.

Fixpoint digits_of (s : string) (acc : Z) : option Z :=
  match s with
  | EmptyString => Some acc
  | String c t =>
      match digit_of c with
      | Some d => digits_of t (10 * acc + d)
      | None => None
      end
  end.

Definition is_leap (y : Z) : bool :=
  ((y mod 4 =? 0) && negb (y mod 100 =? 0) || (y mod 400 =? 0))%Z.

Definition days_in_month (y m : Z) : Z :=
  if (m =? 2)%Z then (if is_leap y then 29 else 28)
  else if ((m =? 4) || (m =? 6) || (m =? 9) || (m =? 11))%Z then 30
  else 31.

(** Days from 1970-01-01 to the given day of the proleptic Gregorian
    calendar. *)
Definition days_from_civil (y m d : Z) : Z :=
  let y' := if (m <=? 2)%Z then y - 1 else y in
  let era := y' / 400 in
  let yoe := y' - era * 400 in
  let mp := if (m <=? 2)%Z then m + 9 else m - 3 in
  let doy := (153 * mp + 2) / 5 + d - 1 in
  let doe := yoe * 365 + yoe / 4 - yoe / 100 + doy in
  era * 146097 + doe - 719468.

Definition Date_parse_iso (s : string) : Date :=
  match digits_of (String.substring 0 4 s) 0,
        digits_of (String.substring 5 2 s) 0,
        digits_of (String.substring 8 2 s) 0 with
  | Some y, Some m, Some d =>
      if Nat.eqb (String.length s) 10
         && String.eqb (String.substring 4 1 s) "-"
         && String.eqb (String.substring 7 1 s) "-"
         && (1 <=? m)%Z && (m <=? 12)%Z && (1 <=? d)%Z && (d <=? days_in_month y m)%Z
      then TimeValue (days_from_civil y m d * 86400000)
      else InvalidDate
  | _, _, _ => InvalidDate
  end.

(** ** The apex-domain resolver *)

(** [s.split(sep)] for a one-character separator. *)
Fixpoint split (sep : ascii) (s : string) : list string :=
  match s with
  | EmptyString => [EmptyString]
  | String c rest =>
      if Ascii.eqb c sep then EmptyString :: split sep rest
      else match split sep rest with
           | [] => [String c EmptyString]
           | part :: parts => String c part :: parts
           end
  end.

(** [arr.slice(-n)]: the last [n] elements (all of them when there are
    fewer). *)
Definition slice_last {A : Type} (n : nat) (arr : list A) : list A :=
  skipn (List.length arr - n)%nat arr.

(** The part of a [URL] object that the resolver reads. *)
Record URL := {
  hostname : string
}.

Section Resolver.

(** [new URL(url)]: [None] when the constructor throws. *)
Variable URL_parse : string -> option URL.

(** Extract eTLD+1 from a URL. *)
Definition getETLDPlusOne (url : string) : option string :=
  match URL_parse url with
  | Some parsed =>
      let hostname := hostname parsed in
      let parts := split "." hostname in
      if Nat.leb 2 (List.length parts) then Some (join "." (slice_last 2 parts))
      else Some hostname
  | None => None
  end.

End Resolver.

(** A URL parser for the examples: [scheme://host], optionally followed
    by a port, a path, a query or a fragment.  It stands for the URL
    standard's parser on URLs of that shape with a lower-case host and no
    credentials. *)
Fixpoint take_host (s : string) : string :=
  match s with
  | EmptyString => EmptyString
  | String c rest =>
      if Ascii.eqb c "/" || Ascii.eqb c ":" || Ascii.eqb c "?" || Ascii.eqb c "#"
      then EmptyString
      else String c (take_host rest)
  end.

Fixpoint after_scheme (s : string) : option string :=
  match s with
  | EmptyString => None
  | String c rest =>
      if String.prefix "://" s then Some (String.substring 3 (String.length s - 3) s)
      else after_scheme rest
  end.

Definition URL_parse_simple (url : string) : option URL :=
  match after_scheme url with
  | Some rest =>
      if String.eqb (take_host rest) "" then None
      else Some {| hostname := take_host rest |}
  | None => None
  end.

(** ** Predicates used in the statements about ages *)

(** The numbers that stay clear of overflow: zeros and finite numbers with
    a mantissa of at most 53 bits and an exponent within the bounds. *)
Definition small (lo hi : Z) (x : number) : Prop :=
  match x with
  | S754_zero _ => True
  | S754_finite _ m e => (lo <= e <= hi)%Z /\ (Z.pos m < 2 ^ 53)%Z
  | _ => False
  end.

Definition nonnegative (x : number) : Prop :=
  match x with
  | S754_zero false | S754_finite false _ _ => True
  | _ => False
  end.

(** The clock of the examples: 2024-01-01T00:00:00Z. *)
Definition new_year_2024 : Z := 1704067200000.

Definition whois_record (a b c : option string) : WhoisResult :=
  {| creationDate := a; registered := b; created := c |}.

(** The first truthy entry of a list of properties, as a chain of [||]
    selects it. *)
Definition first_truthy (l : list (option string)) : option string :=
  match find truthy l with
  | Some x => x
  | None => None
  end.

(** A domain registered ten days ago, nothing else known. *)
Definition ten_day_old_domain : Signals :=
  {| domainAge := Some (of_Z 10); tlsAge := None; waybackFirstSeen := None |}.

(** ** The level beside the reported score *)

(** The risk level [scan] assigns when the rules of a list fire. *)
Definition level_of (l : list Rule) : RiskLevel :=
  let s := cap (accumulate_values l) in
  if (s >? threshold_high)%js then HIGH
  else if (s >? threshold_medium)%js then MEDIUM
  else LOW.

(** [in_band], with the thresholds computed once. *)
Definition in_band_of (l : RiskLevel) (s : number) : bool :=
  match l with
  | HIGH => (s >? threshold_high)%js
  | MEDIUM => (threshold_medium <? s)%js && (s <=? threshold_high)%js
  | LOW => (s <=? threshold_medium)%js
  end.

(** Unless the weights of the list add up to exactly 0.70, the reported
    score lies in the band of the assigned level and in no other; when
    they do, the level is not LOW. *)
Definition check_reported_band (l : list Rule) : bool :=
  let reported := round2 (cap (accumulate_values l)) in
  if (weight_sum l =? 70)%Z then negb (RiskLevel_eqb (level_of l) LOW)
  else forallb (fun lvl =>
                  Bool.eqb (in_band_of lvl reported)
                           (RiskLevel_eqb lvl (level_of l)))
               [LOW; MEDIUM; HIGH].

(** The lists of rules that can fire together: the two domain-age rules
    exclude each other. *)
Definition possible (l : list Rule) : bool :=
  negb (holds_in l NewDomain && holds_in l RecentDomain).

(** The combinations of fired rules whose weights add up to exactly 0.70
    and to which [scan] assigns a given level. *)
Definition totals_070 (lvl : RiskLevel) : list (list Rule) :=
  filter (fun l => possible l && (weight_sum l =? 70)%Z
                   && RiskLevel_eqb (level_of l) lvl)
         (sublists rule_set).


(** * The rest of the scanner, the report and the endpoints

    Beside the scoring and the providers the development covers the page
    analysis of [scan], the report of the visualizer, the [/scan]
    endpoint of the server with the page analysis it repeats, and the
    command line. *)

(** ** The rules of the server's inline scoring *)

(** The five rules that the [/scan] handler evaluates, in its order. *)
Definition server_rule_set : list Rule :=
  [NewDomain; NewCertificate; PasswordForm; ActionMismatch; HighExternalHosts].

Definition server_fired_rules (sig : Signals) (page : PageAnalysis) : list Rule :=
  filter (rule_condition sig page) server_rule_set.

(** Membership in the server's rule set. *)
Definition server_rule (r : Rule) : bool := existsb (Rule_eqb r) server_rule_set.

(** A combination of rules that contains a password form posting to
    another domain is never classified LOW. *)
Definition check_mismatch_level (l : list Rule) : bool :=
  negb (holds_in l PasswordForm && holds_in l ActionMismatch)
  || negb (RiskLevel_eqb (risk_level_of (cap (accumulate_values l))) LOW).

(** ** The page analysis of [scan] *)

(** [s.includes(search)]. *)
Fixpoint includes (s search : string) : bool :=
  String.prefix search s
  || match s with
     | EmptyString => false
     | String _ rest => includes rest search
     end.

(** [selection.each(callback)]: the callback runs on the elements in
    document order, until it returns [false]. *)
Fixpoint each {A S : Type} (callback : S -> A -> S * bool) (selection : list A)
    (state : S) : S :=
  match selection with
  | [] => state
  | element :: rest =>
      let (state', continue) := callback state element in
      if continue then each callback rest state' else state'
  end.

(** [a !== b] for values that are a string or [null]. *)
Definition differs (a b : option string) : bool :=
  match a, b with
  | Some x, Some y => negb (String.eqb x y)
  | None, None => false
  | _, _ => true
  end.

(** [set.add(x)] on a [Set] of strings, kept in insertion order. *)
Definition Set_add (set : list string) (x : string) : list string :=
  if existsb (String.eqb x) set then set else push set x.

(** [arr.slice(0, n)]. *)
Definition slice_0 {A : Type} (n : nat) (arr : list A) : list A := firstn n arr.

(** A string in which the separator does not occur. *)
Fixpoint free_of (sep : ascii) (s : string) : Prop :=
  match s with
  | EmptyString => True
  | String c rest => Ascii.eqb c sep = false /\ free_of sep rest
  end.

(** The URL object that [new URL(relative, base)] constructs, with its
    serialisation [href]. *)
Record Resolved := {
  resolved : URL;
  href : string
}.

Module Page.

(** A [form] element: its [method] and [action] attributes, each a string
    or absent. *)
Record Form := {
  method : option string;
  action : option string
}.

(** An [a] element that has an [href] attribute: the attribute and the
    trimmed text of the element. *)
Record Anchor := {
  anchor_href : string;
  linkText : string
}.

(** An entry of [externalLinks]. *)
Record ExternalLink := {
  link_url : string;
  link_text : string;
  isExternal : bool
}.

(** What the selectors of [scan] find in the rendered page: for every
    password input its closest [form] (if it has one), the [form]
    elements, the [src] of the [script] and [img] elements that have one,
    the [href] of the [link] elements, the text of [body] and of the
    [script] elements, the anchors, and the [src] attribute of every
    [iframe]. *)
Record Document := {
  passwordInputs : list (option Form);
  forms : list Form;
  scripts : list string;
  images : list string;
  links : list string;
  bodyText : string;
  allLinks : list Anchor;
  scriptText : string;
  iframes : list (option string)
}.

Definition suspiciousKeywords : list string :=
  ["urgent"; "verify"; "confirm"; "update"; "suspended"; "expired";
   "security"; "account"; "login"; "password"; "credit card"; "ssn";
   "social security"; "banking"; "paypal"; "amazon"; "apple"; "microsoft"].

Definition uses_GET : string := "Password form uses GET method".
Definition suspicious_action : string := "Suspicious form action detected".

Section Analysis.

(** [new URL(url)] and [new URL(relative, base)]: [None] when the
    constructor throws. *)
Variable URL_parse : string -> option URL.
Variable URL_resolve : string -> string -> option Resolved.

(** [String.prototype.toLowerCase], the interpreter's. *)
Variable String_toLowerCase : string -> string.

Variable url : string.

(** [parsedUrl = new URL(url)]. *)
Variable parsedUrl : URL.

Variable document : Document.

Definition domain : string := hostname parsedUrl.

Definition pageETLD : option string := getETLDPlusOne URL_parse url.

Definition hasPasswordForm : bool :=
  Nat.ltb 0 (List.length (passwordInputs document)).

(** The callback of [passwordInputs.each]: the state is the pair of
    [hasActionMismatch] and [suspiciousActions]. *)
Definition check_action (state : bool * list string) (input : option Form)
  : (bool * list string) * bool :=
  let action := match input with
                | Some form => action form
                | None => None
                end in
  if truthy action then
    match URL_resolve (match action with Some a => a | None => "" end) url with
    | Some actionUrl =>
        let actionETLD := getETLDPlusOne URL_parse (href actionUrl) in
        if truthy actionETLD && differs actionETLD pageETLD then
          ((true, push (snd state) (href actionUrl)), false)
        else (state, true)
    | None => (state, true)
    end
  else (state, true).

(** The serialised action of a password input whose form posts to another
    apex domain than the page's, if it does. *)
Definition foreign_action (input : option Form) : option string :=
  match input with
  | Some {| action := Some a |} =>
      if String.eqb a "" then None
      else match URL_resolve a url with
           | Some actionUrl =>
               match getETLDPlusOne URL_parse (href actionUrl) with
               | Some actionETLD =>
                   if negb (String.eqb actionETLD "")
                      && differs (Some actionETLD) pageETLD
                   then Some (href actionUrl) else None
               | None => None
               end
           | None => None
           end
  | _ => None
  end.

(** Check for form action mismatches. *)
Definition action_mismatches : bool * list string :=
  if hasPasswordForm then each check_action (passwordInputs document) (false, [])
  else (false, []).

Definition hasActionMismatch : bool := fst action_mismatches.
Definition suspiciousActions : list string := snd action_mismatches.

(** [x || d] for an attribute [x] and a string [d]. *)
Definition or_default (x : option string) (d : string) : string :=
  match x with
  | Some s => if String.eqb s "" then d else s
  | None => d
  end.

(** The callback of [forms.each]. *)
Definition check_form (patterns : list string) (form : Form) : list string :=
  let method := or_default (method form) "get" in
  let action := or_default (action form) "" in
  let patterns :=
    if String.eqb (String_toLowerCase method) "get" && hasPasswordForm
    then push patterns uses_GET else patterns in
  if includes action "javascript:" || includes action "data:"
  then push patterns suspicious_action else patterns.

(** Check for suspicious form patterns. *)
Definition suspiciousFormPatterns : list string :=
  fold_left check_form (forms document) [].

(** The hostname of a resource when it resolves to another host than the
    page's. *)
Definition external_host (src : string) : option string :=
  if String.eqb src "" then None
  else match URL_resolve src url with
       | Some srcUrl =>
           if String.eqb (hostname (resolved srcUrl)) domain then None
           else Some (hostname (resolved srcUrl))
       | None => None
       end.

(** The callback of the three loops over resources. *)
Definition add_host (externalHosts : list string) (src : string) : list string :=
  if negb (String.eqb src "") then
    match URL_resolve src url with
    | Some srcUrl =>
        if negb (String.eqb (hostname (resolved srcUrl)) domain)
        then Set_add externalHosts (hostname (resolved srcUrl))
        else externalHosts
    | None => externalHosts
    end
  else externalHosts.

(** Count external asset hosts: script sources, image sources, link
    sources. *)
Definition externalHosts : list string :=
  fold_left add_host (links document)
    (fold_left add_host (images document)
       (fold_left add_host (scripts document) [])).

Definition externalHostsCount : nat := List.length externalHosts.

Definition pageText : string := String_toLowerCase (bodyText document).

(** Check for suspicious content patterns. *)
Definition foundSuspiciousKeywords : list string :=
  filter (fun keyword => includes pageText (String_toLowerCase keyword))
         suspiciousKeywords.

(** The callback of [allLinks.each]: the state is the pair of
    [externalLinks] and [suspiciousLinkPatterns]. *)
Definition check_link (state : list ExternalLink * list string) (link : Anchor)
  : list ExternalLink * list string :=
  let attribute := anchor_href link in
  let linkText := linkText link in
  if negb (String.eqb attribute "") then
    match URL_resolve attribute url with
    | Some linkUrl =>
        if negb (String.eqb (hostname (resolved linkUrl)) domain) then
          let externalLinks :=
            push (fst state)
                 {| link_url := href linkUrl; link_text := linkText;
                    isExternal := true |} in
          if includes (String_toLowerCase linkText) "click here"
             || includes (String_toLowerCase linkText) "verify now"
             || includes (String_toLowerCase linkText) "update now"
          then (externalLinks,
                push (snd state)
                     ("Suspicious link text: " ++ double_quote ++ linkText
                      ++ double_quote))
          else (externalLinks, snd state)
        else state
    | None => state
    end
  else state.

(** Check for suspicious links. *)
Definition link_analysis : list ExternalLink * list string :=
  fold_left check_link (allLinks document) ([], []).

Definition externalLinks : list ExternalLink := fst link_analysis.
Definition suspiciousLinkPatterns : list string := snd link_analysis.

(** [externalLinks.slice(0, 10)], the list the result reports. *)
Definition externalLinkList : list ExternalLink := slice_0 10 externalLinks.

(** Check for popup/redirect patterns. *)
Definition hasPopups : bool :=
  includes (scriptText document) "window.open"
  || includes (scriptText document) "popup".

Definition hasRedirects : bool :=
  includes (scriptText document) "window.location"
  || includes (scriptText document) "document.location".

(** The callback of the loop over the [iframe] elements. *)
Definition check_iframe (suspiciousIframes : list string) (src : option string)
  : list string :=
  if truthy src then
    match URL_resolve (match src with Some s => s | None => "" end) url with
    | Some iframeUrl =>
        if negb (String.eqb (hostname (resolved iframeUrl)) domain)
        then push suspiciousIframes (href iframeUrl)
        else suspiciousIframes
    | None => suspiciousIframes
    end
  else suspiciousIframes.

(** Check for iframe usage. *)
Definition suspiciousIframes : list string :=
  fold_left check_iframe (iframes document) [].

(** The variables that the scoring part reads. *)
Definition analysis : PageAnalysis :=
  Build_PageAnalysis hasPasswordForm hasActionMismatch suspiciousFormPatterns
    externalHostsCount foundSuspiciousKeywords suspiciousLinkPatterns
    hasPopups hasRedirects suspiciousIframes.

End Analysis.

End Page.

(** A resolver for the examples: absolute URLs only, read with
    [URL_parse_simple] and serialised unchanged. *)
Definition URL_resolve_simple (relative base : string) : option Resolved :=
  match URL_parse_simple relative with
  | Some u => Some {| resolved := u; href := relative |}
  | None => None
  end.

(** A login page at [https://shop.example.com/] whose password form posts
    to another registrable domain, beside a search form without
    attributes. *)
Definition login_form : Page.Form :=
  {| Page.method := Some "POST";
     Page.action := Some "https://collect.example.net/login" |}.

Definition search_form : Page.Form :=
  {| Page.method := None; Page.action := None |}.

Definition login_document : Page.Document :=
  {| Page.passwordInputs := [Some login_form];
     Page.forms := [login_form; search_form];
     Page.scripts := ["https://cdn.example.org/a.js"; "https://cdn.example.org/b.js"];
     Page.images := ["https://shop.example.com/logo.png"];
     Page.links := [];
     Page.bodyText := "please confirm your social security number";
     Page.allLinks :=
       [{| Page.anchor_href := "https://collect.example.net/";
           Page.linkText := "click here" |}];
     Page.scriptText := "";
     Page.iframes := [None] |}.

Definition shop_url : string := "https://shop.example.com/".
Definition shop_parsedUrl : URL := {| hostname := "shop.example.com" |}.

From Stdlib Require HexString.

(** ** Numbers as 32-bit integers *)

(** The integral part of a number, zero for NaN and the infinities. *)
Definition truncate (x : number) : Z :=
  match x with
  | S754_finite s m e =>
      if (0 <=? e)%Z then (signed s m * 2 ^ e)%Z
      else Z.quot (signed s m) (2 ^ (- e))
  | _ => 0%Z
  end.

(** [ToInt32]: the integral part modulo [2^32], read as a signed 32-bit
    integer. *)
Definition ToInt32 (x : number) : Z :=
  let n := (truncate x mod 2 ^ 32)%Z in
  if (n <? 2 ^ 31)%Z then n else (n - 2 ^ 32)%Z.

(** [x >> k] for [0 <= k < 32] and [x & y]. *)
Definition shift_right (x : number) (k : Z) : number :=
  of_Z (Z.shiftr (ToInt32 x) k).

Definition bit_and (x y : number) : number :=
  of_Z (Z.land (ToInt32 x) (ToInt32 y)).

(** [Math.max] of two arguments: NaN when either is NaN, and [+0] counts
    as larger than [-0]. *)
Definition Math_max (a b : number) : number :=
  match SFcompare a b with
  | None => NaN
  | Some Gt => a
  | Some Lt => b
  | Some Eq => match a with S754_zero false => a | _ => b end
  end.

(** The truthiness of a value that is a number or [null]: [null], NaN
    and the zeros are falsy. *)
Definition number_truthy (x : nullable) : bool :=
  match x with
  | None | Some (S754_zero _) | Some S754_nan => false
  | Some _ => true
  end.

(** [s.slice(n)]. *)
Definition String_slice (n : nat) (s : string) : string :=
  String.substring n (String.length s - n) s.

(** ** Template literals *)

Definition newline : string := String (ascii_of_nat 10) EmptyString.

(** Lines of text, joined by line breaks. *)
Definition text (lines : list string) : string := String.concat newline lines.

Definition quoted (s : string) : string := double_quote ++ s ++ double_quote.

(** Reading a property of an object that may be [undefined]. *)
Definition read {A B : Type} (object : option A) (property : string) (get : A -> B)
  : Completion B :=
  match object with
  | Some o => Returned (get o)
  | None =>
      Thrown (TypeError ("Cannot read properties of undefined (reading '"
                         ++ property ++ "')"))
  end.

(** A string or [undefined], and a string or [null], in a template. *)
Definition or_undefined (x : option string) : string :=
  match x with Some s => s | None => "undefined" end.

Definition or_null (x : option string) : string :=
  match x with Some s => s | None => "null" end.

(** The parts of a template literal: literal text and substitutions. *)
Inductive Part :=
| Text (s : string)
| Value (v : Completion string).

(** The substitutions are evaluated from left to right; the first one
    that throws ends the evaluation. *)
Fixpoint template (parts : list Part) : Completion string :=
  match parts with
  | [] => Returned EmptyString
  | Text s :: rest =>
      match template rest with
      | Returned r => Returned (s ++ r)
      | Thrown e => Thrown e
      end
  | Value (Returned v) :: rest =>
      match template rest with
      | Returned r => Returned (v ++ r)
      | Thrown e => Thrown e
      end
  | Value (Thrown e) :: _ => Thrown e
  end.

(** ** The report of the visualizer *)

Module Report.

(** The object given to [generateReport], restricted to the properties
    that the report reads.  A property that the object may lack is an
    option. *)
Record Content := {
  title : string;
  totalHeadings : nat;
  suspiciousKeywords : list string;
  hasPopups : bool;
  hasRedirects : bool
}.

Record Forms := {
  totalForms : nat;
  hasPasswordForm : bool;
  passwordInputs : nat;
  emailInputs : nat;
  suspiciousActions : list string
}.

Record Links := {
  totalLinks : nat;
  externalLinks : nat;
  suspiciousLinkPatterns : list string
}.

Record Iframes := {
  totalIframes : nat;
  suspiciousIframes : nat
}.

Record Technical := {
  domain : string;
  pageETLD : option string;
  protocol : string;
  port : string;
  pathname : string
}.

Record ScanObject := {
  url : string;
  score : number;
  riskLevel : option string;
  reasons : list string;
  riskFactors : option (list RiskFactor);
  domainAgeDays : nullable;
  tlsAgeDays : nullable;
  waybackFirstSeenDays : nullable;
  externalHosts : nat;
  content : option Content;
  forms : option Forms;
  links : option Links;
  iframes : option Iframes;
  technical : option Technical;
  scannedAt : option string
}.

(** What [generateReport] returns. *)
Record ReportInfo := {
  reportId : string;
  reportPath : string;
  reportUrl : string
}.

Definition getRiskColor (riskLevel : option string) : string :=
  match riskLevel with
  | Some level =>
      if String.eqb level "HIGH" then "dc3545"
      else if String.eqb level "MEDIUM" then "ffc107"
      else if String.eqb level "LOW" then "28a745"
      else "6c757d"
  | None => "6c757d"
  end.

Definition getAgeClass (age : nullable) : string :=
  match age with
  | None => "warning"
  | Some a =>
      if (a <? of_Z 7)%js then "suspicious"
      else if (a <? of_Z 30)%js then "warning"
      else "safe"
  end.

(** [Math.round(scanResult.score * 100)]. *)
Definition scorePercentage (scanResult : ScanObject) : number :=
  Math_round (score scanResult * of_Z 100)%js.

Definition generateChartsSection : string :=
  (text
    [EmptyString;
     "    <div class=" ++ quoted "chart-container" ++ ">";
     "        <h3>📊 Risk Analysis</h3>";
     "        <canvas id=" ++ quoted "riskChart" ++ " width=" ++ quoted "400" ++ " height=" ++ quoted "200" ++ "></canvas>";
     "    </div>";
     "    ";
     "    <div class=" ++ quoted "chart-container" ++ ">";
     "        <h3>📈 Resource Distribution</h3>";
     "        <canvas id=" ++ quoted "hostsChart" ++ " width=" ++ quoted "400" ++ " height=" ++ quoted "200" ++ "></canvas>";
     "    </div>"]).

Section Visualizer.

(** The interpreter's conversions: numbers in templates,
    [parseInt(s, 16)], [n.toString(16)], [JSON.stringify] on arrays of
    strings and of numbers, and [new Date(x).toLocaleString()]. *)
Variable Number_toString : number -> string.
Variable parseInt16 : string -> number.
Variable Number_toString16 : number -> string.
Variable JSON_stringify_strings : list string -> string.
Variable JSON_stringify_numbers : list number -> string.
Variable Date_toLocaleString : option string -> string.

Definition darkenColor (color : string) (percent : number) : string :=
  let num := parseInt16 color in
  let amt := Math_round (decimal 255 2 * percent)%js in
  let R := (shift_right num 16 - amt)%js in
  let G := (bit_and (shift_right num 8) (of_Z 255) - amt)%js in
  let B := (bit_and num (of_Z 255) - amt)%js in
  let clamp (x : number) :=
    if (x <? of_Z 255)%js then (if (x <? of_Z 1)%js then of_Z 0 else x)
    else of_Z 255 in
  String_slice 1
    (Number_toString16
       (((of_Z 16777216 + clamp R * of_Z 65536) + clamp G * of_Z 256) + clamp B)%js).

(** [age ? `${age} days` : 'Unknown'], with the unit of the card. *)
Definition age_or_unknown (age : nullable) (unit : string) : string :=
  if number_truthy age then show Number_toString age ++ unit else "Unknown".

Definition generateReasonsSection (scanResult : ScanObject) : Completion string :=
  if Nat.eqb (List.length (reasons scanResult)) 0 then Returned EmptyString
  else
  template
    [Text (text
           [EmptyString;
            "    <div class=" ++ quoted "reasons" ++ ">";
            "        <h4>🚨 Security Analysis Results</h4>";
            "        <ul>";
            "            "]);
     Value (Returned (join EmptyString (map
             (fun reason => "<li>" ++ reason ++ "</li>") (reasons scanResult))));
     Text (text
           [EmptyString;
            "        </ul>";
            "    </div>"])].

Definition generateDomainCard (scanResult : ScanObject) : Completion string :=
  template
    [Text (text
           [EmptyString;
            "    <div class=" ++ quoted "card" ++ ">";
            "        <h3>🌐 Domain Information</h3>";
            "        <div class=" ++ quoted "metric" ++ ">";
            "            <span class=" ++ quoted "metric-label" ++ ">Domain Age</span>";
            "            <span class=" ++ double_quote ++ "metric-value "]);
     Value (Returned (getAgeClass (domainAgeDays scanResult)));
     Text (text
           [double_quote ++ ">";
            "                "]);
     Value (Returned (age_or_unknown (domainAgeDays scanResult) " days"));
     Text (text
           [EmptyString;
            "            </span>";
            "        </div>";
            "        <div class=" ++ quoted "metric" ++ ">";
            "            <span class=" ++ quoted "metric-label" ++ ">TLS Certificate Age</span>";
            "            <span class=" ++ double_quote ++ "metric-value "]);
     Value (Returned (getAgeClass (tlsAgeDays scanResult)));
     Text (text
           [double_quote ++ ">";
            "                "]);
     Value (Returned (age_or_unknown (tlsAgeDays scanResult) " days"));
     Text (text
           [EmptyString;
            "            </span>";
            "        </div>";
            "        <div class=" ++ quoted "metric" ++ ">";
            "            <span class=" ++ quoted "metric-label" ++ ">Wayback First Seen</span>";
            "            <span class=" ++ quoted "metric-value" ++ ">";
            "                "]);
     Value (Returned (age_or_unknown (waybackFirstSeenDays scanResult) " days ago"));
     Text (text
           [EmptyString;
            "            </span>";
            "        </div>";
            "        <div class=" ++ quoted "metric" ++ ">";
            "            <span class=" ++ quoted "metric-label" ++ ">Protocol</span>";
            "            <span class=" ++ quoted "metric-value" ++ ">"]);
     Value (read (technical scanResult) "protocol"
             (fun technical => protocol technical));
     Text (text
           ["</span>";
            "        </div>";
            "    </div>"])].

Definition generateContentCard (scanResult : ScanObject) : Completion string :=
  template
    [Text (text
           [EmptyString;
            "    <div class=" ++ quoted "card" ++ ">";
            "        <h3>📄 Content Analysis</h3>";
            "        <div class=" ++ quoted "metric" ++ ">";
            "            <span class=" ++ quoted "metric-label" ++ ">Page Title</span>";
            "            <span class=" ++ quoted "metric-value" ++ ">"]);
     Value (read (content scanResult) "title"
             (fun content =>
               if String.eqb (title content) EmptyString
               then "No title" else title content));
     Text (text
           ["</span>";
            "        </div>";
            "        <div class=" ++ quoted "metric" ++ ">";
            "            <span class=" ++ quoted "metric-label" ++ ">Total Headings</span>";
            "            <span class=" ++ quoted "metric-value" ++ ">"]);
     Value (read (content scanResult) "totalHeadings"
             (fun content => show_nat Number_toString (totalHeadings content)));
     Text (text
           ["</span>";
            "        </div>";
            "        <div class=" ++ quoted "metric" ++ ">";
            "            <span class=" ++ quoted "metric-label" ++ ">Suspicious Keywords</span>";
            "            <span class=" ++ double_quote ++ "metric-value "]);
     Value (read (content scanResult) "suspiciousKeywords"
             (fun content =>
               if length_gt (suspiciousKeywords content) 3
               then "suspicious" else "safe"));
     Text (text
           [double_quote ++ ">";
            "                "]);
     Value (read (content scanResult) "suspiciousKeywords"
             (fun content =>
               show_nat Number_toString (List.length (suspiciousKeywords content))));
     Text (text
           [EmptyString;
            "            </span>";
            "        </div>";
            "        <div class=" ++ quoted "metric" ++ ">";
            "            <span class=" ++ quoted "metric-label" ++ ">Has Popups/Redirects</span>";
            "            <span class=" ++ double_quote ++ "metric-value "]);
     Value (read (content scanResult) "hasPopups"
             (fun content =>
               if hasPopups content || hasRedirects content
               then "suspicious" else "safe"));
     Text (text
           [double_quote ++ ">";
            "                "]);
     Value (read (content scanResult) "hasPopups"
             (fun content =>
               if hasPopups content || hasRedirects content then "Yes" else "No"));
     Text (text
           [EmptyString;
            "            </span>";
            "        </div>";
            "    </div>"])].

Definition generateFormsCard (scanResult : ScanObject) : Completion string :=
  template
    [Text (text
           [EmptyString;
            "    <div class=" ++ quoted "card" ++ ">";
            "        <h3>📝 Form Analysis</h3>";
            "        <div class=" ++ quoted "metric" ++ ">";
            "            <span class=" ++ quoted "metric-label" ++ ">Total Forms</span>";
            "            <span class=" ++ quoted "metric-value" ++ ">"]);
     Value (read (forms scanResult) "totalForms"
             (fun forms => show_nat Number_toString (totalForms forms)));
     Text (text
           ["</span>";
            "        </div>";
            "        <div class=" ++ quoted "metric" ++ ">";
            "            <span class=" ++ quoted "metric-label" ++ ">Password Inputs</span>";
            "            <span class=" ++ double_quote ++ "metric-value "]);
     Value (read (forms scanResult) "hasPasswordForm"
             (fun forms => if hasPasswordForm forms then "suspicious" else "safe"));
     Text (text
           [double_quote ++ ">";
            "                "]);
     Value (read (forms scanResult) "passwordInputs"
             (fun forms => show_nat Number_toString (passwordInputs forms)));
     Text (text
           [EmptyString;
            "            </span>";
            "        </div>";
            "        <div class=" ++ quoted "metric" ++ ">";
            "            <span class=" ++ quoted "metric-label" ++ ">Email Inputs</span>";
            "            <span class=" ++ quoted "metric-value" ++ ">"]);
     Value (read (forms scanResult) "emailInputs"
             (fun forms => show_nat Number_toString (emailInputs forms)));
     Text (text
           ["</span>";
            "        </div>";
            "        <div class=" ++ quoted "metric" ++ ">";
            "            <span class=" ++ quoted "metric-label" ++ ">Suspicious Actions</span>";
            "            <span class=" ++ double_quote ++ "metric-value "]);
     Value (read (forms scanResult) "suspiciousActions"
             (fun forms =>
               if length_gt (suspiciousActions forms) 0 then "suspicious" else "safe"));
     Text (text
           [double_quote ++ ">";
            "                "]);
     Value (read (forms scanResult) "suspiciousActions"
             (fun forms =>
               show_nat Number_toString (List.length (suspiciousActions forms))));
     Text (text
           [EmptyString;
            "            </span>";
            "        </div>";
            "    </div>"])].

Definition generateLinksCard (scanResult : ScanObject) : Completion string :=
  template
    [Text (text
           [EmptyString;
            "    <div class=" ++ quoted "card" ++ ">";
            "        <h3>🔗 Link Analysis</h3>";
            "        <div class=" ++ quoted "metric" ++ ">";
            "            <span class=" ++ quoted "metric-label" ++ ">Total Links</span>";
            "            <span class=" ++ quoted "metric-value" ++ ">"]);
     Value (read (links scanResult) "totalLinks"
             (fun links => show_nat Number_toString (totalLinks links)));
     Text (text
           ["</span>";
            "        </div>";
            "        <div class=" ++ quoted "metric" ++ ">";
            "            <span class=" ++ quoted "metric-label" ++ ">External Links</span>";
            "            <span class=" ++ quoted "metric-value" ++ ">"]);
     Value (read (links scanResult) "externalLinks"
             (fun links => show_nat Number_toString (externalLinks links)));
     Text (text
           ["</span>";
            "        </div>";
            "        <div class=" ++ quoted "metric" ++ ">";
            "            <span class=" ++ quoted "metric-label" ++ ">Suspicious Link Patterns</span>";
            "            <span class=" ++ double_quote ++ "metric-value "]);
     Value (read (links scanResult) "suspiciousLinkPatterns"
             (fun links =>
               if length_gt (suspiciousLinkPatterns links) 0
               then "suspicious" else "safe"));
     Text (text
           [double_quote ++ ">";
            "                "]);
     Value (read (links scanResult) "suspiciousLinkPatterns"
             (fun links =>
               show_nat Number_toString (List.length (suspiciousLinkPatterns links))));
     Text (text
           [EmptyString;
            "            </span>";
            "        </div>";
            "    </div>"])].

Definition generateTechnicalCard (scanResult : ScanObject) : Completion string :=
  template
    [Text (text
           [EmptyString;
            "    <div class=" ++ quoted "card" ++ ">";
            "        <h3>⚙️ Technical Details</h3>";
            "        <div class=" ++ quoted "metric" ++ ">";
            "            <span class=" ++ quoted "metric-label" ++ ">Domain</span>";
            "            <span class=" ++ quoted "metric-value" ++ ">"]);
     Value (read (technical scanResult) "domain" (fun technical => domain technical));
     Text (text
           ["</span>";
            "        </div>";
            "        <div class=" ++ quoted "metric" ++ ">";
            "            <span class=" ++ quoted "metric-label" ++ ">eTLD+1</span>";
            "            <span class=" ++ quoted "metric-value" ++ ">"]);
     Value (read (technical scanResult) "pageETLD"
             (fun technical => or_null (pageETLD technical)));
     Text (text
           ["</span>";
            "        </div>";
            "        <div class=" ++ quoted "metric" ++ ">";
            "            <span class=" ++ quoted "metric-label" ++ ">Port</span>";
            "            <span class=" ++ quoted "metric-value" ++ ">"]);
     Value (read (technical scanResult) "port" (fun technical => port technical));
     Text (text
           ["</span>";
            "        </div>";
            "        <div class=" ++ quoted "metric" ++ ">";
            "            <span class=" ++ quoted "metric-label" ++ ">Path</span>";
            "            <span class=" ++ quoted "metric-value" ++ ">"]);
     Value (read (technical scanResult) "pathname"
             (fun technical => pathname technical));
     Text (text
           ["</span>";
            "        </div>";
            "    </div>"])].

Definition generateResourcesCard (scanResult : ScanObject) : Completion string :=
  template
    [Text (text
           [EmptyString;
            "    <div class=" ++ quoted "card" ++ ">";
            "        <h3>📦 Resource Analysis</h3>";
            "        <div class=" ++ quoted "metric" ++ ">";
            "            <span class=" ++ quoted "metric-label" ++ ">External Hosts</span>";
            "            <span class=" ++ double_quote ++ "metric-value "]);
     Value (Returned 
             (if Nat.ltb 8 (externalHosts scanResult) then "suspicious" else "safe"));
     Text (text
           [double_quote ++ ">";
            "                "]);
     Value (Returned (show_nat Number_toString (externalHosts scanResult)));
     Text (text
           [EmptyString;
            "            </span>";
            "        </div>";
            "        <div class=" ++ quoted "metric" ++ ">";
            "            <span class=" ++ quoted "metric-label" ++ ">Iframes</span>";
            "            <span class=" ++ quoted "metric-value" ++ ">"]);
     Value (read (iframes scanResult) "totalIframes"
             (fun iframes => show_nat Number_toString (totalIframes iframes)));
     Text (text
           ["</span>";
            "        </div>";
            "        <div class=" ++ quoted "metric" ++ ">";
            "            <span class=" ++ quoted "metric-label" ++ ">Suspicious Iframes</span>";
            "            <span class=" ++ double_quote ++ "metric-value "]);
     Value (read (iframes scanResult) "suspiciousIframes"
             (fun iframes =>
               if Nat.ltb 0 (suspiciousIframes iframes) then "suspicious" else "safe"));
     Text (text
           [double_quote ++ ">";
            "                "]);
     Value (read (iframes scanResult) "suspiciousIframes"
             (fun iframes => show_nat Number_toString (suspiciousIframes iframes)));
     Text (text
           [EmptyString;
            "            </span>";
            "        </div>";
            "    </div>"])].

Definition generateHTML (scanResult : ScanObject) (reportId : string)
  : Completion string :=
  let riskColor := getRiskColor (riskLevel scanResult) in
  let scorePercentage := scorePercentage scanResult in
  template
    [Text (text
           ["<!DOCTYPE html>";
            "<html lang=" ++ quoted "en" ++ ">";
            "<head>";
            "    <meta charset=" ++ quoted "UTF-8" ++ ">";
            "    <meta name=" ++ quoted "viewport" ++ " content=" ++ quoted "width=device-width, initial-scale=1.0" ++ ">";
            "    <title>VibeSniff Report - "]);
     Value (read (technical scanResult) "domain" (fun technical => domain technical));
     Text (text
           ["</title>";
            "    <script src=" ++ quoted "https://cdn.jsdelivr.net/npm/chart.js" ++ "></script>";
            "    <style>";
            "        * { margin: 0; padding: 0; box-sizing: border-box; }";
            "        body { ";
            "            font-family: -apple-system, BlinkMacSystemFont, 'Segoe UI', Roboto, sans-serif;";
            "            background: linear-gradient(135deg, #667eea 0%, #764ba2 100%);";
            "            min-height: 100vh;";
            "            padding: 20px;";
            "        }";
            "        .container { ";
            "            max-width: 1200px; ";
            "            margin: 0 auto; ";
            "            background: white; ";
            "            border-radius: 20px; ";
            "            box-shadow: 0 20px 40px rgba(0,0,0,0.1);";
            "            overflow: hidden;";
            "        }";
            "        .header { ";
            "            background: linear-gradient(135deg, #"]);
     Value (Returned (riskColor));
     Text (" 0%, #");
     Value (Returned (darkenColor riskColor (of_Z 20)));
     Text (text
           [" 100%);";
            "            color: white; ";
            "            padding: 40px; ";
            "            text-align: center;";
            "        }";
            "        .risk-badge {";
            "            display: inline-block;";
            "            background: rgba(255,255,255,0.2);";
            "            padding: 10px 20px;";
            "            border-radius: 25px;";
            "            font-size: 18px;";
            "            font-weight: bold;";
            "            margin: 10px 0;";
            "        }";
            "        .score-circle {";
            "            width: 120px;";
            "            height: 120px;";
            "            border-radius: 50%;";
            "            background: conic-gradient(#"]);
     Value (Returned (riskColor));
     Text (" 0deg, #");
     Value (Returned (riskColor));
     Text (" ");
     Value (Returned (Number_toString (scorePercentage * decimal 36 1)%js));
     Text ("deg, #e0e0e0 ");
     Value (Returned (Number_toString (scorePercentage * decimal 36 1)%js));
     Text (text
           ["deg, #e0e0e0 360deg);";
            "            display: flex;";
            "            align-items: center;";
            "            justify-content: center;";
            "            margin: 20px auto;";
            "            position: relative;";
            "        }";
            "        .score-circle::before {";
            "            content: '';";
            "            width: 80px;";
            "            height: 80px;";
            "            background: white;";
            "            border-radius: 50%;";
            "            position: absolute;";
            "        }";
            "        .score-text {";
            "            font-size: 24px;";
            "            font-weight: bold;";
            "            color: #"]);
     Value (Returned (riskColor));
     Text (text
           [";";
            "            z-index: 1;";
            "        }";
            "        .content { padding: 40px; }";
            "        .grid { ";
            "            display: grid; ";
            "            grid-template-columns: repeat(auto-fit, minmax(300px, 1fr)); ";
            "            gap: 30px; ";
            "            margin: 30px 0;";
            "        }";
            "        .card { ";
            "            background: #f8f9fa; ";
            "            padding: 25px; ";
            "            border-radius: 15px; ";
            "            border-left: 5px solid #"]);
     Value (Returned (riskColor));
     Text (text
           [";";
            "        }";
            "        .card h3 { ";
            "            color: #"]);
     Value (Returned (riskColor));
     Text (text
           ["; ";
            "            margin-bottom: 15px; ";
            "            font-size: 18px;";
            "        }";
            "        .metric { ";
            "            display: flex; ";
            "            justify-content: space-between; ";
            "            margin: 10px 0; ";
            "            padding: 8px 0;";
            "            border-bottom: 1px solid #e0e0e0;";
            "        }";
            "        .metric:last-child { border-bottom: none; }";
            "        .metric-label { font-weight: 500; color: #666; }";
            "        .metric-value { font-weight: bold; color: #333; }";
            "        .reasons { ";
            "            background: #fff3cd; ";
            "            border: 1px solid #ffeaa7; ";
            "            border-radius: 10px; ";
            "            padding: 20px; ";
            "            margin: 20px 0;";
            "        }";
            "        .reasons h4 { color: #856404; margin-bottom: 15px; }";
            "        .reasons ul { list-style: none; }";
            "        .reasons li { ";
            "            padding: 8px 0; ";
            "            border-bottom: 1px solid #ffeaa7; ";
            "            color: #856404;";
            "        }";
            "        .reasons li:last-child { border-bottom: none; }";
            "        .chart-container { ";
            "            background: white; ";
            "            padding: 20px; ";
            "            border-radius: 15px; ";
            "            margin: 20px 0;";
            "            box-shadow: 0 5px 15px rgba(0,0,0,0.08);";
            "        }";
            "        .footer { ";
            "            background: #f8f9fa; ";
            "            padding: 20px; ";
            "            text-align: center; ";
            "            color: #666;";
            "            border-top: 1px solid #e0e0e0;";
            "        }";
            "        .suspicious { color: #dc3545; font-weight: bold; }";
            "        .warning { color: #ffc107; font-weight: bold; }";
            "        .safe { color: #28a745; font-weight: bold; }";
            "        .code { ";
            "            background: #f1f3f4; ";
            "            padding: 2px 6px; ";
            "            border-radius: 4px; ";
            "            font-family: 'Monaco', 'Menlo', monospace; ";
            "            font-size: 12px;";
            "        }";
            "    </style>";
            "</head>";
            "<body>";
            "    <div class=" ++ quoted "container" ++ ">";
            "        <div class=" ++ quoted "header" ++ ">";
            "            <h1>🔍 VibeSniff Lite Report</h1>";
            "            <div class=" ++ quoted "risk-badge" ++ ">Risk Level: "]);
     Value (Returned (or_undefined (riskLevel scanResult)));
     Text (text
           ["</div>";
            "            <div class=" ++ quoted "score-circle" ++ ">";
            "                <div class=" ++ quoted "score-text" ++ ">"]);
     Value (Returned (Number_toString scorePercentage));
     Text (text
           ["%</div>";
            "            </div>";
            "            <h2>"]);
     Value (read (technical scanResult) "domain" (fun technical => domain technical));
     Text (text
           ["</h2>";
            "            <p class=" ++ quoted "code" ++ ">"]);
     Value (Returned (url scanResult));
     Text (text
           ["</p>";
            "        </div>";
            EmptyString;
            "        <div class=" ++ quoted "content" ++ ">";
            "            "]);
     Value (generateReasonsSection scanResult);
     Text (text
           [EmptyString;
            "            ";
            "            <div class=" ++ quoted "grid" ++ ">";
            "                "]);
     Value (generateDomainCard scanResult);
     Text (text
           [EmptyString;
            "                "]);
     Value (generateContentCard scanResult);
     Text (text
           [EmptyString;
            "                "]);
     Value (generateFormsCard scanResult);
     Text (text
           [EmptyString;
            "                "]);
     Value (generateLinksCard scanResult);
     Text (text
           [EmptyString;
            "                "]);
     Value (generateTechnicalCard scanResult);
     Text (text
           [EmptyString;
            "                "]);
     Value (generateResourcesCard scanResult);
     Text (text
           [EmptyString;
            "            </div>";
            EmptyString;
            "            "]);
     Value (Returned generateChartsSection);
     Text (text
           [EmptyString;
            "        </div>";
            EmptyString;
            "        <div class=" ++ quoted "footer" ++ ">";
            "            <p>Generated by VibeSniff Lite on "]);
     Value (Returned (Date_toLocaleString (scannedAt scanResult)));
     Text (text
           ["</p>";
            "            <p>Report ID: "]);
     Value (Returned (reportId));
     Text (text
           ["</p>";
            "        </div>";
            "    </div>";
            EmptyString;
            "    <script>";
            "        // Risk factors chart";
            "        const riskCtx = document.getElementById('riskChart');";
            "        if (riskCtx) {";
            "            new Chart(riskCtx, {";
            "                type: 'doughnut',";
            "                data: {";
            "                    labels: "]);
     Value (read (riskFactors scanResult) "map"
             (fun riskFactors => JSON_stringify_strings (map factor riskFactors)));
     Text (text
           [",";
            "                    datasets: [{";
            "                        data: "]);
     Value (read (riskFactors scanResult) "map"
             (fun riskFactors => JSON_stringify_numbers (map weight riskFactors)));
     Text (text
           [",";
            "                        backgroundColor: [";
            "                            '#ff6384', '#36a2eb', '#ffce56', '#4bc0c0', ";
            "                            '#9966ff', '#ff9f40', '#ff6384', '#c9cbcf'";
            "                        ]";
            "                    }]";
            "                },";
            "                options: {";
            "                    responsive: true,";
            "                    plugins: {";
            "                        legend: { position: 'bottom' }";
            "                    }";
            "                }";
            "            });";
            "        }";
            EmptyString;
            "        // External hosts chart";
            "        const hostsCtx = document.getElementById('hostsChart');";
            "        if (hostsCtx) {";
            "            new Chart(hostsCtx, {";
            "                type: 'bar',";
            "                data: {";
            "                    labels: ['External Hosts', 'Internal Resources'],";
            "                    datasets: [{";
            "                        label: 'Resource Count',";
            "                        data: ["]);
     Value (Returned (show_nat Number_toString (externalHosts scanResult)));
     Text (", ");
     Value (Returned 
             (Number_toString (Math_max (of_Z 1) (of_Z 10 - of_nat (externalHosts
               scanResult))%js)));
     Text (text
           ["],";
            "                        backgroundColor: ['#ff6384', '#36a2eb']";
            "                    }]";
            "                },";
            "                options: {";
            "                    responsive: true,";
            "                    scales: { y: { beginAtZero: true } }";
            "                }";
            "            });";
            "        }";
            "    </script>";
            "</body>";
            "</html>"])].

(** [generateReport]: the identifier is the one that [randomUUID]
    returns; the second component is the list of the files written, each
    with its content. *)
Definition generateReport (reportId : string) (scanResult : ScanObject)
  : Completion ReportInfo * list (string * string) :=
  let reportPath := "reports/report-" ++ reportId ++ ".html" in
  match generateHTML scanResult reportId with
  | Returned html =>
      (Returned {| reportId := reportId;
                   reportPath := reportPath;
                   reportUrl := "/reports/report-" ++ reportId ++ ".html" |},
       [(reportPath, html)])
  | Thrown e => (Thrown e, [])
  end.

End Visualizer.

End Report.

(** ** The objects handed to the report *)

(** [riskLevel] is one of three strings. *)
Definition RiskLevel_name (l : RiskLevel) : string :=
  match l with
  | LOW => "LOW"
  | MEDIUM => "MEDIUM"
  | HIGH => "HIGH"
  end.

(** The object that [scan] returns: every property that the report
    reads is present. *)
Definition scan_object (url : string) (r : ScanResult)
    (content : Report.Content) (forms : Report.Forms) (links : Report.Links)
    (iframes : Report.Iframes) (technical : Report.Technical) (scannedAt : string)
  : Report.ScanObject :=
  {| Report.url := url;
     Report.score := result_score r;
     Report.riskLevel := Some (RiskLevel_name (riskLevel r));
     Report.reasons := result_reasons r;
     Report.riskFactors := Some (result_riskFactors r);
     Report.domainAgeDays := domainAgeDays r;
     Report.tlsAgeDays := tlsAgeDays r;
     Report.waybackFirstSeenDays := waybackFirstSeenDays r;
     Report.externalHosts := externalHosts r;
     Report.content := Some content;
     Report.forms := Some forms;
     Report.links := Some links;
     Report.iframes := Some iframes;
     Report.technical := Some technical;
     Report.scannedAt := Some scannedAt |}.

(** The object that the inline scan of the server returns: it has the
    properties [url], [score], [reasons], the three ages and
    [externalHosts] (and [externalHostList] and [screenshot], which the
    report does not read), and no other. *)
Definition server_object (url : string) (r : ServerScanResult) : Report.ScanObject :=
  {| Report.url := url;
     Report.score := server_score r;
     Report.riskLevel := None;
     Report.reasons := server_reasons r;
     Report.riskFactors := None;
     Report.domainAgeDays := server_domainAgeDays r;
     Report.tlsAgeDays := server_tlsAgeDays r;
     Report.waybackFirstSeenDays := server_waybackFirstSeenDays r;
     Report.externalHosts := server_externalHosts r;
     Report.content := None;
     Report.forms := None;
     Report.links := None;
     Report.iframes := None;
     Report.technical := None;
     Report.scannedAt := None |}.

(** ** The [/scan] endpoint of the server *)

(** The body of a response: the properties of an error object, or the
    scan result with its [reportUrl]. *)
Inductive Body :=
| ErrorBody (properties : list (string * string))
| ResultBody (result : ServerScanResult) (reportUrl : string).

Record Response := {
  status : nat;
  body : Body
}.

Section Endpoint.

Variable URL_parse : string -> option URL.
Variable Number_toString : number -> string.
Variable parseInt16 : string -> number.
Variable Number_toString16 : number -> string.
Variable JSON_stringify_strings : list string -> string.
Variable JSON_stringify_numbers : list number -> string.
Variable Date_toLocaleString : option string -> string.

(** The handler of [GET /scan].  [url] is the query parameter, a string
    or absent; [browsed] is what loading the page, analysing it and
    awaiting the three providers yields inside the inline scan: the
    signals and the page analysis, or the error of the step that failed;
    [reportId] is what [randomUUID] returns for the report.  The result
    is the response together with the report files written. *)
Definition scan_endpoint (url : option string)
    (browsed : Awaited (Signals * PageAnalysis)) (reportId : string)
  : Response * list (string * string) :=
  if negb (truthy url) then
    ({| status := 400;
        body := ErrorBody [("error", "Missing required parameter: url");
                           ("example", "/scan?url=https://example.com")] |}, [])
  else
    let url := match url with Some u => u | None => EmptyString end in
    match URL_parse url with
    | None =>
        ({| status := 400;
            body := ErrorBody [("error", "Invalid URL format"); ("provided", url)] |},
         [])
    | Some _ =>
        let failed (error : JsError) :=
          {| status := 500;
             body := ErrorBody [("error", "Scan failed");
                                ("message", message error)] |} in
        match browsed with
        | Rejects error => (failed error, [])
        | Resolves (sig, page) =>
            let result := server_scan Number_toString sig page in
            match Report.generateReport Number_toString parseInt16 Number_toString16
                    JSON_stringify_strings JSON_stringify_numbers
                    Date_toLocaleString reportId (server_object url result) with
            | (Returned report, files) =>
                ({| status := 200;
                    body := ResultBody result (Report.reportUrl report) |}, files)
            | (Thrown error, files) => (failed error, files)
            end
        end
    end.

End Endpoint.

(** ** The duration that [scan] reports *)

(** [Date.now() - Date.now()]: the clock is read twice, for the left
    operand first. *)
Definition scanDuration (first second : Z) : number :=
  (of_Z first - of_Z second)%js.

(** ** Conversions for the examples *)

(** [parseInt(s, 16)] on a string of hexadecimal digits, and
    [n.toString(16)] on a non-negative integer. *)
Definition parseInt16_digits (s : string) : number :=
  of_Z (Z.of_N (HexString.to_N ("0x" ++ s))).

Definition Number_toString16_integer (x : number) : string :=
  match to_Z x with
  | Some z => String_slice 2 (HexString.of_N (Z.to_N z))
  | None => EmptyString
  end.

(** The integers from [lo] on, [n] of them. *)
Definition Z_range (lo : Z) (n : nat) : list Z :=
  map (fun i => (lo + Z.of_nat i)%Z) (seq 0 n).

(** The channels of [darkenColor] are clamped to [0..255]. *)
Definition clamp_channel (x : number) : number :=
  if (x <? of_Z 255)%js then (if (x <? of_Z 1)%js then of_Z 0 else x)
  else of_Z 255.

Definition check_clamp (x : Z) : bool :=
  identical (clamp_channel (of_Z x)) (of_Z (Z.max 0 (Z.min 255 x))).

(** The amount that [darkenColor] subtracts for a whole percentage:
    [Math.round(2.55 * percent)], as an integer. *)
Definition darken_amount (percent : Z) : Z :=
  match to_Z (Math_round (decimal 255 2 * of_Z percent)%js) with
  | Some amt => amt
  | None => 0%Z
  end.

Definition check_amount (percent : Z) : bool :=
  identical (Math_round (decimal 255 2 * of_Z percent)%js)
            (of_Z (darken_amount percent))
  && (255 * percent - 50 <=? 100 * darken_amount percent)%Z
  && (100 * darken_amount percent <=? 255 * percent + 50)%Z.

(** The percentage shown for a score of [k] hundredths. *)
Definition check_percentage (k : Z) : bool :=
  identical (Math_round (decimal k 2 * of_Z 100)%js) (of_Z k).


(** The sub-objects of a scan result in the examples. *)
Definition shop_content : Report.Content :=
  {| Report.title := "Sign in"; Report.totalHeadings := 1;
     Report.suspiciousKeywords := ["confirm"; "security"; "social security"];
     Report.hasPopups := false; Report.hasRedirects := false |}.

Definition shop_forms : Report.Forms :=
  {| Report.totalForms := 2; Report.hasPasswordForm := true;
     Report.passwordInputs := 1; Report.emailInputs := 0;
     Report.suspiciousActions := ["https://collect.example.net/login"] |}.

Definition shop_links : Report.Links :=
  {| Report.totalLinks := 1; Report.externalLinks := 1;
     Report.suspiciousLinkPatterns := [] |}.

Definition shop_iframes : Report.Iframes :=
  {| Report.totalIframes := 1; Report.suspiciousIframes := 0 |}.

Definition shop_technical : Report.Technical :=
  {| Report.domain := "shop.example.com"; Report.pageETLD := Some "example.com";
     Report.protocol := "https:"; Report.port := "443"; Report.pathname := "/" |}.

(** ** The page analysis of the server's inline scan *)

Module Inline.

Section Analysis.

Variable URL_parse : string -> option URL.
Variable URL_resolve : string -> string -> option Resolved.
Variable url : string.
Variable parsedUrl : URL.
Variable document : Page.Document.

Definition domain : string := hostname parsedUrl.

Definition pageETLD : option string := getETLDPlusOne URL_parse url.

Definition hasPasswordForm : bool :=
  Nat.ltb 0 (List.length (Page.passwordInputs document)).

(** The callback of [passwordInputs.each]: the state is
    [hasActionMismatch]. *)
Definition check_action (hasActionMismatch : bool) (input : option Page.Form)
  : bool * bool :=
  let action := match input with
                | Some form => Page.action form
                | None => None
                end in
  if truthy action then
    match URL_resolve (match action with Some a => a | None => "" end) url with
    | Some actionUrl =>
        let actionETLD := getETLDPlusOne URL_parse (href actionUrl) in
        if truthy actionETLD && differs actionETLD pageETLD then (true, false)
        else (hasActionMismatch, true)
    | None => (hasActionMismatch, true)
    end
  else (hasActionMismatch, true).

(** Check for form action mismatches. *)
Definition hasActionMismatch : bool :=
  if hasPasswordForm then each check_action (Page.passwordInputs document) false
  else false.

(** The callback of the three loops over resources. *)
Definition add_host (externalHosts : list string) (src : string) : list string :=
  if negb (String.eqb src "") then
    match URL_resolve src url with
    | Some srcUrl =>
        if negb (String.eqb (hostname (resolved srcUrl)) domain)
        then Set_add externalHosts (hostname (resolved srcUrl))
        else externalHosts
    | None => externalHosts
    end
  else externalHosts.

(** Count external asset hosts. *)
Definition externalHosts : list string :=
  fold_left add_host (Page.links document)
    (fold_left add_host (Page.images document)
       (fold_left add_host (Page.scripts document) [])).

Definition externalHostsCount : nat := List.length externalHosts.

(** The variables that the inline scoring reads; the inline scan
    computes no other. *)
Definition analysis : PageAnalysis :=
  Build_PageAnalysis hasPasswordForm hasActionMismatch [] externalHostsCount
    [] [] false false [].

End Analysis.

End Inline.

(** ** The command line *)

Module Cli.


Section Main.

Variable Number_toString : number -> string.
Variable parseInt16 : string -> number.
Variable Number_toString16 : number -> string.
Variable JSON_stringify_strings : list string -> string.
Variable JSON_stringify_numbers : list number -> string.
Variable Date_toLocaleString : option string -> string.



End Main.

End Cli.

(** ** The three lookups of [scan] together *)

(** [Promise.all] of three promises: rejected as soon as one of them is
    (when several are, the one that rejected first in time wins; the
    order of the array is taken here), pending while one of them is, and
    otherwise fulfilled with the three values in the order of the
    array. *)
Definition Promise_all {A : Type} (a b c : Promise A) : Promise (A * A * A) :=
  match a, b, c with
  | Rejected e, _, _ => Rejected e
  | _, Rejected e, _ => Rejected e
  | _, _, Rejected e => Rejected e
  | Fulfilled x, Fulfilled y, Fulfilled z => Fulfilled (x, y, z)
  | _, _, _ => Pending
  end.

(** An [async] function at its [await]: while the promise of the library
    is pending ([None]) the promise of the function is pending too; once
    the library's promise has settled, the function runs on with what it
    yields. *)
Definition awaiting {A B : Type} (settled : option A) (continue : A -> Promise B)
  : Promise B :=
  match settled with
  | Some a => continue a
  | None => Pending
  end.

(** Get domain and TLS ages: what [scan] awaits before it scores.  The
    registration service and the archive have answered or not yet
    ([None]: [whois], [fetch] or [response.json()] is still pending); the
    socket has seen the events listed so far. *)
Definition lookups (Date_parse : string -> Date) (now : Z)
    (whois : option (Awaited WhoisResult)) (connection : Connection)
    (fetched : option Fetched)
  : Promise Signals :=
  match Promise_all (awaiting whois (getDomainAge Date_parse now))
                    (getTLSAge Date_parse now connection)
                    (awaiting fetched (getWaybackFirstSeen Date_parse now)) with
  | Fulfilled (domainAge, tlsAge, waybackFirstSeen) =>
      Fulfilled {| domainAge := domainAge; tlsAge := tlsAge;
                   waybackFirstSeen := waybackFirstSeen |}
  | Rejected e => Rejected e
  | Pending => Pending
  end.
(** ** General facts about the embedding *)

Lemma identical_eq (a b : number) : identical a b = true -> a = b.
Proof.
  destruct a, b; simpl; try discriminate; intros H.
  - apply Bool.eqb_prop in H. now subst.
  - apply Bool.eqb_prop in H. now subst.
  - reflexivity.
  - apply andb_prop in H. destruct H as [H He].
    apply andb_prop in H. destruct H as [Hs Hm].
    apply Bool.eqb_prop in Hs. apply Pos.eqb_eq in Hm. apply Z.eqb_eq in He.
    now subst.
Qed.

Lemma filter_in_sublists {A : Type} (f : A -> bool) (l : list A) :
  In (filter f l) (sublists l).
Proof.
  induction l as [|x t IH]; simpl.
  - now left.
  - apply in_or_app. destruct (f x).
    + left. now apply in_map.
    + now right.
Qed.

Lemma fired_rules_in_sublists (sig : Signals) (page : PageAnalysis) :
  In (fired_rules sig page) (sublists rule_set).
Proof. apply filter_in_sublists. Qed.

Section Trace.

Variable Number_toString : number -> string.
Variable sig : Signals.
Variable page : PageAnalysis.

Let contrib := contribute Number_toString sig page.
Let step (v : Vars) (r : Rule) : Vars :=
  if rule_fires sig page r then contrib v r else v.

Lemma fold_filter_step (l : list Rule) (v : Vars) :
  fold_left contrib (filter (rule_fires sig page) l) v = fold_left step l v.
Proof.
  revert v. induction l as [|r t IH]; intros v; simpl; [reflexivity|].
  unfold step at 2. destruct (rule_fires sig page r); simpl; apply IH.
Qed.

Lemma domain_age_analysis_steps (v : Vars) :
  domain_age_analysis Number_toString sig v = step (step v NewDomain) RecentDomain.
Proof.
  unfold domain_age_analysis, step, rule_fires, rule_condition, not_null,
    lt_literal, ToNumber.
  cbv beta iota delta [contrib contribute rule_reason rule_factor
                       rule_observed].
  destruct (domainAge sig) as [d|]; [|reflexivity].
  set (c7 := (d <? of_Z 7)%js). set (c30 := (d <? of_Z 30)%js).
  destruct c7, c30; reflexivity.
Qed.

Lemma tls_certificate_analysis_step (v : Vars) :
  tls_certificate_analysis Number_toString sig v = step v NewCertificate.
Proof.
  unfold tls_certificate_analysis, step, rule_fires, rule_condition, not_null,
    lt_literal, ToNumber.
  cbv beta iota delta [contrib contribute rule_reason rule_factor
                       rule_observed].
  destruct (tlsAge sig) as [d|]; [|reflexivity].
  set (c7 := (d <? of_Z 7)%js). destruct c7; reflexivity.
Qed.

(** The variables after the rules are those obtained by letting the
    fired rules contribute one after the other. *)
Lemma rules_applied_trace :
  rules_applied Number_toString sig page
  = fold_left contrib (fired_rules sig page)
      {| score := of_Z 0; reasons := []; riskFactors := [] |}.
Proof.
  unfold fired_rules. rewrite fold_filter_step.
  unfold rules_applied, rule_set. simpl fold_left.
  rewrite domain_age_analysis_steps, tls_certificate_analysis_step.
  reflexivity.
Qed.

Lemma trace_score (l : list Rule) (v : Vars) :
  score (fold_left contrib l v)
  = fold_left (fun s r => (s + decimal (rule_weight r) 2)%js) l (score v).
Proof. revert v. induction l as [|r t IH]; intros v; simpl; [reflexivity|apply IH]. Qed.

Lemma trace_reasons (l : list Rule) (v : Vars) :
  reasons (fold_left contrib l v)
  = (reasons v ++ map (rule_reason Number_toString sig page) l)%list.
Proof.
  revert v. induction l as [|r t IH]; intros v; simpl.
  - now rewrite app_nil_r.
  - rewrite IH. simpl. unfold push. now rewrite <- app_assoc.
Qed.

Lemma trace_riskFactors (l : list Rule) (v : Vars) :
  riskFactors (fold_left contrib l v)
  = (riskFactors v ++ map (rule_factor sig page) l)%list.
Proof.
  revert v. induction l as [|r t IH]; intros v; simpl.
  - now rewrite app_nil_r.
  - rewrite IH. simpl. unfold push. now rewrite <- app_assoc.
Qed.

Lemma rules_applied_score :
  score (rules_applied Number_toString sig page) = accumulate (fired_rules sig page).
Proof. rewrite rules_applied_trace, trace_score. reflexivity. Qed.

Lemma rules_applied_reasons :
  reasons (rules_applied Number_toString sig page)
  = map (rule_reason Number_toString sig page) (fired_rules sig page).
Proof. rewrite rules_applied_trace, trace_reasons. reflexivity. Qed.

Lemma rules_applied_riskFactors :
  riskFactors (rules_applied Number_toString sig page)
  = map (rule_factor sig page) (fired_rules sig page).
Proof. rewrite rules_applied_trace, trace_riskFactors. reflexivity. Qed.

End Trace.

Lemma weight_value_decimal (r : Rule) : weight_value r = decimal (rule_weight r) 2.
Proof. destruct r; vm_compute; reflexivity. Qed.

Lemma accumulate_values_eq (l : list Rule) : accumulate l = accumulate_values l.
Proof.
  unfold accumulate, accumulate_values. generalize (of_Z 0).
  induction l as [|r t IH]; intros s; simpl; [reflexivity|].
  now rewrite IH, weight_value_decimal.
Qed.

Lemma check_score_all : forallb check_score (sublists rule_set) = true.
Proof. vm_compute. reflexivity. Qed.

Lemma check_weight_monotone_all :
  forallb check_weight_monotone (sublists rule_set) = true.
Proof. vm_compute. reflexivity. Qed.

Lemma check_decimals_sorted_true : check_decimals_sorted = true.
Proof. vm_compute. reflexivity. Qed.

Lemma threshold_high_decimal : decimal 7 1 = threshold_high.
Proof. vm_compute. reflexivity. Qed.

Lemma threshold_medium_decimal : decimal 4 1 = threshold_medium.
Proof. vm_compute. reflexivity. Qed.

(** ** The scoring part of [scan] *)

(** Expose the fields of the object that [scan] returns. *)
Ltac unfold_scan :=
  unfold scan; cbn [result_score riskLevel result_reasons result_riskFactors].

Lemma scan_score_accumulate ts sig page :
  result_score (scan ts sig page)
  = round2 (cap (accumulate_values (fired_rules sig page))).
Proof.
  unfold_scan. now rewrite rules_applied_score, accumulate_values_eq.
Qed.

Lemma scan_riskLevel_accumulate ts sig page :
  riskLevel (scan ts sig page)
  = risk_level_of (cap (accumulate_values (fired_rules sig page))).
Proof.
  unfold_scan. now rewrite rules_applied_score, accumulate_values_eq.
Qed.

Lemma map_weight_rule_factor sig page (l : list Rule) :
  map weight (map (rule_factor sig page) l)
  = map (fun r => decimal (rule_weight r) 2) l.
Proof. rewrite map_map. reflexivity. Qed.

(** C1. For every input of the scoring part, the reported score is the sum
    of the weights of the rules that fired, capped at 1.0: the weights
    recorded in [riskFactors] are those of the fired rules, and the score
    is the number that the decimal [min (sum of the weights) 1.00]
    denotes.  Consequently the score lies between 0 and 1. *)
Theorem scan_score_is_capped_weight_sum
    (Number_toString : number -> string) (sig : Signals) (page : PageAnalysis) :
  let r := scan Number_toString sig page in
  let fired := fired_rules sig page in
  map weight (result_riskFactors r) = map (fun x => decimal (rule_weight x) 2) fired
  /\ result_score r = decimal (Z.min (weight_sum fired) 100) 2
  /\ (of_Z 0 <=? result_score r)%js = true
  /\ (result_score r <=? of_Z 1)%js = true.
Proof.
  intros r fired.
  assert (Hc : check_score fired = true).
  { pose proof check_score_all as H. rewrite forallb_forall in H.
    apply H, fired_rules_in_sublists. }
  unfold check_score in Hc.
  apply andb_prop in Hc. destruct Hc as [Hc H1].
  apply andb_prop in Hc. destruct Hc as [Hid H0].
  apply identical_eq in Hid.
  subst r. rewrite scan_score_accumulate.
  repeat split; try assumption.
  unfold_scan. rewrite rules_applied_riskFactors.
  apply map_weight_rule_factor.
Qed.

Lemma with_fallback_not_nil (rs : list string) : with_fallback rs <> [].
Proof.
  unfold with_fallback, push. destruct rs as [|x t]; simpl; discriminate.
Qed.

Lemma combine_map_map {A B C : Type} (f : A -> B) (g : A -> C) (l : list A) :
  combine (map f l) (map g l) = map (fun x => (f x, g x)) l.
Proof. induction l as [|x t IH]; simpl; [reflexivity|now rewrite IH]. Qed.

(** C3, as stated, fails: on a page where no rule fires the single entry
    of [reasons] is the text [No obvious suspicious patterns detected],
    with a capital N, not the entry the claim quotes; the two differ in
    the case of that letter only. *)
Lemma fallback_reason_is_capitalised :
  let r := scan Number_toString_integral no_signals plain_page in
  fired_rules no_signals plain_page = []
  /\ result_riskFactors r = []
  /\ result_reasons r = ["No obvious suspicious patterns detected"]
  /\ result_reasons r <> ["no obvious suspicious patterns detected"]
  /\ map toLowerCase (result_reasons r) = ["no obvious suspicious patterns detected"].
Proof.
  cbv zeta. split; [reflexivity|]. split; [reflexivity|]. split; [reflexivity|].
  split; [|reflexivity]. intros H. discriminate H.
Qed.

(** C3, amended.  For every input the reasons of the result are never
    empty.  When at least one rule fires, [riskFactors] and [reasons] have
    the same length and their entries at each index are the risk factor
    and the reason of the same fired rule; when no rule fires, [reasons]
    holds exactly one entry, the text
    [No obvious suspicious patterns detected], and [riskFactors] is
    empty. *)
Theorem scan_reasons_match_riskFactors
    (Number_toString : number -> string) (sig : Signals) (page : PageAnalysis) :
  let r := scan Number_toString sig page in
  let fired := fired_rules sig page in
  result_reasons r <> []
  /\ match fired with
     | [] => result_reasons r = ["No obvious suspicious patterns detected"]
             /\ result_riskFactors r = []
     | _ :: _ =>
         List.length (result_riskFactors r) = List.length (result_reasons r)
         /\ combine (result_reasons r) (result_riskFactors r)
            = map (fun x => (rule_reason Number_toString sig page x,
                             rule_factor sig page x)) fired
     end.
Proof.
  intros r fired. subst r. unfold_scan.
  rewrite rules_applied_reasons, rules_applied_riskFactors.
  fold fired. split; [apply with_fallback_not_nil|].
  destruct fired as [|x t]; [split; reflexivity|].
  unfold with_fallback. simpl List.length. simpl Nat.eqb.
  split.
  - now rewrite !length_map.
  - apply (combine_map_map (rule_reason Number_toString sig page)
             (rule_factor sig page) (x :: t)).
Qed.

Lemma fold_weights sig page (l : list Rule) (s : number) :
  fold_left add (map weight (map (rule_factor sig page) l)) s
  = fold_left (fun a r => (a + decimal (rule_weight r) 2)%js) l s.
Proof.
  revert s. induction l as [|r t IH]; intros s; simpl; [reflexivity|apply IH].
Qed.

(** C10. The scoring part applies its two rounding-related operations in a
    fixed order.  With the weights of the rules that fire added up in
    evaluation order and capped at 1.0, the risk level is the
    classification of that capped sum, unrounded, and the reported score
    is that same capped sum rounded to two decimals; the weights recorded
    in [riskFactors] add up to the same sum.  The rounded value does not
    enter the classification: on some input the level differs from the
    level that the reported score would be given. *)
Theorem scan_classifies_before_rounding
    (Number_toString : number -> string) (sig : Signals) (page : PageAnalysis) :
  let r := scan Number_toString sig page in
  let sum := accumulate (fired_rules sig page) in
  let capped := Math_min sum (of_Z 1) in
  fold_left add (map weight (result_riskFactors r)) (of_Z 0) = sum
  /\ riskLevel r = (if (capped >? decimal 7 1)%js then HIGH
                    else if (capped >? decimal 4 1)%js then MEDIUM else LOW)
  /\ result_score r = (Math_round (capped * of_Z 100) / of_Z 100)%js
  /\ exists sig' page',
       let r' := scan Number_toString sig' page' in
       riskLevel r' = HIGH /\ risk_level_of (result_score r') = MEDIUM.
Proof.
  intros r sum capped. subst capped sum r.
  assert (E : exists sig' page',
             let r' := scan Number_toString sig' page' in
             riskLevel r' = HIGH /\ risk_level_of (result_score r') = MEDIUM).
  { exists fresh_signals, script_action_page.
    cbv zeta. rewrite scan_riskLevel_accumulate, scan_score_accumulate.
    vm_compute. split; reflexivity. }
  unfold_scan.
  rewrite rules_applied_riskFactors, rules_applied_score, fold_weights.
  split; [reflexivity|]. split; [reflexivity|]. split; [reflexivity|exact E].
Qed.

Lemma in_band_of_eq (lvl : RiskLevel) (s : number) : in_band lvl s = in_band_of lvl s.
Proof.
  unfold in_band, in_band_of.
  now rewrite threshold_high_decimal, threshold_medium_decimal.
Qed.

Lemma risk_level_of_level_of (l : list Rule) :
  risk_level_of (cap (accumulate_values l)) = level_of l.
Proof.
  unfold risk_level_of, level_of.
  now rewrite threshold_high_decimal, threshold_medium_decimal.
Qed.

Lemma check_reported_band_all :
  forallb check_reported_band (sublists rule_set) = true.
Proof. vm_compute. reflexivity. Qed.

Lemma RiskLevel_eqb_eq (a b : RiskLevel) : RiskLevel_eqb a b = true <-> a = b.
Proof. destruct a, b; simpl; split; intros H; try reflexivity; discriminate H. Qed.

(** C2.  The code departs from the claim at a total of 0.70.  With a
    three-day-old domain, a two-day-old certificate and one suspicious
    form pattern the weights 0.35, 0.20 and 0.15 add up to 0.70; the
    reported score is 0.7, which the claim places in MEDIUM, and the risk
    level of the result is HIGH.  A sibling input with the same total
    (0.20, 0.20, 0.10, 0.10 and 0.10) is reported with the same score and
    the level MEDIUM: of the combinations of rules that add up to 0.70,
    ninety-three are rated MEDIUM and ten HIGH.  For every input whose
    fired weights do not add up to 0.70 the claim holds: the reported score
    lies in the band of the risk level and in no other band.  The
    thresholds themselves are the claim's: 0.40 is LOW, 0.40001 MEDIUM,
    0.70 MEDIUM and 0.70001 HIGH. *)
Theorem scan_level_departs_at_070
    (Number_toString : number -> string) (sig : Signals) (page : PageAnalysis) :
  let failing := scan Number_toString_integral fresh_signals script_action_page in
  let sibling := scan Number_toString_integral new_certificate busy_page in
  let r := scan Number_toString sig page in
  let total := weight_sum (fired_rules sig page) in
  (weight_sum (fired_rules fresh_signals script_action_page) = 70%Z
   /\ result_score failing = decimal 70 2
   /\ in_band MEDIUM (result_score failing) = true
   /\ in_band HIGH (result_score failing) = false
   /\ riskLevel failing = HIGH)
  /\ (weight_sum (fired_rules new_certificate busy_page) = 70%Z
      /\ result_score sibling = decimal 70 2
      /\ riskLevel sibling = MEDIUM)
  /\ (List.length (totals_070 MEDIUM) = 93%nat
      /\ List.length (totals_070 HIGH) = 10%nat
      /\ totals_070 LOW = [])
  /\ (total <> 70%Z ->
      forall lvl, in_band lvl (result_score r) = true <-> lvl = riskLevel r)
  /\ (total = 70%Z -> result_score r = decimal 70 2 /\ riskLevel r <> LOW)
  /\ (risk_level_of (decimal 40 2) = LOW
      /\ risk_level_of (decimal 40001 5) = MEDIUM
      /\ risk_level_of (decimal 70 2) = MEDIUM
      /\ risk_level_of (decimal 70001 5) = HIGH).
Proof.
  intros failing sibling r total.
  split; [subst failing; vm_compute; repeat split; reflexivity|].
  split; [subst sibling; vm_compute; repeat split; reflexivity|].
  split; [vm_compute; repeat split; reflexivity|].
  assert (Hc : check_reported_band (fired_rules sig page) = true).
  { pose proof check_reported_band_all as H. rewrite forallb_forall in H.
    apply H, fired_rules_in_sublists. }
  unfold check_reported_band in Hc. cbv zeta in Hc. fold total in Hc.
  assert (Hs : result_score r = round2 (cap (accumulate_values (fired_rules sig page)))).
  { subst r. apply scan_score_accumulate. }
  assert (Hl : riskLevel r = level_of (fired_rules sig page)).
  { subst r. rewrite scan_riskLevel_accumulate. apply risk_level_of_level_of. }
  split; [|split; [|vm_compute; repeat split; reflexivity]].
  - intros Ht lvl. apply Z.eqb_neq in Ht. rewrite Ht in Hc.
    rewrite forallb_forall in Hc.
    assert (Hin : In lvl [LOW; MEDIUM; HIGH]) by (destruct lvl; simpl; tauto).
    specialize (Hc lvl Hin). apply Bool.eqb_prop in Hc.
    rewrite in_band_of_eq, Hs, Hc, Hl. apply RiskLevel_eqb_eq.
  - intros Ht. rewrite Ht in Hc. cbn [Z.eqb Pos.eqb] in Hc.
    split.
    + pose proof check_score_all as H. rewrite forallb_forall in H.
      specialize (H _ (fired_rules_in_sublists sig page)).
      unfold check_score in H. apply andb_prop in H. destruct H as [H _].
      apply andb_prop in H. destruct H as [H _]. apply identical_eq in H.
      rewrite Hs, H. fold total. rewrite Ht. reflexivity.
    + rewrite Hl. intros E. rewrite E in Hc. discriminate Hc.
Qed.

Lemma rule_name_NewDomain (r : Rule) : rule_name r = "New Domain" -> r = NewDomain.
Proof. destruct r; simpl; intros H; try reflexivity; discriminate H. Qed.

Lemma rule_name_RecentDomain (r : Rule) :
  rule_name r = "Recent Domain" -> r = RecentDomain.
Proof. destruct r; simpl; intros H; try reflexivity; discriminate H. Qed.

Lemma factor_in_result ts sig page (name : string) :
  In name (map factor (result_riskFactors (scan ts sig page))) ->
  exists r, rule_name r = name /\ rule_fires sig page r = true.
Proof.
  unfold_scan. rewrite rules_applied_riskFactors, map_map. simpl.
  intros H. apply in_map_iff in H. destruct H as [r [Hn Hin]].
  exists r. split; [exact Hn|].
  unfold fired_rules in Hin. apply filter_In in Hin. tauto.
Qed.

(** In [scan] the two domain-age rules form a mutually exclusive pair, as
    the specification and the README describe them: when the domain age is
    not null and below 7 the score gains 0.35 (and the "New Domain" factor
    is recorded); otherwise, when it is not null and below 30, the score
    gains 0.15 (and "Recent Domain" is recorded); otherwise nothing
    changes.  At most one entry is added, and no result holds both
    factors. *)
Theorem domain_age_rules_exclusive
    (Number_toString : number -> string) (sig : Signals) (page : PageAnalysis)
    (v : Vars) :
  let below7 := not_null (domainAge sig) && lt_literal (domainAge sig) (of_Z 7) in
  let below30 := not_null (domainAge sig) && lt_literal (domainAge sig) (of_Z 30) in
  let v' := domain_age_analysis Number_toString sig v in
  let r := scan Number_toString sig page in
  (if below7 then
     score v' = (score v + decimal 35 2)%js
     /\ riskFactors v'
        = (riskFactors v ++ [{| factor := "New Domain"; weight := decimal 35 2;
                                value := domainAge sig |}])%list
   else if below30 then
     score v' = (score v + decimal 15 2)%js
     /\ riskFactors v'
        = (riskFactors v ++ [{| factor := "Recent Domain"; weight := decimal 15 2;
                                value := domainAge sig |}])%list
   else v' = v)
  /\ (List.length (riskFactors v') <= S (List.length (riskFactors v)))%nat
  /\ (In "New Domain" (map factor (result_riskFactors r)) <-> below7 = true)
  /\ (In "Recent Domain" (map factor (result_riskFactors r))
      <-> below7 = false /\ below30 = true)
  /\ ~ (In "New Domain" (map factor (result_riskFactors r))
        /\ In "Recent Domain" (map factor (result_riskFactors r))).
Proof.
  intros below7 below30 v' r.
  assert (H7 : rule_fires sig page NewDomain = below7).
  { subst below7. unfold rule_fires, rule_condition, not_null, lt_literal, ToNumber.
    destruct (domainAge sig); reflexivity. }
  assert (H30 : rule_fires sig page RecentDomain = negb below7 && below30).
  { subst below7 below30.
    unfold rule_fires, rule_condition, not_null, lt_literal, ToNumber.
    destruct (domainAge sig); reflexivity. }
  assert (Hin : forall x, rule_fires sig page x = true ->
                In (rule_name x) (map factor (result_riskFactors r))).
  { intros x Hx. subst r. unfold_scan.
    rewrite rules_applied_riskFactors, map_map. simpl.
    apply (in_map rule_name). unfold fired_rules. apply filter_In. split; [|exact Hx].
    destruct x; simpl; tauto. }
  assert (Hnew : In "New Domain" (map factor (result_riskFactors r)) <-> below7 = true).
  { split.
    - intros H. apply factor_in_result in H. destruct H as [x [Hn Hf]].
      apply rule_name_NewDomain in Hn. subst x. now rewrite <- H7.
    - intros H. apply (Hin NewDomain). now rewrite H7. }
  assert (Hrec : In "Recent Domain" (map factor (result_riskFactors r))
                 <-> below7 = false /\ below30 = true).
  { split.
    - intros H. apply factor_in_result in H. destruct H as [x [Hn Hf]].
      apply rule_name_RecentDomain in Hn. subst x. rewrite H30 in Hf.
      apply andb_prop in Hf. destruct Hf as [Ha Hb].
      apply negb_true_iff in Ha. tauto.
    - intros [Ha Hb]. apply (Hin RecentDomain). rewrite H30, Ha, Hb. reflexivity. }
  split; [|split; [|split; [exact Hnew|split; [exact Hrec|]]]].
  - subst v'. unfold domain_age_analysis. fold below7. fold below30.
    destruct below7; [split; reflexivity|].
    destruct below30; [split; reflexivity|reflexivity].
  - subst v'. unfold domain_age_analysis. fold below7. fold below30.
    destruct below7; [|destruct below30]; simpl; unfold push;
      rewrite ?length_app; simpl; lia.
  - intros [Ha Hb]. apply Hnew in Ha. apply Hrec in Hb.
    destruct Hb as [Hb _]. congruence.
Qed.

(** The inline scoring of the server has the first branch of the pair
    only. *)
Lemma server_domain_age_single_rule
    (Number_toString : number -> string) (sig : Signals) (v : ServerVars) :
  let below7 := not_null (domainAge sig) && lt_literal (domainAge sig) (of_Z 7) in
  server_domain_age Number_toString sig v
  = if below7 then
      {| sv_score := (sv_score v + decimal 35 2)%js;
         sv_reasons := push (sv_reasons v)
           ("Domain age is " ++ show Number_toString (domainAge sig)
            ++ " days (suspicious if < 7)") |}
    else v.
Proof. reflexivity. Qed.

(** C5.  The scoring that the [/scan] handler of the server puts in place
    of [scan] misses the second rule of the pair: for a domain registered
    ten days ago it adds nothing and reports the fallback reason, where
    [scan] adds 0.15 and records "Recent Domain". *)
Theorem server_scan_misses_recent_domain :
  let served := server_scan Number_toString_integral ten_day_old_domain plain_page in
  let scanned := scan Number_toString_integral ten_day_old_domain plain_page in
  server_score served = of_Z 0
  /\ server_reasons served = [fallback_reason]
  /\ result_score scanned = decimal 15 2
  /\ map factor (result_riskFactors scanned) = ["Recent Domain"]
  /\ result_reasons scanned = ["Domain age is 10 days (somewhat new)"].
Proof. vm_compute. repeat split; reflexivity. Qed.

Lemma Rule_eqb_eq (a b : Rule) : Rule_eqb a b = true <-> a = b.
Proof. split; [destruct a, b; simpl; congruence|intros ->; destruct b; reflexivity]. Qed.

Lemma holds_in_filter (c : Rule -> bool) (r : Rule) :
  holds_in (filter c rule_set) r = c r.
Proof.
  unfold holds_in.
  assert (G : forall l, existsb (Rule_eqb r) (filter c l)
                        = c r && existsb (Rule_eqb r) l).
  { induction l as [|x t IH]; simpl; [now rewrite andb_false_r|].
    destruct (c x) eqn:Hx; simpl; rewrite IH.
    - destruct (Rule_eqb r x) eqn:E; simpl.
      + apply Rule_eqb_eq in E. subst x. now rewrite Hx.
      + reflexivity.
    - destruct (Rule_eqb r x) eqn:E; simpl; [|reflexivity].
      apply Rule_eqb_eq in E. subst x. now rewrite Hx. }
  rewrite G. replace (existsb (Rule_eqb r) rule_set) with true.
  - apply andb_true_r.
  - destruct r; reflexivity.
Qed.

Lemma holds_in_cons (r : Rule) (l : list Rule) (x : Rule) :
  holds_in (r :: l) x = Rule_eqb x r || holds_in l x.
Proof. reflexivity. Qed.

Lemma fired_under_ext (c c' : Rule -> bool) :
  (forall r, c r = c' r) -> fired_under c = fired_under c'.
Proof.
  intros H. unfold fired_under. apply filter_ext.
  intros r. unfold fires_under. destruct r; rewrite ?H; reflexivity.
Qed.

Lemma fired_rules_under (sig : Signals) (page : PageAnalysis) :
  fired_rules sig page = fired_under (rule_condition sig page).
Proof.
  unfold fired_rules, fired_under. apply filter_ext. intros r. destruct r; reflexivity.
Qed.

Lemma weight_sum_nonneg (l : list Rule) : (0 <= weight_sum l)%Z.
Proof.
  induction l as [|r t IH]; [simpl; lia|].
  change (weight_sum (r :: t)) with (rule_weight r + weight_sum t)%Z.
  destruct r; cbn [rule_weight]; lia.
Qed.

Lemma weight_sum_multiple_of_5 (l : list Rule) : exists q, weight_sum l = (5 * q)%Z.
Proof.
  induction l as [|r t [q IH]]; [exists 0%Z; reflexivity|].
  change (weight_sum (r :: t)) with (rule_weight r + weight_sum t)%Z.
  rewrite IH. destruct r; cbn [rule_weight];
    [exists (7 + q)%Z|exists (3 + q)%Z|exists (4 + q)%Z|exists (4 + q)%Z
    |exists (5 + q)%Z|exists (3 + q)%Z|exists (2 + q)%Z|exists (3 + q)%Z
    |exists (2 + q)%Z|exists (2 + q)%Z|exists (2 + q)%Z]; lia.
Qed.

(** The reported scores are ordered as the exact weight sums are. *)
Lemma capped_decimal_monotone (l l' : list Rule) :
  (weight_sum l <= weight_sum l')%Z ->
  (decimal (Z.min (weight_sum l) 100) 2
   <=? decimal (Z.min (weight_sum l') 100) 2)%js = true.
Proof.
  intros H.
  destruct (weight_sum_multiple_of_5 l) as [q Hq].
  destruct (weight_sum_multiple_of_5 l') as [q' Hq'].
  pose proof (weight_sum_nonneg l) as H0. pose proof (weight_sum_nonneg l') as H0'.
  rewrite Hq, Hq' in *.
  set (i := Z.to_nat (Z.min q 20)). set (j := Z.to_nat (Z.min q' 20)).
  replace (Z.min (5 * q) 100) with (5 * Z.of_nat i)%Z by (subst i; lia).
  replace (Z.min (5 * q') 100) with (5 * Z.of_nat j)%Z by (subst j; lia).
  pose proof check_decimals_sorted_true as C. unfold check_decimals_sorted in C.
  rewrite forallb_forall in C.
  assert (Hi : In i (seq 0 21)) by (apply in_seq; subst i; lia).
  assert (Hj : In j (seq 0 21)) by (apply in_seq; subst j; lia).
  specialize (C i Hi). rewrite forallb_forall in C. specialize (C j Hj).
  replace (Nat.ltb j i) with false in C; [exact C|].
  symmetry. apply Nat.ltb_ge. subst i j. lia.
Qed.

Lemma check_weight_monotone_elim (l : list Rule) (r : Rule) :
  check_weight_monotone l = true -> holds_in l r = false ->
  (weight_sum (fired_under (holds_in l))
   <= weight_sum (fired_under (holds_in (r :: l))))%Z.
Proof.
  intros H Hf.
  assert (Hr : In r rule_set) by (destruct r; simpl; tauto).
  unfold check_weight_monotone in H.
  apply (proj1 (forallb_forall _ _)) with (x := r) in H; [|exact Hr].
  rewrite Hf in H. apply Z.leb_le. exact H.
Qed.

Lemma scan_score_decimal ts sig page :
  result_score (scan ts sig page)
  = decimal (Z.min (weight_sum (fired_rules sig page)) 100) 2.
Proof.
  rewrite scan_score_accumulate.
  pose proof check_score_all as H. rewrite forallb_forall in H.
  specialize (H _ (fired_rules_in_sublists sig page)).
  unfold check_score in H.
  apply andb_prop in H. destruct H as [H _].
  apply andb_prop in H. destruct H as [H _].
  apply identical_eq in H. exact H.
Qed.

(** C6. Monotonicity: for two inputs whose rule conditions agree except for
    one condition that is false for the first and true for the second, the
    score of the second is not smaller. *)
Theorem scan_score_monotone
    (Number_toString Number_toString' : number -> string)
    (sig sig' : Signals) (page page' : PageAnalysis) (r : Rule)
    (Hfalse : rule_condition sig page r = false)
    (Htrue : rule_condition sig' page' r = true)
    (Hothers : forall r', r' <> r ->
                 rule_condition sig' page' r' = rule_condition sig page r') :
  (result_score (scan Number_toString sig page)
   <=? result_score (scan Number_toString' sig' page'))%js = true.
Proof.
  rewrite !scan_score_decimal, !fired_rules_under.
  set (c := rule_condition sig page). set (c' := rule_condition sig' page').
  assert (Hl : In (filter c rule_set) (sublists rule_set)) by apply filter_in_sublists.
  pose proof check_weight_monotone_all as H. rewrite forallb_forall in H.
  specialize (H _ Hl).
  apply capped_decimal_monotone.
  rewrite (fired_under_ext c (holds_in (filter c rule_set))).
  2:{ intros x. now rewrite holds_in_filter. }
  rewrite (fired_under_ext c' (holds_in (r :: filter c rule_set))).
  2:{ intros x. rewrite holds_in_cons, holds_in_filter.
      destruct (Rule_eqb x r) eqn:E.
      - apply Rule_eqb_eq in E. subst x. exact Htrue.
      - apply Hothers. intros ->.
        assert (Rule_eqb r r = true) by now apply Rule_eqb_eq. congruence. }
  apply check_weight_monotone_elim; [exact H|].
  rewrite holds_in_filter. exact Hfalse.
Qed.

Lemma scan_score_monotone_witness :
  (result_score (scan Number_toString_integral no_signals plain_page)
   <=? result_score (scan Number_toString_integral no_signals password_page))%js
  = true.
Proof.
  apply (scan_score_monotone Number_toString_integral Number_toString_integral
           no_signals no_signals plain_page password_page PasswordForm).
  - reflexivity.
  - reflexivity.
  - intros r' H. destruct r'; try reflexivity. exfalso. apply H. reflexivity.
Defined.

(** ** Bounds on binary64 rounding *)

Lemma digits2_pos_size (p : positive) : digits2_pos p = Pos.size p.
Proof. induction p; simpl; congruence. Qed.

Lemma Zdigits2_log2 (m : Z) : (0 < m)%Z -> Zdigits2 m = (Z.log2 m + 1)%Z.
Proof.
  destruct m as [|p|p]; try lia. intros _.
  destruct p; simpl; rewrite ?digits2_pos_size; lia.
Qed.

Lemma Zdigits2_nonneg (m : Z) : (0 <= Zdigits2 m)%Z.
Proof. destruct m; simpl; lia. Qed.

Lemma Zdigits2_lt_pow (m k : Z) :
  (0 <= m < 2 ^ k)%Z -> (0 <= k)%Z -> (Zdigits2 m <= k)%Z.
Proof.
  intros [H0 H1] Hk. destruct (Z.eq_dec m 0) as [->|Hm]; [simpl; lia|].
  rewrite Zdigits2_log2 by lia.
  assert (Z.log2 m < k)%Z by (apply Z.log2_lt_pow2; lia). lia.
Qed.

Lemma pow_Zdigits2 (m : Z) : (0 <= m)%Z -> (m < 2 ^ Zdigits2 m)%Z.
Proof.
  intros H. destruct (Z.eq_dec m 0) as [->|Hm]; [simpl; lia|].
  rewrite Zdigits2_log2 by lia.
  assert (0 < m)%Z by lia. pose proof (Z.log2_spec m H0). 
  replace (Z.log2 m + 1)%Z with (Z.succ (Z.log2 m)) by lia. lia.
Qed.

Lemma Zdigits2_mul_pow2 (m k : Z) :
  (0 < m)%Z -> (0 <= k)%Z -> Zdigits2 (m * 2 ^ k) = (Zdigits2 m + k)%Z.
Proof.
  intros Hm Hk.
  assert (0 < m * 2 ^ k)%Z.
  { apply Z.mul_pos_pos; [lia|]. apply Z.pow_pos_nonneg; lia. }
  rewrite !Zdigits2_log2 by lia.
  rewrite Z.log2_mul_pow2 by lia. lia.
Qed.

Lemma shr_1_m (r : shr_record) :
  (0 <= shr_m r)%Z -> shr_m (shr_1 r) = Z.div2 (shr_m r) /\ (0 <= shr_m (shr_1 r))%Z.
Proof.
  destruct r as [m rb sb]. simpl. intros H.
  destruct m as [|p|p]; [simpl; lia| |lia].
  destruct p; simpl; split; try reflexivity; lia.
Qed.

Lemma iter_pos_nat {A : Type} (f : A -> A) (p : positive) (x : A) :
  iter_pos f p x = Nat.iter (Pos.to_nat p) f x.
Proof.
  revert x. induction p as [p IH|p IH|]; intros x; cbn [iter_pos].
  - rewrite !IH. rewrite Pos2Nat.inj_xI.
    replace (S (2 * Pos.to_nat p))%nat
      with (Pos.to_nat p + (Pos.to_nat p + 1))%nat by lia.
    rewrite !Nat.iter_add. simpl. reflexivity.
  - rewrite !IH. rewrite Pos2Nat.inj_xO.
    replace (2 * Pos.to_nat p)%nat with (Pos.to_nat p + Pos.to_nat p)%nat by lia.
    rewrite Nat.iter_add. reflexivity.
  - reflexivity.
Qed.

Lemma iter_shr_1_m (n : nat) (r : shr_record) :
  (0 <= shr_m r)%Z ->
  shr_m (Nat.iter n shr_1 r) = (shr_m r / 2 ^ Z.of_nat n)%Z
  /\ (0 <= shr_m (Nat.iter n shr_1 r))%Z.
Proof.
  intros H. induction n as [|n [IH1 IH2]].
  - simpl. rewrite Z.div_1_r. tauto.
  - simpl Nat.iter. destruct (shr_1_m _ IH2) as [E1 E2]. split; [|exact E2].
    rewrite E1, IH1, Z.div2_div, Z.div_div by lia.
    f_equal. rewrite Nat2Z.inj_succ, Z.pow_succ_r by lia. lia.
Qed.

Lemma shr_record_of_loc_m (m : Z) (l : location) : shr_m (shr_record_of_loc m l) = m.
Proof. destruct l as [|[]]; reflexivity. Qed.

(** After [shr_fexp] the mantissa fits in 53 bits and the exponent is the
    larger of the given one and the canonical one. *)
Lemma shr_fexp_bounds (mx ex : Z) (lx : location) :
  (0 <= mx)%Z ->
  let '(r, e1) := shr_fexp prec emax mx ex lx in
  (0 <= shr_m r < 2 ^ 53)%Z
  /\ e1 = Z.max ex (fexp prec emax (Zdigits2 mx + ex)).
Proof.
  intros Hm. unfold shr_fexp, shr.
  pose proof (pow_Zdigits2 mx Hm) as Hd.
  pose proof (Zdigits2_nonneg mx) as Hn.
  set (T := (Zdigits2 mx + ex)%Z).
  assert (HF : fexp prec emax T = Z.max (T - 53) (-1074)) by reflexivity.
  destruct (fexp prec emax T - ex)%Z as [|p|p] eqn:En.
  - rewrite shr_record_of_loc_m. split; [|lia]. split; [lia|].
    assert (Zdigits2 mx <= 53)%Z by lia.
    apply Z.lt_le_trans with (1 := Hd). apply Z.pow_le_mono_r; lia.
  - rewrite iter_pos_nat.
    destruct (iter_shr_1_m (Pos.to_nat p) (shr_record_of_loc mx lx)) as [E1 E2].
    { now rewrite shr_record_of_loc_m. }
    rewrite shr_record_of_loc_m in E1. rewrite positive_nat_Z in E1.
    split; [|lia]. split; [exact E2|]. rewrite E1.
    apply Z.div_lt_upper_bound; [apply Z.pow_pos_nonneg; lia|].
    rewrite <- Z.pow_add_r by lia.
    apply Z.lt_le_trans with (1 := Hd). apply Z.pow_le_mono_r; lia.
  - rewrite shr_record_of_loc_m. split; [|lia]. split; [lia|].
    assert (Zdigits2 mx <= 53)%Z by lia.
    apply Z.lt_le_trans with (1 := Hd). apply Z.pow_le_mono_r; lia.
Qed.

Lemma round_nearest_even_bounds (m : Z) (l : location) :
  (m <= round_nearest_even m l <= m + 1)%Z.
Proof. unfold round_nearest_even. destruct l as [|[]]; try destruct (Z.even m); lia. Qed.

(** The result of rounding a non-negative mantissa is a zero or a finite
    number of the given sign whose mantissa fits in 53 bits, as long as the
    exponent stays clear of the overflow threshold. *)
Lemma binary_round_aux_bounds (sx : bool) (mx ex : Z) (lx : location) :
  (0 <= mx)%Z ->
  (Z.max ex (fexp prec emax (Zdigits2 mx + ex)) <= 969)%Z ->
  binary_round_aux prec emax sx mx ex lx = S754_zero sx
  \/ exists m e,
       binary_round_aux prec emax sx mx ex lx = S754_finite sx m e
       /\ (ex <= e <= Z.max ex (fexp prec emax (Zdigits2 mx + ex)) + 1)%Z
       /\ (Z.pos m < 2 ^ 53)%Z.
Proof.
  intros Hm HE. unfold binary_round_aux.
  pose proof (shr_fexp_bounds mx ex lx Hm) as H1.
  destruct (shr_fexp prec emax mx ex lx) as [r1 e1]. destruct H1 as [[H1a H1b] H1e].
  set (m2 := round_nearest_even (shr_m r1) (loc_of_shr_record r1)).
  pose proof (round_nearest_even_bounds (shr_m r1) (loc_of_shr_record r1)) as Hr.
  fold m2 in Hr.
  assert (Hm2 : (0 <= m2)%Z) by lia.
  pose proof (shr_fexp_bounds m2 e1 loc_Exact Hm2) as H2.
  destruct (shr_fexp prec emax m2 e1 loc_Exact) as [r3 e3].
  destruct H2 as [[H2a H2b] H2e].
  assert (Hd2 : (Zdigits2 m2 <= 54)%Z).
  { apply Zdigits2_lt_pow; [|lia]. split; [lia|].
    change (2 ^ 54)%Z with (2 * 2 ^ 53)%Z. lia. }
  assert (HF : fexp prec emax (Zdigits2 m2 + e1) = Z.max (Zdigits2 m2 + e1 - 53) (-1074))
    by reflexivity.
  assert (HF1 : fexp prec emax (Zdigits2 mx + ex) = Z.max (Zdigits2 mx + ex - 53) (-1074))
    by reflexivity.
  destruct (shr_m r3) as [|p|p] eqn:E3; [now left| |lia].
  right. replace (e3 <=? emax - prec)%Z with true.
  - exists p, e3. split; [reflexivity|]. split; [lia|lia].
  - symmetry. apply Z.leb_le. change (emax - prec)%Z with 971%Z. lia.
Qed.

Lemma iter_xO_value (p d : positive) :
  Z.pos (Pos.iter xO p d) = (Z.pos p * 2 ^ Z.pos d)%Z.
Proof.
  induction d as [|d IH] using Pos.peano_ind.
  - simpl. lia.
  - rewrite Pos.iter_succ, Pos2Z.inj_succ, Z.pow_succ_r by lia.
    rewrite Pos2Z.inj_xO, IH. lia.
Qed.

(** [shl_align] lowers the exponent to the requested one, when that is
    lower, and keeps the value. *)
Lemma shl_align_spec (mx : positive) (ex ex' : Z) :
  let '(mz, ez) := shl_align mx ex ex' in
  ez = Z.min ex ex' /\ Z.pos mz = (Z.pos mx * 2 ^ (ex - ez))%Z.
Proof.
  unfold shl_align. destruct (ex' - ex)%Z as [|d|d] eqn:E.
  - split; [lia|]. rewrite Z.sub_diag. simpl. lia.
  - split; [lia|]. rewrite Z.sub_diag. simpl. lia.
  - split; [lia|]. rewrite iter_xO_value. f_equal. f_equal. lia.
Qed.

(** A mantissa of exactly 53 bits with an exponent in range is kept as it
    is. *)
Lemma binary_round_aux_exact (s : bool) (m : positive) (e : Z) :
  Zdigits2 (Z.pos m) = 53%Z -> (-1074 <= e <= 971)%Z ->
  binary_round_aux prec emax s (Z.pos m) e loc_Exact = S754_finite s m e.
Proof.
  intros Hd He. unfold binary_round_aux, shr_fexp. rewrite Hd.
  assert (HF : fexp prec emax (53 + e) = e) by (unfold fexp, emin, prec, emax; lia).
  rewrite HF, Z.sub_diag. cbn [shr shr_record_of_loc loc_of_shr_record shr_m shr_r shr_s
                                round_nearest_even].
  unfold shr_fexp. rewrite Hd, HF, Z.sub_diag. cbn [shr shr_record_of_loc shr_m].
  replace (e <=? emax - prec)%Z with true; [reflexivity|].
  symmetry. apply Z.leb_le. change (emax - prec)%Z with 971%Z. lia.
Qed.

(** An integer of at most 53 bits is represented exactly. *)
Lemma binary_round_small (s : bool) (p : positive) :
  (Z.pos p < 2 ^ 53)%Z ->
  exists m e,
    binary_round prec emax s p 0 = S754_finite s m e
    /\ (-52 <= e <= 0)%Z /\ Z.pos m = (Z.pos p * 2 ^ (- e))%Z /\ (Z.pos m < 2 ^ 53)%Z.
Proof.
  intros Hp. unfold binary_round.
  pose proof (shl_align_spec p 0 (fexp prec emax (Z.pos (digits2_pos p) + 0))) as Hs.
  destruct (shl_align p 0 (fexp prec emax (Z.pos (digits2_pos p) + 0))) as [mz ez].
  destruct Hs as [Hez Hmz].
  change (Z.pos (digits2_pos p)) with (Zdigits2 (Z.pos p)) in Hez.
  assert (Hd : (1 <= Zdigits2 (Z.pos p) <= 53)%Z).
  { split; [simpl; lia|]. apply Zdigits2_lt_pow; lia. }
  assert (HF : fexp prec emax (Zdigits2 (Z.pos p) + 0) = (Zdigits2 (Z.pos p) - 53)%Z)
    by (unfold fexp, emin, prec, emax; lia).
  rewrite HF in Hez.
  assert (Hez' : ez = (Zdigits2 (Z.pos p) - 53)%Z) by lia.
  assert (Hdz : Zdigits2 (Z.pos mz) = 53%Z).
  { rewrite Hmz, Zdigits2_mul_pow2 by lia. lia. }
  exists mz, ez. split; [apply binary_round_aux_exact; [exact Hdz|lia]|].
  split; [lia|]. split.
  - rewrite Hmz. now replace (0 - ez)%Z with (- ez)%Z by lia.
  - pose proof (pow_Zdigits2 (Z.pos mz)) as Hpw. rewrite Hdz in Hpw. lia.
Qed.

Lemma to_Z_of_Z (n : Z) : (0 <= n < 2 ^ 53)%Z -> to_Z (of_Z n) = Some n.
Proof.
  intros [H0 H1]. destruct n as [|p|p]; [reflexivity| |lia].
  unfold of_Z, binary_normalize.
  destruct (binary_round_small false p H1) as [m [e [E [He [Hm _]]]]].
  rewrite E. unfold to_Z, signed.
  destruct (0 <=? e)%Z eqn:L.
  - apply Z.leb_le in L. assert (e = 0)%Z by lia. subst e.
    rewrite Hm. simpl. f_equal. lia.
  - assert (Hpow : (0 < 2 ^ (- e))%Z) by (apply Z.pow_pos_nonneg; lia).
    rewrite Hm, Z.mod_mul by lia. simpl Z.eqb. cbv iota.
    rewrite Z.div_mul by lia. reflexivity.
Qed.

Lemma of_Z_small (a : Z) : (Z.abs a < 2 ^ 53)%Z -> small (-52) 0 (of_Z a).
Proof.
  intros H. destruct a as [|p|p]; [exact I| |]; unfold of_Z, binary_normalize.
  - destruct (binary_round_small false p) as [m [e [E [He [_ Hm]]]]]; [lia|].
    rewrite E. simpl. tauto.
  - destruct (binary_round_small true p) as [m [e [E [He [_ Hm]]]]]; [lia|].
    rewrite E. simpl. tauto.
Qed.

Lemma binary_round_bounds (s : bool) (p : positive) (e : Z) :
  (-1074 <= e <= 900)%Z -> (Zdigits2 (Z.pos p) + e <= 1000)%Z ->
  small (-1074) (Z.max e (Zdigits2 (Z.pos p) + e - 53) + 1) (binary_round prec emax s p e)
  /\ (nonnegative (binary_round prec emax s p e) <-> s = false).
Proof.
  intros He Hd. unfold binary_round.
  pose proof (shl_align_spec p e (fexp prec emax (Z.pos (digits2_pos p) + e))) as Hs.
  destruct (shl_align p e (fexp prec emax (Z.pos (digits2_pos p) + e))) as [mz ez].
  destruct Hs as [Hez Hmz].
  change (Z.pos (digits2_pos p)) with (Zdigits2 (Z.pos p)) in Hez.
  assert (HF : fexp prec emax (Zdigits2 (Z.pos p) + e)
               = Z.max (Zdigits2 (Z.pos p) + e - 53) (-1074)) by reflexivity.
  assert (H1 : (1 <= Zdigits2 (Z.pos p))%Z) by (simpl; lia).
  assert (Hdz : (Zdigits2 (Z.pos mz) + ez = Zdigits2 (Z.pos p) + e)%Z).
  { rewrite Hmz, Zdigits2_mul_pow2 by lia. lia. }
  assert (HFz : fexp prec emax (Zdigits2 (Z.pos mz) + ez)
                = Z.max (Zdigits2 (Z.pos p) + e - 53) (-1074)).
  { rewrite Hdz. reflexivity. }
  rewrite HF in Hez.
  assert (Hside : (Z.max ez (fexp prec emax (Zdigits2 (Z.pos mz) + ez)) <= 969)%Z)
    by (rewrite HFz; lia).
  destruct (binary_round_aux_bounds s (Z.pos mz) ez loc_Exact (Pos2Z.is_nonneg mz) Hside)
    as [E|[m [e' [E [Hb Hm]]]]]; rewrite E; cbn [small nonnegative].
  - split; [exact I|]. destruct s; split; intros; try tauto; discriminate.
  - rewrite HFz in Hb.
    split; [split; [lia|exact Hm]|]. destruct s; split; intros; try tauto; discriminate.
Qed.

Lemma small_weaken (lo hi lo' hi' : Z) (x : number) :
  (lo' <= lo)%Z -> (hi <= hi')%Z -> small lo hi x -> small lo' hi' x.
Proof. destruct x; simpl; intros; try tauto. lia. Qed.

Lemma Zdigits2_mono (a b : Z) : (0 <= a <= b)%Z -> (Zdigits2 a <= Zdigits2 b)%Z.
Proof.
  intros [Ha Hab]. apply Zdigits2_lt_pow; [|apply Zdigits2_nonneg].
  pose proof (pow_Zdigits2 b). lia.
Qed.

Lemma binary_normalize_bounds (v e : Z) :
  (-1074 <= e <= 900)%Z -> (Zdigits2 v + e <= 1000)%Z ->
  small (-1074) (Z.max e (Zdigits2 v + e - 53) + 1)
        (binary_normalize prec emax v e false).
Proof.
  intros He Hd. destruct v as [|p|p]; cbn [binary_normalize].
  - exact I.
  - apply binary_round_bounds; assumption.
  - apply binary_round_bounds; assumption.
Qed.

(** The difference of two time values is a zero or a finite number. *)
Lemma sub_small (x y : number) :
  small (-52) 0 x -> small (-52) 0 y -> small (-1074) 60 (x - y)%js.
Proof.
  intros Hx Hy. unfold sub.
  destruct x as [sx| | |sx mx ex], y as [sy| | |sy my ey]; try contradiction.
  - destruct sx, sy; exact I.
  - simpl. simpl in Hy. lia.
  - simpl. simpl in Hx. lia.
  - cbn [small] in Hx, Hy. destruct Hx as [Hex Hmx], Hy as [Hey Hmy].
    cbn [SFsub].
    set (ez := Z.min ex ey).
    pose proof (shl_align_spec mx ex ez) as Hsx.
    pose proof (shl_align_spec my ey ez) as Hsy.
    destruct (shl_align mx ex ez) as [ma ea], (shl_align my ey ez) as [mb eb].
    cbn [fst]. destruct Hsx as [Hea Hma], Hsy as [Heb Hmb].
    set (v := (cond_Zopp sx (Z.pos ma) - cond_Zopp sy (Z.pos mb))%Z).
    assert (Hpa : (2 ^ (ex - ea) <= 2 ^ 52)%Z) by (apply Z.pow_le_mono_r; lia).
    assert (Hpb : (2 ^ (ey - eb) <= 2 ^ 52)%Z) by (apply Z.pow_le_mono_r; lia).
    assert (Hpa0 : (0 < 2 ^ (ex - ea))%Z) by (apply Z.pow_pos_nonneg; lia).
    assert (Hpb0 : (0 < 2 ^ (ey - eb))%Z) by (apply Z.pow_pos_nonneg; lia).
    assert (Ha : (Z.pos ma < 2 ^ 106)%Z).
    { rewrite Hma. change (2 ^ 106)%Z with (2 ^ 53 * 2 ^ 53)%Z.
      apply Z.mul_lt_mono_nonneg; lia. }
    assert (Hb : (Z.pos mb < 2 ^ 106)%Z).
    { rewrite Hmb. change (2 ^ 106)%Z with (2 ^ 53 * 2 ^ 53)%Z.
      apply Z.mul_lt_mono_nonneg; lia. }
    assert (Hv : (Z.abs v < 2 ^ 107)%Z).
    { change (2 ^ 107)%Z with (2 * 2 ^ 106)%Z. subst v.
      unfold cond_Zopp. destruct sx, sy; lia. }
    assert (Hdv : (Zdigits2 v <= 107)%Z).
    { destruct v as [|p|p]; [simpl; lia| |].
      - apply Zdigits2_lt_pow; lia.
      - change (Zdigits2 (Z.neg p)) with (Zdigits2 (Z.pos p)).
        apply Zdigits2_lt_pow; lia. }
    apply small_weaken with (lo := (-1074)%Z)
                            (hi := (Z.max ez (Zdigits2 v + ez - 53) + 1)%Z); try lia.
    apply binary_normalize_bounds; lia.
Qed.

Lemma abs_small (lo hi : Z) (x : number) :
  small lo hi x -> small lo hi (Math_abs x) /\ nonnegative (Math_abs x).
Proof. destruct x; simpl; tauto. Qed.

Lemma msPerDay_value : msPerDay = S754_finite false 5798205849600000 (-26).
Proof. vm_compute. reflexivity. Qed.

(** Dividing a non-negative number of the range of a time difference by
    the milliseconds of a day gives a zero or a finite positive number. *)
Lemma div_msPerDay_small (x : number) :
  small (-1074) 60 x -> nonnegative x ->
  exists lo hi, small lo hi (x / msPerDay)%js /\ nonnegative (x / msPerDay)%js.
Proof.
  intros Hx Hn. rewrite msPerDay_value. unfold div.
  destruct x as [sx| | |sx mx ex]; try contradiction.
  - destruct sx; [contradiction|]. exists 0%Z, 0%Z. simpl. tauto.
  - destruct sx; [contradiction|]. cbn [small] in Hx. destruct Hx as [Hex Hmx].
    cbn [SFdiv]. unfold SFdiv_core_binary.
    set (mc := 5798205849600000%positive).
    change (Zdigits2 (Z.pos mc)) with 53%Z.
    set (d1 := Zdigits2 (Z.pos mx)).
    assert (Hd1 : (1 <= d1 <= 53)%Z).
    { subst d1. split; [simpl; lia|]. apply Zdigits2_lt_pow; lia. }
    set (e' := Z.min (fexp prec emax (d1 + ex - (53 + -26))) (ex - -26)).
    assert (HF : fexp prec emax (d1 + ex - (53 + -26))
                 = Z.max (d1 + ex - (53 + -26) - 53) (-1074)) by reflexivity.
    set (s := (ex - -26 - e')%Z).
    assert (Hs : (0 <= s)%Z) by lia.
    set (m' := match s with
               | 0%Z => Z.pos mx
               | Z.pos _ => Z.shiftl (Z.pos mx) s
               | Z.neg _ => 0%Z
               end).
    assert (Hm' : m' = (Z.pos mx * 2 ^ s)%Z).
    { subst m'. destruct s as [|p|p] eqn:Es; [simpl; lia| |lia].
      apply Z.shiftl_mul_pow2. lia. }
    assert (Hp : (0 < 2 ^ s)%Z) by (apply Z.pow_pos_nonneg; lia).
    assert (Hm'0 : (0 < m')%Z) by (rewrite Hm'; lia).
    assert (Hq : fst (Z.div_eucl m' (Z.pos mc)) = (m' / Z.pos mc)%Z) by reflexivity.
    destruct (Z.div_eucl m' (Z.pos mc)) as [q r]. cbn [fst] in Hq.
    assert (Hq0 : (0 <= q)%Z) by (rewrite Hq; apply Z.div_pos; lia).
    assert (Hqm : (q <= m')%Z).
    { rewrite Hq. apply Z.div_le_upper_bound; [lia|]. nia. }
    assert (Hdq : (Zdigits2 q <= d1 + s)%Z).
    { apply Z.le_trans with (Zdigits2 m'); [apply Zdigits2_mono; lia|].
      rewrite Hm'. subst d1. rewrite Zdigits2_mul_pow2 by lia. lia. }
    pose proof (Zdigits2_nonneg q) as Hdq0.
    assert (HFq : fexp prec emax (Zdigits2 q + e')
                  = Z.max (Zdigits2 q + e' - 53) (-1074)) by reflexivity.
    assert (Hside : (Z.max e' (fexp prec emax (Zdigits2 q + e')) <= 969)%Z)
      by (rewrite HFq; lia).
    destruct (binary_round_aux_bounds (xorb false false) q e'
                (new_location (Z.pos mc) r) Hq0 Hside)
      as [E|[m [e [E [Hb Hm]]]]]; rewrite E.
    + exists 0%Z, 0%Z. simpl. tauto.
    + exists e, e. simpl. split; [|exact I]. split; [lia|exact Hm].
Qed.

Lemma Math_ceil_integer (lo hi : Z) (x : number) :
  small lo hi x -> nonnegative x ->
  exists n, (0 <= n)%Z /\ to_Z (Math_ceil x) = Some n.
Proof.
  intros Hx Hn. destruct x as [sx| | |sx m e]; try contradiction.
  - exists 0%Z. simpl. split; [lia|reflexivity].
  - destruct sx; [contradiction|]. cbn [small] in Hx. destruct Hx as [_ Hm].
    unfold Math_ceil. destruct (0 <=? e)%Z eqn:L.
    + exists (Z.pos m * 2 ^ e)%Z. split.
      * apply Z.leb_le in L. apply Z.mul_nonneg_nonneg; [lia|].
        apply Z.pow_nonneg. lia.
      * unfold to_Z. rewrite L. reflexivity.
    + apply Z.leb_gt in L. cbv zeta. unfold signed.
      set (k := (2 ^ (- e))%Z).
      assert (Hk : (1 <= k)%Z).
      { subst k. pose proof (Z.pow_pos_nonneg 2 (- e)). lia. }
      assert (Hneg : (- Z.pos m / k < 0)%Z).
      { apply Z.div_lt_upper_bound; lia. }
      assert (Hlow : (- Z.pos m <= - Z.pos m / k)%Z).
      { apply Z.div_le_lower_bound; [lia|]. nia. }
      set (n := (- (- Z.pos m / k))%Z).
      assert (Hn1 : (1 <= n < 2 ^ 53)%Z) by (subst n; lia).
      replace (n =? 0)%Z with false by (symmetry; apply Z.eqb_neq; lia).
      exists n. split; [lia|]. apply to_Z_of_Z. lia.
Qed.

Lemma sub_nan_r (x : number) : (x - NaN)%js = NaN.
Proof. destruct x; reflexivity. Qed.

(** The age computed from two dates is NaN when one of them is invalid and
    a non-negative integer otherwise. *)
Lemma age_in_days_valid (a b : Z) :
  (Z.abs a <= maxTimeValue)%Z -> (Z.abs b <= maxTimeValue)%Z ->
  exists n, (0 <= n)%Z /\ to_Z (age_in_days (TimeValue a) (TimeValue b)) = Some n.
Proof.
  intros Ha Hb. unfold age_in_days, Date_valueOf.
  apply Z.leb_le in Ha, Hb. rewrite Ha, Hb. apply Z.leb_le in Ha, Hb.
  assert (HM : (maxTimeValue < 2 ^ 53)%Z) by reflexivity.
  assert (Sa : small (-52) 0 (of_Z a)) by (apply of_Z_small; lia).
  assert (Sb : small (-52) 0 (of_Z b)) by (apply of_Z_small; lia).
  pose proof (sub_small _ _ Sa Sb) as Hs.
  apply abs_small in Hs. destruct Hs as [Hs Hn].
  destruct (div_msPerDay_small _ Hs Hn) as [lo [hi [Hd Hdn]]].
  exact (Math_ceil_integer lo hi _ Hd Hdn).
Qed.

Lemma age_in_days_invalid (now : Date) : age_in_days now InvalidDate = NaN.
Proof. unfold age_in_days. simpl Date_valueOf. now rewrite sub_nan_r. Qed.

Lemma age_in_days_out_of_range (now : Date) (b : Z) :
  (maxTimeValue < Z.abs b)%Z -> age_in_days now (TimeValue b) = NaN.
Proof.
  intros H. unfold age_in_days, Date_valueOf at 2.
  replace (Z.abs b <=? maxTimeValue)%Z with false by (symmetry; apply Z.leb_gt; lia).
  now rewrite sub_nan_r.
Qed.

Lemma abs_binary_round (s s' : bool) (p : positive) (e : Z) :
  SFabs (binary_round prec emax s p e) = SFabs (binary_round prec emax s' p e).
Proof.
  unfold binary_round. destruct (shl_align p e _) as [mz ez].
  unfold binary_round_aux.
  destruct (shr_fexp prec emax (Z.pos mz) ez loc_Exact) as [r1 e1].
  destruct (shr_fexp prec emax _ e1 loc_Exact) as [r3 e3].
  destruct (shr_m r3); [reflexivity| |reflexivity].
  destruct (e3 <=? emax - prec)%Z; reflexivity.
Qed.

Lemma abs_binary_normalize_opp (v e : Z) :
  SFabs (binary_normalize prec emax v e false)
  = SFabs (binary_normalize prec emax (- v) e false).
Proof. destruct v; simpl; [reflexivity| |]; apply abs_binary_round. Qed.

(** [Math.abs(a - b)] does not depend on the order of [a] and [b]. *)
Lemma abs_sub_comm (x y : number) : Math_abs (x - y)%js = Math_abs (y - x)%js.
Proof.
  unfold Math_abs, sub.
  destruct x as [sx|sx| |sx mx ex], y as [sy|sy| |sy my ey];
    try (destruct sx, sy; reflexivity); try (destruct sx; reflexivity);
    try (destruct sy; reflexivity); try reflexivity.
  cbn [SFsub]. rewrite (Z.min_comm ey ex).
  rewrite abs_binary_normalize_opp. f_equal. f_equal. lia.
Qed.

(** A date ahead of the clock gets the age of the date equally far
    behind it. *)
Lemma age_in_days_symmetric (a b : Date) : age_in_days a b = age_in_days b a.
Proof. unfold age_in_days. now rewrite abs_sub_comm. Qed.

Lemma shr_fexp_positive (mx ex : Z) (lx : location) :
  (0 < mx)%Z -> (-1074 <= ex)%Z ->
  (0 < shr_m (fst (shr_fexp prec emax mx ex lx)))%Z.
Proof.
  intros Hm He. unfold shr_fexp, shr.
  assert (Hd : (2 ^ (Zdigits2 mx - 1) <= mx)%Z).
  { rewrite Zdigits2_log2 by lia. replace (Z.log2 mx + 1 - 1)%Z with (Z.log2 mx) by lia.
    apply Z.log2_spec. lia. }
  assert (Hd1 : (1 <= Zdigits2 mx)%Z).
  { rewrite Zdigits2_log2 by lia. pose proof (Z.log2_nonneg mx). lia. }
  set (T := (Zdigits2 mx + ex)%Z).
  assert (HF : fexp prec emax T = Z.max (T - 53) (-1074)) by reflexivity.
  destruct (fexp prec emax T - ex)%Z as [|p|p] eqn:En; cbn [fst].
  - now rewrite shr_record_of_loc_m.
  - rewrite iter_pos_nat.
    destruct (iter_shr_1_m (Pos.to_nat p) (shr_record_of_loc mx lx)) as [E1 _].
    { rewrite shr_record_of_loc_m. lia. }
    rewrite shr_record_of_loc_m, positive_nat_Z in E1. rewrite E1.
    assert (Hp : (Z.pos p = Zdigits2 mx - 53)%Z) by lia.
    apply Z.div_str_pos. split; [apply Z.pow_pos_nonneg; lia|].
    apply Z.le_trans with (2 := Hd). apply Z.pow_le_mono_r; lia.
  - now rewrite shr_record_of_loc_m.
Qed.

(** Rounding a positive mantissa whose exponent is not below the smallest
    one never gives zero. *)
Lemma binary_round_aux_positive (sx : bool) (mx ex : Z) (lx : location) :
  (0 < mx)%Z -> (-1074 <= ex)%Z ->
  (Z.max ex (fexp prec emax (Zdigits2 mx + ex)) <= 969)%Z ->
  exists m e,
    binary_round_aux prec emax sx mx ex lx = S754_finite sx m e
    /\ (ex <= e <= Z.max ex (fexp prec emax (Zdigits2 mx + ex)) + 1)%Z
    /\ (Z.pos m < 2 ^ 53)%Z.
Proof.
  intros Hm He HE.
  destruct (binary_round_aux_bounds sx mx ex lx) as [E|H]; [lia|exact HE| |exact H].
  exfalso. revert E. unfold binary_round_aux.
  pose proof (shr_fexp_positive mx ex lx Hm He) as H1.
  pose proof (shr_fexp_bounds mx ex lx) as B1.
  destruct (shr_fexp prec emax mx ex lx) as [r1 e1]. cbn [fst] in H1.
  destruct B1 as [_ B1]; [lia|].
  pose proof (round_nearest_even_bounds (shr_m r1) (loc_of_shr_record r1)) as Hr.
  set (m2 := round_nearest_even (shr_m r1) (loc_of_shr_record r1)) in *.
  assert (He1 : (-1074 <= e1)%Z) by lia.
  assert (Hm2 : (0 < m2)%Z) by lia.
  pose proof (shr_fexp_positive m2 e1 loc_Exact Hm2 He1) as H3.
  destruct (shr_fexp prec emax m2 e1 loc_Exact) as [r3 e3]. cbn [fst] in H3.
  destruct (shr_m r3) as [|p|p]; try lia.
  destruct (e3 <=? emax - prec)%Z; discriminate.
Qed.

Lemma binary_round_positive (s : bool) (p : positive) (e : Z) :
  (-1074 <= e <= 900)%Z -> (Zdigits2 (Z.pos p) + e <= 1000)%Z ->
  exists m e',
    binary_round prec emax s p e = S754_finite s m e'
    /\ (Z.min e (Zdigits2 (Z.pos p) + e - 53) <= e'
        <= Z.max e (Zdigits2 (Z.pos p) + e - 53) + 1)%Z
    /\ (-1074 <= e')%Z
    /\ (Z.pos m < 2 ^ 53)%Z.
Proof.
  intros He Hd. unfold binary_round.
  pose proof (shl_align_spec p e (fexp prec emax (Z.pos (digits2_pos p) + e))) as Hs.
  destruct (shl_align p e (fexp prec emax (Z.pos (digits2_pos p) + e))) as [mz ez].
  destruct Hs as [Hez Hmz].
  change (Z.pos (digits2_pos p)) with (Zdigits2 (Z.pos p)) in Hez.
  assert (HF : fexp prec emax (Zdigits2 (Z.pos p) + e)
               = Z.max (Zdigits2 (Z.pos p) + e - 53) (-1074)) by reflexivity.
  assert (H1 : (1 <= Zdigits2 (Z.pos p))%Z) by (simpl; lia).
  assert (Hdz : (Zdigits2 (Z.pos mz) + ez = Zdigits2 (Z.pos p) + e)%Z).
  { rewrite Hmz, Zdigits2_mul_pow2 by lia. lia. }
  assert (HFz : fexp prec emax (Zdigits2 (Z.pos mz) + ez)
                = Z.max (Zdigits2 (Z.pos p) + e - 53) (-1074)).
  { rewrite Hdz. reflexivity. }
  rewrite HF in Hez.
  assert (Hside : (Z.max ez (fexp prec emax (Zdigits2 (Z.pos mz) + ez)) <= 969)%Z)
    by (rewrite HFz; lia).
  destruct (binary_round_aux_positive s (Z.pos mz) ez loc_Exact) as [m [e' [E [Hb Hm]]]];
    [lia|lia|exact Hside|].
  rewrite HFz in Hb. exists m, e'.
  split; [exact E|]. split; [lia|]. split; [lia|exact Hm].
Qed.

(** An integer below 2^53 in absolute value, as a number. *)
Lemma of_Z_exact (a : Z) :
  a <> 0%Z -> (Z.abs a < 2 ^ 53)%Z ->
  exists m e,
    of_Z a = S754_finite (a <? 0)%Z m e
    /\ (-52 <= e <= 0)%Z /\ Z.pos m = (Z.abs a * 2 ^ (- e))%Z /\ (Z.pos m < 2 ^ 53)%Z.
Proof.
  intros Ha Hb. destruct a as [|p|p]; [contradiction| |]; unfold of_Z, binary_normalize.
  - apply (binary_round_small false p). lia.
  - apply (binary_round_small true p). lia.
Qed.

(** Two different time values have a non-zero difference. *)
Lemma sub_of_Z_positive (a b : Z) :
  (Z.abs a < 2 ^ 53)%Z -> (Z.abs b < 2 ^ 53)%Z -> a <> b ->
  exists s m e, (of_Z a - of_Z b)%js = S754_finite s m e
                /\ (-105 <= e <= 60)%Z /\ (Z.pos m < 2 ^ 53)%Z.
Proof.
  intros Ha Hb Hab. unfold sub.
  destruct (Z.eq_dec a 0) as [->|Ha0]; [|destruct (Z.eq_dec b 0) as [->|Hb0]].
  - destruct (of_Z_exact b) as [m [e [E [He [_ Hm]]]]]; [lia|lia|].
    rewrite E. change (of_Z 0) with (S754_zero false). cbn [SFsub].
    exists (negb (b <? 0)%Z), m, e. split; [reflexivity|]. split; [lia|exact Hm].
  - destruct (of_Z_exact a) as [m [e [E [He [_ Hm]]]]]; [lia|lia|].
    rewrite E. change (of_Z 0) with (S754_zero false). cbn [SFsub].
    exists (a <? 0)%Z, m, e. split; [reflexivity|]. split; [lia|exact Hm].
  - destruct (of_Z_exact a Ha0 Ha) as [mx [ex [Ea [Hex [Hva Hmx]]]]].
    destruct (of_Z_exact b Hb0 Hb) as [my [ey [Eb [Hey [Hvb Hmy]]]]].
    rewrite Ea, Eb. cbn [SFsub].
    set (ez := Z.min ex ey).
    pose proof (shl_align_spec mx ex ez) as Hsx.
    pose proof (shl_align_spec my ey ez) as Hsy.
    destruct (shl_align mx ex ez) as [ma ea], (shl_align my ey ez) as [mb eb].
    cbn [fst]. destruct Hsx as [Hea Hma], Hsy as [Heb Hmb].
    assert (Ea' : ea = ez) by lia. assert (Eb' : eb = ez) by lia. subst ea eb.
    assert (HA : Z.pos ma = (Z.abs a * 2 ^ (- ez))%Z).
    { rewrite Hma, Hva, <- Z.mul_assoc, <- Z.pow_add_r by lia. f_equal. f_equal. lia. }
    assert (HB : Z.pos mb = (Z.abs b * 2 ^ (- ez))%Z).
    { rewrite Hmb, Hvb, <- Z.mul_assoc, <- Z.pow_add_r by lia. f_equal. f_equal. lia. }
    set (k := (2 ^ (- ez))%Z) in *.
    assert (Hk : (0 < k)%Z) by (apply Z.pow_pos_nonneg; lia).
    assert (Hk' : (k <= 2 ^ 52)%Z) by (apply Z.pow_le_mono_r; lia).
    set (v := (cond_Zopp (a <? 0)%Z (Z.pos ma) - cond_Zopp (b <? 0)%Z (Z.pos mb))%Z).
    assert (Hv : v = ((a - b) * k)%Z).
    { subst v. unfold cond_Zopp. rewrite HA, HB.
      destruct (Z.ltb_spec a 0), (Z.ltb_spec b 0); lia. }
    assert (Hv0 : v <> 0%Z) by (rewrite Hv; nia).
    assert (Hvabs : (Z.abs v < 2 ^ 106)%Z).
    { rewrite Hv, Z.abs_mul. change (2 ^ 106)%Z with (2 ^ 54 * 2 ^ 52)%Z.
      rewrite (Z.abs_eq k) by lia.
      apply Z.le_lt_trans with (Z.abs (a - b) * 2 ^ 52)%Z.
      - apply Z.mul_le_mono_nonneg_l; lia.
      - apply Z.mul_lt_mono_pos_r; [reflexivity|].
        change (2 ^ 54)%Z with (2 ^ 53 + 2 ^ 53)%Z. lia. }
    destruct v as [|p|p]; [contradiction| |]; cbn [binary_normalize].
    + destruct (binary_round_positive false p ez) as [m [e [E [He [_ Hm]]]]].
      * lia.
      * assert (Zdigits2 (Z.pos p) <= 106)%Z by (apply Zdigits2_lt_pow; lia). lia.
      * exists false, m, e. split; [exact E|].
        assert (1 <= Zdigits2 (Z.pos p) <= 106)%Z
          by (split; [simpl; lia|apply Zdigits2_lt_pow; lia]).
        split; [lia|exact Hm].
    + destruct (binary_round_positive true p ez) as [m [e [E [He [_ Hm]]]]].
      * lia.
      * assert (Zdigits2 (Z.pos p) <= 106)%Z by (apply Zdigits2_lt_pow; lia). lia.
      * exists true, m, e. split; [exact E|].
        assert (1 <= Zdigits2 (Z.pos p) <= 106)%Z
          by (split; [simpl; lia|apply Zdigits2_lt_pow; lia]).
        split; [lia|exact Hm].
Qed.

Lemma div_msPerDay_positive (mx : positive) (ex : Z) :
  (-105 <= ex <= 60)%Z -> (Z.pos mx < 2 ^ 53)%Z ->
  exists m e, (S754_finite false mx ex / msPerDay)%js = S754_finite false m e
              /\ (Z.pos m < 2 ^ 53)%Z.
Proof.
  intros Hex Hmx. rewrite msPerDay_value. unfold div.
  cbn [SFdiv]. unfold SFdiv_core_binary.
  set (mc := 5798205849600000%positive).
  change (Zdigits2 (Z.pos mc)) with 53%Z.
  set (d1 := Zdigits2 (Z.pos mx)).
  assert (Hd1 : (1 <= d1 <= 53)%Z).
  { subst d1. split; [simpl; lia|]. apply Zdigits2_lt_pow; lia. }
  assert (Hlow : (2 ^ (d1 - 1) <= Z.pos mx)%Z).
  { subst d1. rewrite Zdigits2_log2 by lia.
    replace (Z.log2 (Z.pos mx) + 1 - 1)%Z with (Z.log2 (Z.pos mx)) by lia.
    apply Z.log2_spec. lia. }
  set (e' := Z.min (fexp prec emax (d1 + ex - (53 + -26))) (ex - -26)).
  assert (HF : fexp prec emax (d1 + ex - (53 + -26))
               = Z.max (d1 + ex - (53 + -26) - 53) (-1074)) by reflexivity.
  assert (He' : e' = (d1 + ex - 80)%Z) by lia.
  set (s := (ex - -26 - e')%Z).
  assert (Hs : s = (106 - d1)%Z) by lia.
  set (m' := match s with
             | 0%Z => Z.pos mx
             | Z.pos _ => Z.shiftl (Z.pos mx) s
             | Z.neg _ => 0%Z
             end).
  assert (Hm' : m' = (Z.pos mx * 2 ^ s)%Z).
  { subst m'. destruct s as [|p|p] eqn:Es; [lia| |lia].
    apply Z.shiftl_mul_pow2. lia. }
  assert (Hp : (0 < 2 ^ s)%Z) by (apply Z.pow_pos_nonneg; lia).
  assert (Hbig : (2 ^ 105 <= m')%Z).
  { rewrite Hm'. replace 105%Z with ((d1 - 1) + s)%Z by lia.
    rewrite Z.pow_add_r by lia. apply Z.mul_le_mono_nonneg_r; lia. }
  assert (Hq : fst (Z.div_eucl m' (Z.pos mc)) = (m' / Z.pos mc)%Z) by reflexivity.
  destruct (Z.div_eucl m' (Z.pos mc)) as [q r]. cbn [fst] in Hq.
  assert (Hq0 : (0 < q)%Z).
  { rewrite Hq. apply Z.div_str_pos. split; [lia|].
    apply Z.le_trans with (2 := Hbig). unfold mc. lia. }
  assert (Hqm : (q <= m')%Z).
  { rewrite Hq. apply Z.div_le_upper_bound; [lia|]. nia. }
  assert (Hdq : (Zdigits2 q <= d1 + s)%Z).
  { apply Z.le_trans with (Zdigits2 m'); [apply Zdigits2_mono; lia|].
    rewrite Hm'. subst d1. rewrite Zdigits2_mul_pow2 by lia. lia. }
  pose proof (Zdigits2_nonneg q) as Hdq0.
  assert (HFq : fexp prec emax (Zdigits2 q + e')
                = Z.max (Zdigits2 q + e' - 53) (-1074)) by reflexivity.
  assert (Hside : (Z.max e' (fexp prec emax (Zdigits2 q + e')) <= 969)%Z)
    by (rewrite HFq; lia).
  destruct (binary_round_aux_positive (xorb false false) q e'
              (new_location (Z.pos mc) r) Hq0) as [m [e [E [_ Hm]]]]; [lia|exact Hside|].
  exists m, e. split; [exact E|exact Hm].
Qed.

Lemma Math_ceil_positive (m : positive) (e : Z) :
  (Z.pos m < 2 ^ 53)%Z ->
  exists n, (1 <= n)%Z /\ to_Z (Math_ceil (S754_finite false m e)) = Some n.
Proof.
  intros Hm. unfold Math_ceil. destruct (0 <=? e)%Z eqn:L.
  - exists (Z.pos m * 2 ^ e)%Z. split.
    + apply Z.leb_le in L. pose proof (Z.pow_pos_nonneg 2 e). nia.
    + unfold to_Z. rewrite L. reflexivity.
  - apply Z.leb_gt in L. cbv zeta. unfold signed.
    set (k := (2 ^ (- e))%Z).
    assert (Hk : (1 <= k)%Z).
    { subst k. pose proof (Z.pow_pos_nonneg 2 (- e)). lia. }
    assert (Hneg : (- Z.pos m / k < 0)%Z) by (apply Z.div_lt_upper_bound; lia).
    assert (Hlow : (- Z.pos m <= - Z.pos m / k)%Z).
    { apply Z.div_le_lower_bound; [lia|]. nia. }
    set (n := (- (- Z.pos m / k))%Z).
    assert (Hn1 : (1 <= n < 2 ^ 53)%Z) by (subst n; lia).
    replace (n =? 0)%Z with false by (symmetry; apply Z.eqb_neq; lia).
    exists n. split; [lia|]. apply to_Z_of_Z. lia.
Qed.

(** The age of a date that differs from the clock, whether behind it or
    ahead of it, is at least one day. *)
Lemma age_in_days_positive (a b : Z) :
  (Z.abs a <= maxTimeValue)%Z -> (Z.abs b <= maxTimeValue)%Z -> a <> b ->
  exists n, (1 <= n)%Z /\ to_Z (age_in_days (TimeValue a) (TimeValue b)) = Some n.
Proof.
  intros Ha Hb Hab. unfold age_in_days, Date_valueOf.
  apply Z.leb_le in Ha, Hb. rewrite Ha, Hb. apply Z.leb_le in Ha, Hb.
  assert (HM : (maxTimeValue < 2 ^ 53)%Z) by reflexivity.
  destruct (sub_of_Z_positive a b) as [s [m [e [E [He Hm]]]]]; [lia|lia|exact Hab|].
  rewrite E. cbn [Math_abs SFabs].
  destruct (div_msPerDay_positive m e He Hm) as [m' [e' [E' Hm']]].
  rewrite E'. apply Math_ceil_positive. exact Hm'.
Qed.

(** ** The signal providers *)

Lemma swallow {A : Type} (body : Outcome A) (d : A) :
  async (and_then (try_catch body (fun _ => Done)) (Returned d))
  = match body with
    | Exit (Returned v) => Fulfilled v
    | _ => Fulfilled d
    end.
Proof. destruct body as [|[v|e]]; reflexivity. Qed.

Lemma or_else_first_truthy (a b c : option string) :
  or_else (or_else a b) c = (if truthy (first_truthy [a; b; c])
                             then first_truthy [a; b; c] else c)
  /\ truthy (or_else (or_else a b) c) = truthy (first_truthy [a; b; c]).
Proof.
  unfold or_else, first_truthy. simpl.
  destruct (truthy a) eqn:Ea; simpl; rewrite ?Ea; [tauto|].
  destruct (truthy b) eqn:Eb; simpl; rewrite ?Eb; [tauto|].
  destruct (truthy c) eqn:Ec; simpl; rewrite ?Ec; tauto.
Qed.

Lemma getDomainAge_Resolves Date_parse now (result : WhoisResult) :
  getDomainAge Date_parse now (Resolves result)
  = match first_truthy [creationDate result; registered result; created result] with
    | Some s =>
        if String.eqb s "" then Fulfilled None
        else Fulfilled (Some (age_in_days (TimeValue now) (Date_parse s)))
    | None => Fulfilled None
    end.
Proof.
  unfold getDomainAge. rewrite swallow.
  destruct (or_else_first_truthy (creationDate result) (registered result)
              (created result)) as [H1 H2].
  rewrite H2.
  destruct (truthy (first_truthy [creationDate result; registered result; created result]))
    eqn:Et.
  - rewrite H1. 
    destruct (first_truthy [creationDate result; registered result; created result])
      as [s|]; [|discriminate].
    simpl in Et. destruct (String.eqb s ""); [discriminate|reflexivity].
  - destruct (first_truthy [creationDate result; registered result; created result])
      as [s|]; [|reflexivity].
    simpl in Et. destruct (String.eqb s ""); [reflexivity|discriminate].
Qed.

Lemma settled_stays Date_parse now (events : list SocketEvent) (v : nullable) :
  fold_left (on_socket_event Date_parse now) events (Fulfilled v) = Fulfilled v.
Proof.
  induction events as [|ev t IH]; [reflexivity|]. simpl.
  replace (on_socket_event Date_parse now (Fulfilled v) ev) with (Fulfilled v : Promise nullable);
    [exact IH|].
  destruct ev as [[c|]| |]; simpl; try reflexivity.
  destruct (truthy (valid_from c)); reflexivity.
Qed.

(** The promise of [getTLSAge] is settled by the first event. *)
Lemma getTLSAge_first_event Date_parse now (ev : SocketEvent) (rest : list SocketEvent) :
  getTLSAge Date_parse now (Connected (ev :: rest))
  = on_socket_event Date_parse now Pending ev.
Proof.
  unfold getTLSAge. simpl.
  destruct ev as [[c|]| |]; simpl; try apply settled_stays.
  destruct (truthy (valid_from c)); apply settled_stays.
Qed.

(** None of the three providers ever rejects: whatever the service does,
    the promise is fulfilled (or, for the certificate lookup, still pending
    while nothing has happened on the socket). *)
Lemma providers_never_reject Date_parse now
    (whois : Awaited WhoisResult) (connection : Connection) (fetched : Fetched)
    (e : JsError) :
  getDomainAge Date_parse now whois <> Rejected e
  /\ getTLSAge Date_parse now connection <> Rejected e
  /\ getWaybackFirstSeen Date_parse now fetched <> Rejected e.
Proof.
  split; [|split].
  - unfold getDomainAge. rewrite swallow.
    destruct whois as [result|err]; [|discriminate].
    destruct (truthy _); discriminate.
  - destruct connection as [err|[|ev rest]]; try discriminate.
    rewrite getTLSAge_first_event.
    destruct ev as [[c|]| |]; simpl; try discriminate.
    destruct (truthy (valid_from c)); discriminate.
  - unfold getWaybackFirstSeen. rewrite swallow.
    match goal with |- match ?b with _ => _ end <> _ => destruct b as [|[v|err]] end;
      discriminate.
Qed.

(** A service error, a timeout, an unreadable response or a missing date
    or certificate field makes the provider answer [null]. *)
Lemma providers_null_on_failure Date_parse now :
  (forall err, getDomainAge Date_parse now (Rejects err) = Fulfilled None)
  /\ (forall result,
        first_truthy [creationDate result; registered result; created result] = None ->
        getDomainAge Date_parse now (Resolves result) = Fulfilled None)
  /\ (forall err, getTLSAge Date_parse now (ConnectThrows err) = Fulfilled None)
  /\ (forall err rest,
        getTLSAge Date_parse now (Connected (SocketError err :: rest)) = Fulfilled None)
  /\ (forall rest,
        getTLSAge Date_parse now (Connected (SocketTimeout :: rest)) = Fulfilled None)
  /\ (forall rest,
        getTLSAge Date_parse now (Connected (SecureConnect None :: rest)) = Fulfilled None)
  /\ (forall rest,
        getTLSAge Date_parse now
          (Connected (SecureConnect (Some {| valid_from := None |}) :: rest))
        = Fulfilled None)
  /\ (forall err, getWaybackFirstSeen Date_parse now (FetchRejects err) = Fulfilled None)
  /\ (forall err, getWaybackFirstSeen Date_parse now (JsonRejects err) = Fulfilled None)
  /\ getWaybackFirstSeen Date_parse now (JsonResolves (JArray [])) = Fulfilled None
  /\ (forall header,
        getWaybackFirstSeen Date_parse now (JsonResolves (JArray [header])) = Fulfilled None).
Proof.
  repeat split; intros; try reflexivity;
    try (rewrite getTLSAge_first_event; reflexivity).
  rewrite getDomainAge_Resolves. now rewrite H.
Qed.

Lemma first_truthy_nonempty (l : list (option string)) (s : string) :
  first_truthy l = Some s -> String.eqb s "" = false.
Proof.
  unfold first_truthy. destruct (find truthy l) as [x|] eqn:E; [|discriminate].
  intros ->. apply find_some in E. destruct E as [_ E]. simpl in E.
  now destruct (String.eqb s "").
Qed.

Lemma age_in_days_cases (now : Z) (d : Date) :
  age_in_days (TimeValue now) d = NaN
  \/ exists n, (0 <= n)%Z /\ to_Z (age_in_days (TimeValue now) d) = Some n.
Proof.
  destruct d as [|b]; [left; apply age_in_days_invalid|].
  destruct (Z_le_gt_dec (Z.abs b) maxTimeValue) as [Hb|Hb];
    [|left; apply age_in_days_out_of_range; lia].
  destruct (Z_le_gt_dec (Z.abs now) maxTimeValue) as [Ha|Ha].
  - right. now apply age_in_days_valid.
  - left. rewrite age_in_days_symmetric. apply age_in_days_out_of_range. lia.
Qed.

Lemma not_nan_integer (now : Z) (d : Date) (v : number) :
  v = age_in_days (TimeValue now) d -> is_nan v = false ->
  exists n, (0 <= n)%Z /\ to_Z v = Some n.
Proof.
  intros -> Hn. destruct (age_in_days_cases now d) as [E|H]; [|exact H].
  rewrite E in Hn. discriminate.
Qed.

Lemma getDomainAge_value Date_parse now whois (v : number) :
  getDomainAge Date_parse now whois = Fulfilled (Some v) ->
  exists d, v = age_in_days (TimeValue now) d.
Proof.
  destruct whois as [result|err]; [|discriminate].
  rewrite getDomainAge_Resolves.
  destruct (first_truthy _) as [s|]; [|discriminate].
  destruct (String.eqb s ""); [discriminate|].
  intros H. injection H as <-. now exists (Date_parse s).
Qed.

Lemma getTLSAge_value Date_parse now connection (v : number) :
  getTLSAge Date_parse now connection = Fulfilled (Some v) ->
  exists d, v = age_in_days (TimeValue now) d.
Proof.
  destruct connection as [err|[|ev rest]]; try discriminate.
  rewrite getTLSAge_first_event.
  destruct ev as [[c|]| |]; simpl; try discriminate.
  destruct (truthy (valid_from c)); [|discriminate].
  intros H. injection H as <-. now exists (new_Date Date_parse (valid_from c)).
Qed.

Lemma getWaybackFirstSeen_value Date_parse now fetched (v : number) :
  getWaybackFirstSeen Date_parse now fetched = Fulfilled (Some v) ->
  exists d, v = age_in_days (TimeValue now) d.
Proof.
  unfold getWaybackFirstSeen. rewrite swallow.
  destruct fetched as [err|err|data]; try discriminate.
  destruct (Json_truthy (Some data) && length_gt_1 data); [|discriminate].
  destruct (index_1 (Some data)) as [row|err]; [|discriminate].
  destruct (index_1 row) as [timestamp|err]; [|discriminate].
  destruct (Json_truthy timestamp); [|discriminate].
  destruct timestamp as [[| | |ts|]|]; try discriminate.
  intros H. injection H as <-. eexists. reflexivity.
Qed.

(** C4.  The lookup does not answer [null] on every parse failure: when
    the registration record carries a creation date that [Date] cannot
    parse, [getDomainAge] is fulfilled with NaN.  (That no provider ever
    rejects, and that service errors, timeouts, unreadable responses and
    missing fields give [null], is [providers_never_reject] and
    [providers_null_on_failure].) *)
Theorem getDomainAge_unparsable_date
    (Date_parse : string -> Date) (now : Z) (s : string) (b c : option string)
    (Hnonempty : String.eqb s "" = false)
    (Hinvalid : Date_parse s = InvalidDate) :
  getDomainAge Date_parse now (Resolves (whois_record (Some s) b c))
  = Fulfilled (Some NaN).
Proof.
  rewrite getDomainAge_Resolves. unfold first_truthy, whois_record.
  simpl. rewrite Hnonempty. simpl. rewrite Hnonempty, Hinvalid.
  now rewrite age_in_days_invalid.
Qed.

Lemma getDomainAge_unparsable_date_witness :
  getDomainAge Date_parse_iso new_year_2024
    (Resolves (whois_record (Some "unknown") None None))
  = Fulfilled (Some NaN).
Proof.
  apply (getDomainAge_unparsable_date Date_parse_iso new_year_2024 "unknown" None None);
    reflexivity.
Defined.

(** C7, as stated, fails: with a creation date of 2020 and a registration
    date of 2010 in the record, the lookup answers the age of the 2020
    date (1461 days on 2024-01-01), not that of the earliest date (5113
    days). *)
Lemma getDomainAge_not_earliest :
  Date_parse_iso "2020-01-01" = TimeValue 1577836800000
  /\ Date_parse_iso "2010-01-01" = TimeValue 1262304000000
  /\ getDomainAge Date_parse_iso new_year_2024
       (Resolves (whois_record (Some "2020-01-01") (Some "2010-01-01") None))
     = Fulfilled (Some (of_Z 1461))
  /\ age_in_days (TimeValue new_year_2024) (Date_parse_iso "2010-01-01") = of_Z 5113.
Proof. vm_compute. repeat split; reflexivity. Qed.

(** C7, amended.  The registration-age lookup takes the first non-empty
    of the fields [creationDate], [registered] and [created], in that
    order, and answers the days between that date and the current time,
    rounded up: a non-negative integer when the date parses.  It answers
    [null] when none of the three fields is present. *)
Theorem getDomainAge_first_present_field
    (Date_parse : string -> Date) (now : Z) (result : WhoisResult) :
  getDomainAge Date_parse now (Resolves result)
  = match first_truthy [creationDate result; registered result; created result] with
    | Some s => Fulfilled (Some (Math_ceil (Math_abs (Date_valueOf (TimeValue now)
                                                  - Date_valueOf (Date_parse s))
                                        / msPerDay)%js))
    | None => Fulfilled None
    end
  /\ (forall s t,
        first_truthy [creationDate result; registered result; created result] = Some s ->
        Date_parse s = TimeValue t ->
        (Z.abs t <= maxTimeValue)%Z -> (Z.abs now <= maxTimeValue)%Z ->
        exists v n,
          getDomainAge Date_parse now (Resolves result) = Fulfilled (Some v)
          /\ to_Z v = Some n /\ (0 <= n)%Z)
  /\ age_in_days (TimeValue 0) (TimeValue 0) = of_Z 0
  /\ age_in_days (TimeValue 1) (TimeValue 0) = of_Z 1
  /\ age_in_days (TimeValue 86400000) (TimeValue 0) = of_Z 1
  /\ age_in_days (TimeValue 86400001) (TimeValue 0) = of_Z 2.
Proof.
  assert (H : getDomainAge Date_parse now (Resolves result)
    = match first_truthy [creationDate result; registered result; created result] with
      | Some s => Fulfilled (Some (age_in_days (TimeValue now) (Date_parse s)))
      | None => Fulfilled None
      end).
  { rewrite getDomainAge_Resolves.
    destruct (first_truthy _) as [s|] eqn:E; [|reflexivity].
    now rewrite (first_truthy_nonempty _ _ E). }
  split; [exact H|]. split.
  - intros s t Hs Ht Hrange Hnow. rewrite H, Hs, Ht.
    destruct (age_in_days_valid now t Hnow Hrange) as [n [Hn E]].
    exists (age_in_days (TimeValue now) (TimeValue t)), n. tauto.
  - vm_compute. repeat split; reflexivity.
Qed.

(** C9, as stated, fails: a creation date three days ahead of the clock is
    not clamped to 0; the lookup answers 3. *)
Lemma future_date_not_clamped :
  Date_parse_iso "2024-01-04" = TimeValue (new_year_2024 + 3 * 86400000)
  /\ getDomainAge Date_parse_iso new_year_2024
       (Resolves (whois_record (Some "2024-01-04") None None))
     = Fulfilled (Some (of_Z 3))
  /\ getWaybackFirstSeen Date_parse_iso new_year_2024
       (JsonResolves
          (JArray [JArray [JString "urlkey"; JString "timestamp"];
                   JArray [JString "com,example)/"; JString "20240104093000"]]))
     = Fulfilled (Some (of_Z 3)).
Proof. vm_compute. repeat split; reflexivity. Qed.

(** C9, amended.  Whenever one of the three lookups answers a value that is
    neither [null] nor NaN, that value is an integer >= 0.  The age is
    taken from the absolute difference between the clock and the date, so a
    date ahead of the clock yields the same age as the date equally far
    behind it, at least one day; it is not clamped to 0. *)
Theorem provider_ages_are_nonnegative_integers
    (Date_parse : string -> Date) (now : Z)
    (whois : Awaited WhoisResult) (connection : Connection) (fetched : Fetched) :
  (forall v, getDomainAge Date_parse now whois = Fulfilled (Some v) ->
             is_nan v = false ->
             exists n, (0 <= n)%Z /\ to_Z v = Some n)
  /\ (forall v, getTLSAge Date_parse now connection = Fulfilled (Some v) ->
                is_nan v = false ->
                exists n, (0 <= n)%Z /\ to_Z v = Some n)
  /\ (forall v, getWaybackFirstSeen Date_parse now fetched = Fulfilled (Some v) ->
                is_nan v = false ->
                exists n, (0 <= n)%Z /\ to_Z v = Some n)
  /\ (forall clock date : Date, age_in_days clock date = age_in_days date clock)
  /\ (forall clock date : Z,
        (Z.abs clock <= maxTimeValue)%Z -> (Z.abs date <= maxTimeValue)%Z ->
        clock <> date ->
        exists n, (1 <= n)%Z
                  /\ to_Z (age_in_days (TimeValue clock) (TimeValue date)) = Some n).
Proof.
  split; [|split; [|split; [|split]]].
  - intros v H Hn. apply getDomainAge_value in H. destruct H as [d H].
    exact (not_nan_integer now d v H Hn).
  - intros v H Hn. apply getTLSAge_value in H. destruct H as [d H].
    exact (not_nan_integer now d v H Hn).
  - intros v H Hn. apply getWaybackFirstSeen_value in H. destruct H as [d H].
    exact (not_nan_integer now d v H Hn).
  - apply age_in_days_symmetric.
  - apply age_in_days_positive.
Qed.

(** ** The apex-domain resolver *)

Lemma split_not_nil (sep : ascii) (s : string) : split sep s <> [].
Proof.
  destruct s as [|c rest]; simpl; [discriminate|].
  destruct (Ascii.eqb c sep); [discriminate|].
  destruct (split sep rest); discriminate.
Qed.

(** Joining the parts of a split with the separator gives the string
    back. *)
Lemma join_split (sep : ascii) (s : string) :
  join (String sep EmptyString) (split sep s) = s.
Proof.
  unfold join. induction s as [|c rest IH]; [reflexivity|].
  simpl split. destruct (Ascii.eqb c sep) eqn:E.
  - apply Ascii.eqb_eq in E. subst c.
    pose proof (split_not_nil sep rest) as Hn.
    destruct (split sep rest) as [|p ps]; [contradiction|].
    simpl in *. now rewrite IH.
  - destruct (split sep rest) as [|p ps] eqn:Es.
    + exfalso. exact (split_not_nil sep rest Es).
    + simpl in *. destruct ps; simpl in *; now rewrite <- IH.
Qed.

Lemma last_two {A : Type} (l : list A) :
  (2 <= List.length l)%nat ->
  exists front a b, l = (front ++ [a; b])%list /\ slice_last 2 l = [a; b].
Proof.
  intros H. unfold slice_last.
  destruct (exists_last (l := l)) as [l1 [b E]].
  { destruct l; [simpl in H; lia|discriminate]. }
  subst l. rewrite length_app in H. simpl in H.
  destruct (exists_last (l := l1)) as [front [a E]].
  { destruct l1; [simpl in H; lia|discriminate]. }
  subst l1. exists front, a, b. rewrite <- app_assoc. simpl. split; [reflexivity|].
  rewrite length_app. simpl.
  replace (List.length front + 2 - 2)%nat with (List.length front + 0)%nat by lia.
  rewrite skipn_app, Nat.add_0_r, skipn_all.
  replace (List.length front - List.length front)%nat with 0%nat by lia.
  reflexivity.
Qed.

(** C8.  The resolver splits the hostname of the parsed URL on the dot (the
    parts joined by dots give the hostname back); with at least two labels
    it answers the last two joined by a dot, otherwise the whole hostname;
    it answers [null] when the URL does not parse.  In particular
    [https://login.example.co.uk/path], whose hostname is
    [login.example.co.uk], resolves to [co.uk]. *)
Theorem getETLDPlusOne_last_two_labels
    (URL_parse : string -> option URL) (url : string) :
  match URL_parse url with
  | None => getETLDPlusOne URL_parse url = None
  | Some parsed =>
      let parts := split "." (hostname parsed) in
      join "." parts = hostname parsed
      /\ if Nat.leb 2 (List.length parts)
         then exists front a b,
                parts = (front ++ [a; b])%list
                /\ getETLDPlusOne URL_parse url = Some (a ++ "." ++ b)
         else getETLDPlusOne URL_parse url = Some (hostname parsed)
  end
  /\ (forall parsed,
        URL_parse "https://login.example.co.uk/path" = Some parsed ->
        hostname parsed = "login.example.co.uk" ->
        getETLDPlusOne URL_parse "https://login.example.co.uk/path" = Some "co.uk")
  /\ getETLDPlusOne URL_parse_simple "https://login.example.co.uk/path" = Some "co.uk".
Proof.
  split; [|split].
  - unfold getETLDPlusOne. destruct (URL_parse url) as [parsed|]; [|reflexivity].
    cbv zeta. split; [apply join_split|].
    destruct (Nat.leb 2 (List.length (split "." (hostname parsed)))) eqn:L;
      [|reflexivity].
    apply Nat.leb_le in L. destruct (last_two _ L) as [front [a [b [E1 E2]]]].
    exists front, a, b. split; [exact E1|]. rewrite E2. reflexivity.
  - intros parsed Hp Hh. unfold getETLDPlusOne. rewrite Hp, Hh. reflexivity.
  - reflexivity.
Qed.

(** ** The inline scoring of the server *)

Lemma filter_server_rule_set (f : Rule -> bool) :
  filter f server_rule_set = filter (fun r => server_rule r && f r) rule_set.
Proof.
  unfold server_rule_set, rule_set. cbn [filter server_rule existsb Rule_eqb orb andb].
  reflexivity.
Qed.

Lemma server_fired_rules_in_sublists (sig : Signals) (page : PageAnalysis) :
  In (server_fired_rules sig page) (sublists rule_set).
Proof.
  unfold server_fired_rules. rewrite filter_server_rule_set. apply filter_in_sublists.
Qed.

Lemma weight_sum_filter_le (f g : Rule -> bool) (l : list Rule) :
  (forall r, g r = true -> f r = true) ->
  (weight_sum (filter g l) <= weight_sum (filter f l))%Z.
Proof.
  intros H. induction l as [|r t IH]; [simpl; lia|].
  cbn [filter]. destruct (g r) eqn:Hg.
  - rewrite (H r Hg).
    change (rule_weight r + weight_sum (filter g t)
            <= rule_weight r + weight_sum (filter f t))%Z. lia.
  - destruct (f r); [|exact IH].
    change (weight_sum (filter g t) <= rule_weight r + weight_sum (filter f t))%Z.
    assert (0 <= rule_weight r)%Z by (destruct r; cbn [rule_weight]; lia). lia.
Qed.

Section ServerTrace.

Variable Number_toString : number -> string.
Variable sig : Signals.
Variable page : PageAnalysis.

Let server_contribute (v : ServerVars) (r : Rule) : ServerVars :=
  {| sv_score := (sv_score v + decimal (rule_weight r) 2)%js;
     sv_reasons := push (sv_reasons v) (rule_reason Number_toString sig page r) |}.

Let server_rules_applied : ServerVars :=
  server_external_hosts Number_toString page
    (server_action_mismatch page
      (server_password_form page
        (server_tls_age Number_toString sig
          (server_domain_age Number_toString sig
             {| sv_score := of_Z 0; sv_reasons := [] |})))).

Lemma server_rules_applied_trace :
  server_rules_applied
  = fold_left server_contribute (server_fired_rules sig page)
      {| sv_score := of_Z 0; sv_reasons := [] |}.
Proof.
  unfold server_rules_applied, server_fired_rules, server_rule_set.
  unfold server_external_hosts, server_action_mismatch, server_password_form,
    server_tls_age, server_domain_age.
  cbn [filter rule_condition].
  unfold not_null, lt_literal, ToNumber.
  cbv beta iota delta [server_contribute rule_reason].
  destruct (domainAge sig) as [d|]; destruct (tlsAge sig) as [c|];
    cbn [andb];
    try set (d7 := (d <? of_Z 7)%js); try set (c7 := (c <? of_Z 7)%js);
    try destruct d7; try destruct c7;
    destruct (hasPasswordForm page); destruct (hasActionMismatch page);
    destruct (Nat.ltb 8 (externalHostsCount page)); reflexivity.
Qed.

Lemma server_trace_score (l : list Rule) (v : ServerVars) :
  sv_score (fold_left server_contribute l v)
  = fold_left (fun s r => (s + decimal (rule_weight r) 2)%js) l (sv_score v).
Proof. revert v. induction l as [|r t IH]; intros v; simpl; [reflexivity|apply IH]. Qed.

Lemma server_trace_reasons (l : list Rule) (v : ServerVars) :
  sv_reasons (fold_left server_contribute l v)
  = (sv_reasons v ++ map (rule_reason Number_toString sig page) l)%list.
Proof.
  revert v. induction l as [|r t IH]; intros v; simpl.
  - now rewrite app_nil_r.
  - rewrite IH. simpl. unfold push. now rewrite <- app_assoc.
Qed.

Lemma server_scan_score_accumulate :
  server_score (server_scan Number_toString sig page)
  = round2 (cap (accumulate_values (server_fired_rules sig page))).
Proof.
  unfold server_scan. cbn [server_score].
  fold server_rules_applied.
  rewrite server_rules_applied_trace, server_trace_score.
  rewrite <- accumulate_values_eq. reflexivity.
Qed.

Lemma server_scan_reasons :
  server_reasons (server_scan Number_toString sig page)
  = with_fallback (map (rule_reason Number_toString sig page)
                       (server_fired_rules sig page)).
Proof.
  unfold server_scan. cbn [server_reasons].
  fold server_rules_applied.
  rewrite server_rules_applied_trace, server_trace_reasons. reflexivity.
Qed.

End ServerTrace.

Lemma server_scan_score_decimal ts sig page :
  server_score (server_scan ts sig page)
  = decimal (Z.min (weight_sum (server_fired_rules sig page)) 100) 2
  /\ (of_Z 0 <=? server_score (server_scan ts sig page))%js = true
  /\ (server_score (server_scan ts sig page) <=? of_Z 1)%js = true.
Proof.
  rewrite server_scan_score_accumulate.
  pose proof check_score_all as H. rewrite forallb_forall in H.
  specialize (H _ (server_fired_rules_in_sublists sig page)).
  unfold check_score in H.
  apply andb_prop in H. destruct H as [H H1].
  apply andb_prop in H. destruct H as [H H0].
  apply identical_eq in H. rewrite H in *. auto.
Qed.

(** X1. The score that the inline scan of the [/scan] handler reports is
    the sum of the weights of its five rules that fire (domain younger
    than 7 days 0.35, certificate younger than 7 days 0.20, password form
    0.20, action mismatch 0.25, more than 8 external hosts 0.10), capped
    at 1.00 although the five weights add up to 1.10; it lies between 0
    and 1.  Its reasons are those of the fired rules in that order, or the
    single fallback entry when none fires, so they are never empty. *)
Theorem server_scan_score_is_capped_weight_sum
    (Number_toString : number -> string) (sig : Signals) (page : PageAnalysis) :
  let r := server_scan Number_toString sig page in
  let fired := server_fired_rules sig page in
  server_score r = decimal (Z.min (weight_sum fired) 100) 2
  /\ (of_Z 0 <=? server_score r)%js = true
  /\ (server_score r <=? of_Z 1)%js = true
  /\ weight_sum server_rule_set = 110%Z
  /\ server_reasons r
     = match fired with
       | [] => [fallback_reason]
       | _ :: _ => map (rule_reason Number_toString sig page) fired
       end
  /\ server_reasons r <> [].
Proof.
  intros r fired. subst r.
  destruct (server_scan_score_decimal Number_toString sig page) as (Hs & H0 & H1).
  repeat split; try assumption.
  - rewrite server_scan_reasons. fold fired. destruct fired; reflexivity.
  - rewrite server_scan_reasons. apply with_fallback_not_nil.
Qed.

(** X2. For the same signals and the same page the server's inline scan
    never reports a higher score than [scan] does, and the two scores are
    equal when none of the rules that only [scan] has fires. *)
Theorem server_score_at_most_scan_score
    (Number_toString Number_toString' : number -> string)
    (sig : Signals) (page : PageAnalysis) :
  (server_score (server_scan Number_toString sig page)
   <=? result_score (scan Number_toString' sig page))%js = true
  /\ ((forall r, rule_fires sig page r = true -> server_rule r = true) ->
      server_score (server_scan Number_toString sig page)
      = result_score (scan Number_toString' sig page)).
Proof.
  destruct (server_scan_score_decimal Number_toString sig page) as (Hs & _ & _).
  rewrite Hs, scan_score_decimal.
  unfold server_fired_rules, fired_rules. rewrite filter_server_rule_set.
  split.
  - apply capped_decimal_monotone. apply weight_sum_filter_le.
    intros r H. apply andb_prop in H. destruct H as [Hr Hc].
    destruct r; try discriminate Hr; exact Hc.
  - intros H. f_equal. f_equal. f_equal. apply filter_ext_in.
    intros r _. destruct (rule_fires sig page r) eqn:Hf.
    + rewrite (H r Hf). destruct r; try exact Hf.
      specialize (H _ Hf). discriminate H.
    + destruct (server_rule r) eqn:Hr; [|reflexivity].
      destruct r; try discriminate Hr; exact Hf.
Qed.

(** ** The providers *)


Lemma substring_of_prefix (n m k : nat) (s : string) :
  (n + m <= k)%nat ->
  String.substring n m (String.substring 0 k s) = String.substring n m s.
Proof.
  revert n m k. induction s as [|c s IH]; intros n m k H.
  - destruct k; [|reflexivity]. destruct n, m; try lia; reflexivity.
  - destruct k as [|k].
    + destruct n, m; try lia. reflexivity.
    + cbn [String.substring]. destruct n as [|n].
      * destruct m as [|m]; [reflexivity|].
        cbn [String.substring]. f_equal. apply (IH 0%nat m k). lia.
      * cbn [String.substring]. apply IH. lia.
Qed.

Lemma one_lt_of_Z (a : Z) : (2 <= a < 2 ^ 53)%Z -> (of_Z 1 <? of_Z a)%js = true.
Proof.
  intros H.
  destruct (of_Z_exact a) as (m & e & Ha & He & Hm & Hb); [lia|lia|].
  rewrite Ha. replace (a <? 0)%Z with false by (symmetry; apply Z.ltb_ge; lia).
  change (of_Z 1) with (S754_finite false 4503599627370496 (-52)).
  unfold ltb, SFltb, SFcompare.
  assert (E : (-52 < e)%Z).
  { destruct (Z.eq_dec e (-52)) as [->|]; [|lia].
    change (2 ^ (- -52))%Z with (2 ^ 52)%Z in Hm.
    change (2 ^ 53)%Z with (2 * 2 ^ 52)%Z in Hb.
    rewrite Z.abs_eq in Hm by lia. nia. }
  apply Z.compare_lt_iff in E. rewrite E. reflexivity.
Qed.

(** X4. Of the timestamp of the earliest archived snapshot only the
    calendar day is read: two replies whose timestamps agree on their
    first eight characters yield the same age, whatever follows
    (the time of day, or anything else); the age is that of the date
    [YYYY-MM-DD] cut out of these characters.  A timestamp that is a
    number and not a string yields [null]. *)
Theorem getWaybackFirstSeen_reads_the_day_only
    (Date_parse : string -> Date) (now : Z)
    (header key : Json) (more rows : list Json) (ts ts' : string)
    (Hrows : (Z.of_nat (List.length rows) < 2 ^ 32)%Z)
    (Hts : ts <> "") (Hts' : ts' <> "")
    (Hday : String.substring 0 8 ts = String.substring 0 8 ts') :
  getWaybackFirstSeen Date_parse now
    (JsonResolves (JArray (header :: JArray (key :: JString ts :: more) :: rows)))
  = getWaybackFirstSeen Date_parse now
      (JsonResolves (JArray (header :: JArray (key :: JString ts' :: more) :: rows)))
  /\ getWaybackFirstSeen Date_parse now
       (JsonResolves (JArray (header :: JArray (key :: JString ts :: more) :: rows)))
     = Fulfilled
         (Some (age_in_days (TimeValue now)
                  (Date_parse (String.substring 0 4 ts ++ "-"
                               ++ String.substring 4 2 ts ++ "-"
                               ++ String.substring 6 2 ts))))
  /\ (forall n,
        getWaybackFirstSeen Date_parse now
          (JsonResolves (JArray (header :: JArray (key :: JNumber n :: more) :: rows)))
        = Fulfilled None).
Proof.
  assert (L : (of_Z 1 <? of_nat (S (S (List.length rows))))%js = true).
  { unfold of_nat. apply one_lt_of_Z.
    change (2 ^ 53)%Z with (2 ^ 32 * 2 ^ 21)%Z. lia. }
  assert (G : forall t, t <> "" ->
            getWaybackFirstSeen Date_parse now
              (JsonResolves (JArray (header :: JArray (key :: JString t :: more) :: rows)))
            = Fulfilled
                (Some (age_in_days (TimeValue now)
                         (Date_parse (String.substring 0 4 t ++ "-"
                                      ++ String.substring 4 2 t ++ "-"
                                      ++ String.substring 6 2 t))))).
  { intros t Ht. unfold getWaybackFirstSeen. rewrite swallow.
    cbn [Json_truthy length_gt_1 List.length andb index_1 nth_error].
    rewrite L. cbn [andb]. destruct t as [|c t]; [congruence|].
    cbn [String.eqb negb]. reflexivity. }
  split; [|split].
  - rewrite (G ts Hts), (G ts' Hts').
    rewrite <- (substring_of_prefix 0 4 8 ts), <- (substring_of_prefix 4 2 8 ts),
      <- (substring_of_prefix 6 2 8 ts) by lia.
    rewrite Hday.
    rewrite !substring_of_prefix by lia. reflexivity.
  - apply G, Hts.
  - intros n. unfold getWaybackFirstSeen. rewrite swallow.
    cbn [Json_truthy length_gt_1 List.length andb index_1 nth_error].
    rewrite L. cbn [andb].
    destruct n as [| | |]; reflexivity.
Qed.

Lemma getWaybackFirstSeen_reads_the_day_only_witness :
  getWaybackFirstSeen Date_parse_iso new_year_2024
    (JsonResolves
       (JArray [JArray [JString "urlkey"; JString "timestamp"];
                JArray [JString "com,example)/"; JString "20231222093000"]]))
  = getWaybackFirstSeen Date_parse_iso new_year_2024
      (JsonResolves
         (JArray [JArray [JString "urlkey"; JString "timestamp"];
                  JArray [JString "com,example)/"; JString "20231222235959"]])).
Proof.
  apply (getWaybackFirstSeen_reads_the_day_only Date_parse_iso new_year_2024
           (JArray [JString "urlkey"; JString "timestamp"])
           (JString "com,example)/") [] [] "20231222093000" "20231222235959").
  - vm_compute. reflexivity.
  - discriminate.
  - discriminate.
  - reflexivity.
Defined.

(** ** The apex-domain resolver *)

Lemma split_app (sep : ascii) (a b : string) :
  split sep (a ++ String sep b) = (split sep a ++ split sep b)%list.
Proof.
  induction a as [|c a IH]; cbn [append split].
  - now rewrite Ascii.eqb_refl.
  - destruct (Ascii.eqb c sep); [now rewrite IH|].
    rewrite IH. destruct (split sep a) as [|p ps] eqn:E; [|reflexivity].
    now apply split_not_nil in E.
Qed.

Lemma split_free (sep : ascii) (s : string) : free_of sep s -> split sep s = [s].
Proof.
  induction s as [|c s IH]; cbn [free_of split]; [reflexivity|].
  intros [Hc Hs]. rewrite Hc, (IH Hs). reflexivity.
Qed.

Lemma split_parts_free (sep : ascii) (s : string) :
  Forall (free_of sep) (split sep s).
Proof.
  induction s as [|c s IH]; cbn [split].
  - repeat constructor.
  - destruct (Ascii.eqb c sep) eqn:E.
    + constructor; [exact I|exact IH].
    + destruct (split sep s) as [|p ps].
      * repeat constructor. exact E.
      * inversion IH; subst. constructor; [split; assumption|assumption].
Qed.

Lemma slice_last_app {A : Type} (n : nat) (front l : list A) :
  (n <= List.length l)%nat -> slice_last n (front ++ l) = slice_last n l.
Proof.
  intros H. unfold slice_last. rewrite length_app, skipn_app.
  rewrite skipn_all2 by lia. cbn [app]. f_equal. lia.
Qed.

Lemma getETLDPlusOne_hostname (URL_parse : string -> option URL) (u h : string) :
  URL_parse u = Some {| hostname := h |} ->
  getETLDPlusOne URL_parse u
  = Some (if Nat.leb 2 (List.length (split "." h))
          then join "." (slice_last 2 (split "." h)) else h).
Proof.
  intros H. unfold getETLDPlusOne. rewrite H. cbn [hostname].
  destruct (Nat.leb 2 (List.length (split "." h))); reflexivity.
Qed.

(** X5. The resolver ignores subdomains: a hostname of at least two
    labels and the same hostname with any prefix of further labels put
    in front resolve to the same apex domain. *)
Theorem getETLDPlusOne_ignores_subdomains
    (URL_parse : string -> option URL) (u u' sub h : string)
    (Hu : URL_parse u = Some {| hostname := h |})
    (Hu' : URL_parse u' = Some {| hostname := sub ++ "." ++ h |})
    (Hlabels : (2 <= List.length (split "." h))%nat) :
  getETLDPlusOne URL_parse u' = getETLDPlusOne URL_parse u.
Proof.
  rewrite (getETLDPlusOne_hostname _ _ _ Hu), (getETLDPlusOne_hostname _ _ _ Hu').
  change (sub ++ "." ++ h) with (sub ++ String "." h).
  rewrite split_app, length_app, slice_last_app by exact Hlabels.
  apply Nat.leb_le in Hlabels as L. rewrite L.
  replace (Nat.leb 2 (List.length (split "." sub) + List.length (split "." h))) with true.
  - reflexivity.
  - symmetry. apply Nat.leb_le. lia.
Qed.

Lemma getETLDPlusOne_ignores_subdomains_witness :
  getETLDPlusOne URL_parse_simple "https://login.shop.example.com/account"
  = getETLDPlusOne URL_parse_simple "https://example.com".
Proof.
  apply (getETLDPlusOne_ignores_subdomains URL_parse_simple
           "https://example.com" "https://login.shop.example.com/account"
           "login.shop" "example.com").
  - reflexivity.
  - reflexivity.
  - vm_compute. lia.
Defined.

(** X6. The resolver is idempotent: a URL whose hostname is the apex
    domain that the resolver returned for some URL resolves to that same
    apex domain. *)
Theorem getETLDPlusOne_idempotent
    (URL_parse : string -> option URL) (u u' apex : string)
    (Hu : getETLDPlusOne URL_parse u = Some apex)
    (Hu' : URL_parse u' = Some {| hostname := apex |}) :
  getETLDPlusOne URL_parse u' = Some apex.
Proof.
  rewrite (getETLDPlusOne_hostname _ _ _ Hu').
  unfold getETLDPlusOne in Hu.
  destruct (URL_parse u) as [[h]|]; [|discriminate]. cbn [hostname] in Hu.
  destruct (Nat.leb 2 (List.length (split "." h))) eqn:L.
  - apply Nat.leb_le in L. destruct (last_two _ L) as (front & a & b & Hp & Hs).
    rewrite Hs in Hu. cbn in Hu. injection Hu as <-.
    pose proof (split_parts_free "." h) as F. rewrite Hp in F.
    apply Forall_app in F. destruct F as [_ F].
    inversion F as [|? ? Fa F']; subst. inversion F' as [|? ? Fb _]; subst.
    change (a ++ "." ++ b) with (a ++ String "." b).
    rewrite split_app, (split_free _ _ Fa), (split_free _ _ Fb). reflexivity.
  - injection Hu as <-. rewrite L. reflexivity.
Qed.

Lemma getETLDPlusOne_idempotent_witness :
  getETLDPlusOne URL_parse_simple "http://co.uk:8080/" = Some "co.uk".
Proof.
  apply (getETLDPlusOne_idempotent URL_parse_simple
           "https://login.example.co.uk/path" "http://co.uk:8080/" "co.uk").
  - reflexivity.
  - reflexivity.
Defined.

(** ** The page analysis of [scan] *)

Lemma check_mismatch_level_all :
  forallb check_mismatch_level (sublists rule_set) = true.
Proof. vm_compute. reflexivity. Qed.

Lemma append_assoc_string (a b c : string) : (a ++ b) ++ c = a ++ b ++ c.
Proof. induction a as [|x a IH]; cbn [append]; [reflexivity|now rewrite IH]. Qed.

Lemma prefix_spec (n s : string) :
  String.prefix n s = true <-> exists q, s = n ++ q.
Proof.
  revert s. induction n as [|c n IH]; intros s.
  - split; [intros _; exists s; reflexivity|intros _; destruct s; reflexivity].
  - destruct s as [|d s]; cbn [String.prefix append].
    + split; [discriminate|intros [q H]; discriminate].
    + destruct (Ascii.ascii_dec c d) as [->|N].
      * rewrite IH. split; intros [q H]; exists q; congruence.
      * split; [discriminate|intros [q H]; congruence].
Qed.

Lemma includes_spec (s n : string) :
  includes s n = true <-> exists p q, s = p ++ n ++ q.
Proof.
  induction s as [|c s IH]; cbn [includes].
  - rewrite orb_false_r, prefix_spec. split.
    + intros [q H]. exists "", q. exact H.
    + intros (p & q & H). destruct p; [exists q; exact H|discriminate].
  - rewrite orb_true_iff, prefix_spec, IH. split.
    + intros [[q H]|(p & q & H)].
      * exists "", q. exact H.
      * exists (String c p), q. cbn [append]. now rewrite H.
    + intros (p & q & H). destruct p as [|d p].
      * left. exists q. exact H.
      * right. exists p, q. cbn [append] in H. congruence.
Qed.

Lemma includes_suffix_of_search (s a b : string) :
  includes s (a ++ b) = true -> includes s b = true.
Proof.
  rewrite !includes_spec. intros (p & q & H). exists (p ++ a), q.
  now rewrite H, !append_assoc_string.
Qed.

Lemma in_if_singleton {A : Type} (c : bool) (x p : A) :
  In p (if c then [x] else []) <-> c = true /\ p = x.
Proof.
  destruct c; cbn; split; try tauto; try (intros [H _]; discriminate H).
  - intros [<-|[]]. auto.
  - intros [_ ->]. auto.
Qed.

Section PageFacts.

Variable URL_parse : string -> option URL.
Variable URL_resolve : string -> string -> option Resolved.
Variable String_toLowerCase : string -> string.
Variable url : string.
Variable parsedUrl : URL.

Let foreign := Page.foreign_action URL_parse URL_resolve url.
Let foreign_actions (inputs : list (option Page.Form)) : list string :=
  flat_map (fun input => match foreign input with Some h => [h] | None => [] end)
           inputs.

Lemma check_action_foreign (state : bool * list string) (input : option Page.Form) :
  Page.check_action URL_parse URL_resolve url state input
  = match foreign input with
    | Some h => ((true, push (snd state) h), false)
    | None => (state, true)
    end.
Proof.
  unfold Page.check_action, foreign, Page.foreign_action.
  destruct input as [[m [a|]]|]; cbn [Page.action truthy]; try reflexivity.
  destruct (String.eqb a ""); cbn [negb]; [reflexivity|].
  destruct (URL_resolve a url) as [actionUrl|]; [|reflexivity].
  destruct (getETLDPlusOne URL_parse (href actionUrl)) as [e|]; cbn [truthy andb];
    [|reflexivity].
  destruct (negb (String.eqb e "") && differs (Some e) (Page.pageETLD URL_parse url));
    reflexivity.
Qed.

Lemma each_check_action (inputs : list (option Page.Form)) (state : bool * list string) :
  each (Page.check_action URL_parse URL_resolve url) inputs state
  = match foreign_actions inputs with
    | h :: _ => (true, push (snd state) h)
    | [] => state
    end.
Proof.
  revert state. induction inputs as [|input rest IH]; intros state; [reflexivity|].
  cbn [each]. rewrite check_action_foreign. unfold foreign_actions. cbn [flat_map].
  destruct (foreign input) as [h|]; cbn [app]; [reflexivity|]. apply IH.
Qed.

Lemma action_mismatches_spec (document : Page.Document) :
  Page.action_mismatches URL_parse URL_resolve url document
  = match foreign_actions (Page.passwordInputs document) with
    | h :: _ => (true, [h])
    | [] => (false, [])
    end.
Proof.
  unfold Page.action_mismatches, Page.hasPasswordForm.
  destruct (Page.passwordInputs document) as [|input rest] eqn:E; [reflexivity|].
  cbn [List.length Nat.ltb Nat.leb]. apply each_check_action.
Qed.

Lemma foreign_actions_In (inputs : list (option Page.Form)) (h : string) :
  In h (foreign_actions inputs) <-> exists input, In input inputs /\ foreign input = Some h.
Proof.
  unfold foreign_actions. rewrite in_flat_map. split.
  - intros (input & Hin & Hh). exists input. split; [exact Hin|].
    destruct (foreign input) as [h'|]; [|destruct Hh].
    destruct Hh as [->|[]]. reflexivity.
  - intros (input & Hin & Hh). exists input. split; [exact Hin|].
    rewrite Hh. now left.
Qed.

Lemma hasActionMismatch_hasPasswordForm (document : Page.Document) :
  Page.hasActionMismatch URL_parse URL_resolve url document = true ->
  Page.hasPasswordForm document = true.
Proof.
  unfold Page.hasActionMismatch, Page.action_mismatches.
  destruct (Page.hasPasswordForm document); [reflexivity|discriminate].
Qed.

(** X7. The action-mismatch flag is set exactly when some password input
    sits in a form whose action resolves to another apex domain than the
    page's; it is never set on a page without a password input.  The loop
    stops at the first such input, so [suspiciousActions] holds that
    input's action and nothing else, however many forms post elsewhere:
    it has at most one entry and is non-empty exactly when the flag is
    set. *)
Theorem action_mismatch_reports_first_foreign_action (document : Page.Document) :
  let flagged := Page.hasActionMismatch URL_parse URL_resolve url document in
  let actions := Page.suspiciousActions URL_parse URL_resolve url document in
  (flagged = true <->
   exists input h, In input (Page.passwordInputs document)
                   /\ Page.foreign_action URL_parse URL_resolve url input = Some h)
  /\ (flagged = true -> Page.hasPasswordForm document = true)
  /\ (flagged = true <-> actions <> [])
  /\ (List.length actions <= 1)%nat
  /\ (forall before input h after,
        Page.passwordInputs document = (before ++ input :: after)%list ->
        (forall i, In i before ->
                   Page.foreign_action URL_parse URL_resolve url i = None) ->
        Page.foreign_action URL_parse URL_resolve url input = Some h ->
        actions = [h]).
Proof.
  intros flagged actions. subst flagged actions.
  unfold Page.hasActionMismatch, Page.suspiciousActions.
  pose proof (hasActionMismatch_hasPasswordForm document) as Hpw.
  unfold Page.hasActionMismatch in Hpw.
  rewrite action_mismatches_spec in *.
  pose proof (foreign_actions_In (Page.passwordInputs document)) as HIn.
  fold foreign.
  split; [|split; [|split; [|split]]].
  - destruct (foreign_actions (Page.passwordInputs document)) as [|h t]; cbn [fst].
    + split; [discriminate|]. intros (input & h & Hi & Hh).
      destruct (proj2 (HIn h)); eauto.
    + split; [|reflexivity]. intros _.
      destruct (proj1 (HIn h) (or_introl eq_refl)) as (input & Hi & Hh). eauto.
  - exact Hpw.
  - destruct (foreign_actions (Page.passwordInputs document)); cbn [fst snd];
      split; congruence.
  - destruct (foreign_actions (Page.passwordInputs document)); cbn [snd List.length]; lia.
  - intros before input h after E Hbefore Hinput. rewrite E.
    assert (B : foreign_actions before = []).
    { clear E. induction before as [|i before IH]; [reflexivity|].
      unfold foreign_actions in *. cbn [flat_map].
      rewrite (Hbefore i (or_introl eq_refl)). cbn [app].
      apply IH. intros j Hj. apply Hbefore. now right. }
    unfold foreign_actions in *. rewrite flat_map_app, B. cbn [app flat_map].
    rewrite Hinput. reflexivity.
Qed.

(** What a form adds to [suspiciousFormPatterns]. *)
Let form_patterns (document : Page.Document) (form : Page.Form) : list string :=
  ((if String.eqb (String_toLowerCase (Page.or_default (Page.method form) "get")) "get"
       && Page.hasPasswordForm document
    then [Page.uses_GET] else [])
   ++ (if includes (Page.or_default (Page.action form) "") "javascript:"
          || includes (Page.or_default (Page.action form) "") "data:"
       then [Page.suspicious_action] else []))%list.

Lemma check_form_appends (document : Page.Document) (patterns : list string)
    (form : Page.Form) :
  Page.check_form String_toLowerCase document patterns form
  = (patterns ++ form_patterns document form)%list.
Proof.
  unfold Page.check_form, form_patterns, push.
  destruct (String.eqb _ "get" && Page.hasPasswordForm document);
    destruct (includes _ "javascript:" || includes _ "data:");
    cbn [app]; rewrite <- ?app_assoc, ?app_nil_r; reflexivity.
Qed.

Lemma fold_check_form (document : Page.Document) (l : list Page.Form)
    (patterns : list string) :
  fold_left (Page.check_form String_toLowerCase document) l patterns
  = (patterns ++ flat_map (form_patterns document) l)%list.
Proof.
  revert patterns. induction l as [|form t IH]; intros patterns; cbn [fold_left flat_map].
  - now rewrite app_nil_r.
  - rewrite IH, check_form_appends, <- app_assoc. reflexivity.
Qed.

Lemma suspiciousFormPatterns_spec (document : Page.Document) :
  Page.suspiciousFormPatterns String_toLowerCase document
  = flat_map (form_patterns document) (Page.forms document).
Proof. unfold Page.suspiciousFormPatterns. now rewrite fold_check_form. Qed.

(** X8. [suspiciousFormPatterns] holds nothing but the two fixed
    messages, at most two entries for each form of the page; the message
    about the GET method never appears on a page without a password
    input, and the message about the action appears exactly when some
    form has an action that contains [javascript:] or [data:]. *)
Theorem suspiciousFormPatterns_entries (document : Page.Document) :
  let patterns := Page.suspiciousFormPatterns String_toLowerCase document in
  (forall p, In p patterns -> p = Page.uses_GET \/ p = Page.suspicious_action)
  /\ (List.length patterns <= 2 * List.length (Page.forms document))%nat
  /\ (Page.hasPasswordForm document = false -> ~ In Page.uses_GET patterns)
  /\ (In Page.suspicious_action patterns <->
      exists form a, In form (Page.forms document)
                     /\ Page.action form = Some a
                     /\ (includes a "javascript:" || includes a "data:") = true).
Proof.
  intros patterns. subst patterns. rewrite suspiciousFormPatterns_spec.
  split; [|split; [|split]].
  - intros p Hp. apply in_flat_map in Hp. destruct Hp as (form & _ & Hp).
    unfold form_patterns in Hp. apply in_app_or in Hp.
    destruct Hp as [Hp|Hp]; apply in_if_singleton in Hp; destruct Hp as [_ ->]; auto.
  - induction (Page.forms document) as [|form t IH]; [cbn; lia|].
    cbn [flat_map List.length]. rewrite length_app.
    assert (List.length (form_patterns document form) <= 2)%nat.
    { unfold form_patterns. rewrite length_app.
      destruct (String.eqb _ "get" && Page.hasPasswordForm document);
        destruct (includes _ "javascript:" || includes _ "data:"); cbn; lia. }
    lia.
  - intros Hpw Hin. apply in_flat_map in Hin. destruct Hin as (form & _ & Hp).
    unfold form_patterns in Hp. rewrite Hpw, andb_false_r in Hp. cbn [app] in Hp.
    apply in_if_singleton in Hp. destruct Hp as [_ Hp]. discriminate Hp.
  - rewrite in_flat_map. split.
    + intros (form & Hin & Hp). unfold form_patterns in Hp. apply in_app_or in Hp.
      destruct Hp as [Hp|Hp].
      * apply in_if_singleton in Hp. destruct Hp as [_ Hp]. discriminate Hp.
      * apply in_if_singleton in Hp. destruct Hp as [E _].
        unfold Page.or_default in E.
        destruct (Page.action form) as [a|] eqn:Ea; [|discriminate E].
        destruct (String.eqb a ""); [discriminate E|]. exists form, a. auto.
    + intros (form & a & Hin & Ha & Hi). exists form. split; [exact Hin|].
      unfold form_patterns. apply in_or_app. right.
      unfold Page.or_default. rewrite Ha.
      destruct (String.eqb a "") eqn:E.
      * apply String.eqb_eq in E. subst a. discriminate Hi.
      * rewrite Hi. now left.
Qed.


(** X9. On a page that has a password input, every form submitted with
    GET is reported, whether or not it is the form that holds the
    password input: a form without a [method] attribute counts as GET.
    The report makes the Suspicious Forms rule fire, whatever the signals
    are. *)
Theorem get_form_flagged_on_password_page
    (document : Page.Document) (form : Page.Form)
    (Hpassword : Page.passwordInputs document <> [])
    (Hform : In form (Page.forms document))
    (Hget : String_toLowerCase (Page.or_default (Page.method form) "get") = "get") :
  In Page.uses_GET (Page.suspiciousFormPatterns String_toLowerCase document)
  /\ (forall Number_toString sig,
        In "Suspicious Forms"
           (map factor
              (result_riskFactors
                 (scan Number_toString sig
                    (Page.analysis URL_parse URL_resolve String_toLowerCase url
                       parsedUrl document))))).
Proof.
  assert (G : In Page.uses_GET (Page.suspiciousFormPatterns String_toLowerCase document)).
  { rewrite suspiciousFormPatterns_spec. apply in_flat_map. exists form.
    split; [exact Hform|]. unfold form_patterns. apply in_or_app. left.
    rewrite Hget. unfold Page.hasPasswordForm.
    destruct (Page.passwordInputs document); [congruence|]. now left. }
  split; [exact G|].
  intros ts sig. unfold_scan. rewrite rules_applied_riskFactors, map_map.
  apply in_map_iff. exists SuspiciousForms. split; [reflexivity|].
  apply filter_In. split; [cbn; tauto|].
  cbn [rule_fires rule_condition Page.analysis suspiciousFormPatterns].
  destruct (Page.suspiciousFormPatterns String_toLowerCase document);
    [destruct G|reflexivity].
Qed.

(** What a fold over resources does to the set of hosts. *)
Let external := Page.external_host URL_resolve url parsedUrl.
Let add := Page.add_host URL_resolve url parsedUrl.

Lemma add_host_spec (hosts : list string) (src : string) :
  add hosts src = match external src with
                  | Some h => Set_add hosts h
                  | None => hosts
                  end.
Proof.
  unfold add, external, Page.add_host, Page.external_host.
  destruct (String.eqb src ""); cbn [negb]; [reflexivity|].
  destruct (URL_resolve src url) as [u|]; [|reflexivity].
  destruct (String.eqb (hostname (resolved u)) (Page.domain parsedUrl)); reflexivity.
Qed.

Lemma existsb_eqb_In (x : string) (l : list string) :
  existsb (String.eqb x) l = true <-> In x l.
Proof.
  rewrite existsb_exists. split.
  - intros (y & Hy & E). apply String.eqb_eq in E. now subst.
  - intros H. exists x. split; [exact H|apply String.eqb_refl].
Qed.

Lemma Set_add_In (hosts : list string) (x h : string) :
  In h (Set_add hosts x) <-> In h hosts \/ h = x.
Proof.
  unfold Set_add, push. destruct (existsb (String.eqb x) hosts) eqn:E.
  - apply existsb_eqb_In in E. split; [tauto|]. intros [H| ->]; assumption.
  - rewrite in_app_iff. cbn. intuition congruence.
Qed.

Lemma Set_add_NoDup (hosts : list string) (x : string) :
  NoDup hosts -> NoDup (Set_add hosts x).
Proof.
  intros H. unfold Set_add, push. destruct (existsb (String.eqb x) hosts) eqn:E.
  - exact H.
  - apply NoDup_app; [exact H|repeat constructor; intros []|].
    intros y Hy [<-|[]]. apply existsb_eqb_In in Hy. congruence.
Qed.

Lemma Set_add_length (hosts : list string) (x : string) :
  (List.length (Set_add hosts x) <= S (List.length hosts))%nat.
Proof.
  unfold Set_add, push. destruct (existsb (String.eqb x) hosts).
  - lia.
  - rewrite length_app. cbn. lia.
Qed.

Lemma fold_add_host (l : list string) (hosts : list string) :
  let hosts' := fold_left add l hosts in
  (forall h, In h hosts' <->
             In h hosts \/ exists src, In src l /\ external src = Some h)
  /\ (NoDup hosts -> NoDup hosts')
  /\ (List.length hosts' <= List.length hosts + List.length l)%nat.
Proof.
  revert hosts. induction l as [|src t IH]; intros hosts; cbn [fold_left].
  - split; [|split; [auto|cbn; lia]].
    intros h. split; [auto|]. intros [H|(src & [] & _)]. exact H.
  - destruct (IH (add hosts src)) as (I1 & I2 & I3).
    rewrite add_host_spec in *.
    split; [|split].
    + intros h. rewrite I1. destruct (external src) as [x|] eqn:E.
      * rewrite Set_add_In. split.
        -- intros [[H| ->]|(s & Hs & Hx)]; [now left| |].
           ++ right. exists src. split; [now left|exact E].
           ++ right. exists s. split; [now right|exact Hx].
        -- intros [H|(s & [<-|Hs] & Hx)]; [now left; left| |].
           ++ left. right. congruence.
           ++ right. exists s. auto.
      * split.
        -- intros [H|(s & Hs & Hx)]; [now left|].
           right. exists s. split; [now right|exact Hx].
        -- intros [H|(s & [<-|Hs] & Hx)]; [now left|congruence|].
           right. exists s. auto.
    + intros H. apply I2. destruct (external src); [now apply Set_add_NoDup|exact H].
    + cbn [List.length]. destruct (external src) as [x|].
      * pose proof (Set_add_length hosts x). lia.
      * lia.
Qed.

(** X10. [externalHosts] is a set: it holds every host once.  A host is
    in it exactly when some [script], [img] or [link] element of the page
    has a source that resolves to that host and the host is not the
    page's own, so that the page's host is never in it; sources that are
    empty or do not resolve count for nothing.  The number of hosts
    never exceeds the number of these elements, and the rule on external
    hosts cannot fire on a page with fewer than nine of them. *)
Theorem externalHosts_distinct_foreign_hosts (document : Page.Document) :
  let hosts := Page.externalHosts URL_resolve url parsedUrl document in
  let resources :=
    (Page.scripts document ++ Page.images document ++ Page.links document)%list in
  NoDup hosts
  /\ (forall h, In h hosts <->
                exists src, In src resources
                            /\ Page.external_host URL_resolve url parsedUrl src = Some h)
  /\ ~ In (hostname parsedUrl) hosts
  /\ (List.length hosts <= List.length resources)%nat
  /\ (forall sig,
        rule_condition sig
          (Page.analysis URL_parse URL_resolve String_toLowerCase url parsedUrl document)
          HighExternalHosts = true ->
        (9 <= List.length resources)%nat).
Proof.
  intros hosts resources.
  assert (A : NoDup hosts
              /\ (forall h, In h hosts <->
                    exists src, In src resources /\ external src = Some h)
              /\ (List.length hosts <= List.length resources)%nat).
  { subst hosts resources. unfold Page.externalHosts. fold add.
    destruct (fold_add_host (Page.scripts document) []) as (A1 & A2 & A3).
    destruct (fold_add_host (Page.images document)
                (fold_left add (Page.scripts document) [])) as (B1 & B2 & B3).
    destruct (fold_add_host (Page.links document)
                (fold_left add (Page.images document)
                   (fold_left add (Page.scripts document) []))) as (C1 & C2 & C3).
    split; [|split].
    - apply C2, B2, A2. constructor.
    - intros h. rewrite C1, B1, A1. cbn [In]. split.
      + intros [[[[]|(s & Hs & Hx)]|(s & Hs & Hx)]|(s & Hs & Hx)];
          exists s; (split; [|exact Hx]); rewrite !in_app_iff; tauto.
      + intros (s & Hs & Hx). rewrite !in_app_iff in Hs.
        destruct Hs as [Hs|[Hs|Hs]]; eauto 7.
    - rewrite !length_app. cbn [List.length] in A3. lia. }
  destruct A as (A1 & A2 & A3).
  split; [exact A1|]. split; [exact A2|]. split; [|split; [exact A3|]].
  - intros H. apply A2 in H. destruct H as (src & _ & H).
    unfold external, Page.external_host, Page.domain in H.
    destruct (String.eqb src ""); [discriminate|].
    destruct (URL_resolve src url) as [u|]; [|discriminate].
    destruct (String.eqb (hostname (resolved u)) (hostname parsedUrl)) eqn:E;
      [discriminate|].
    injection H as H. rewrite H, String.eqb_refl in E. discriminate.
  - intros sig H. cbn [rule_condition Page.analysis externalHostsCount] in H.
    unfold Page.externalHostsCount in H. fold hosts in H.
    apply Nat.ltb_lt in H. lia.
Qed.

(** What one anchor contributes to [externalLinks] and to
    [suspiciousLinkPatterns], and one [iframe] to [suspiciousIframes]. *)
Let link_entries (link : Page.Anchor) : list Page.ExternalLink :=
  if String.eqb (Page.anchor_href link) "" then []
  else match URL_resolve (Page.anchor_href link) url with
       | Some linkUrl =>
           if String.eqb (hostname (resolved linkUrl)) (hostname parsedUrl) then []
           else [{| Page.link_url := href linkUrl;
                    Page.link_text := Page.linkText link;
                    Page.isExternal := true |}]
       | None => []
       end.

Let link_patterns (link : Page.Anchor) : list string :=
  if String.eqb (Page.anchor_href link) "" then []
  else match URL_resolve (Page.anchor_href link) url with
       | Some linkUrl =>
           if String.eqb (hostname (resolved linkUrl)) (hostname parsedUrl) then []
           else if includes (String_toLowerCase (Page.linkText link)) "click here"
                   || includes (String_toLowerCase (Page.linkText link)) "verify now"
                   || includes (String_toLowerCase (Page.linkText link)) "update now"
                then ["Suspicious link text: " ++ double_quote
                      ++ Page.linkText link ++ double_quote]
                else []
       | None => []
       end.

Let iframe_entries (src : option string) : list string :=
  match src with
  | Some s =>
      if String.eqb s "" then []
      else match URL_resolve s url with
           | Some iframeUrl =>
               if String.eqb (hostname (resolved iframeUrl)) (hostname parsedUrl)
               then [] else [href iframeUrl]
           | None => []
           end
  | None => []
  end.

Lemma check_link_entries (state : list Page.ExternalLink * list string)
    (link : Page.Anchor) :
  Page.check_link URL_resolve String_toLowerCase url parsedUrl state link
  = ((fst state ++ link_entries link)%list, (snd state ++ link_patterns link)%list).
Proof.
  unfold Page.check_link, link_entries, link_patterns, Page.domain, push.
  destruct state as [links patterns]. cbn [fst snd].
  destruct (String.eqb (Page.anchor_href link) ""); cbn [negb];
    [now rewrite !app_nil_r|].
  destruct (URL_resolve (Page.anchor_href link) url) as [linkUrl|];
    [|now rewrite !app_nil_r].
  destruct (String.eqb (hostname (resolved linkUrl)) (hostname parsedUrl));
    cbn [negb]; [now rewrite !app_nil_r|].
  destruct (includes _ "click here" || includes _ "verify now"
            || includes _ "update now"); [reflexivity|now rewrite app_nil_r].
Qed.

Lemma fold_check_link (anchors : list Page.Anchor)
    (state : list Page.ExternalLink * list string) :
  fold_left (Page.check_link URL_resolve String_toLowerCase url parsedUrl) anchors state
  = ((fst state ++ flat_map link_entries anchors)%list,
     (snd state ++ flat_map link_patterns anchors)%list).
Proof.
  revert state. induction anchors as [|link t IH]; intros state; cbn [fold_left flat_map].
  - rewrite !app_nil_r. now destruct state.
  - rewrite IH, check_link_entries. cbn [fst snd]. now rewrite <- !app_assoc.
Qed.

Lemma link_counts (anchors : list Page.Anchor) :
  (List.length (flat_map link_patterns anchors)
   <= List.length (flat_map link_entries anchors) <= List.length anchors)%nat.
Proof.
  induction anchors as [|link t IH]; cbn [flat_map List.length]; [lia|].
  rewrite !length_app.
  assert (H : (List.length (link_patterns link) <= List.length (link_entries link) <= 1)%nat).
  { unfold link_patterns, link_entries.
    destruct (String.eqb (Page.anchor_href link) ""); [cbn; lia|].
    destruct (URL_resolve (Page.anchor_href link) url) as [linkUrl|]; [|cbn; lia].
    destruct (String.eqb (hostname (resolved linkUrl)) (hostname parsedUrl)); [cbn; lia|].
    destruct (includes _ "click here" || includes _ "verify now"
              || includes _ "update now"); cbn; lia. }
  lia.
Qed.

Lemma check_iframe_entries (found : list string) (src : option string) :
  Page.check_iframe URL_resolve url parsedUrl found src
  = (found ++ iframe_entries src)%list.
Proof.
  unfold Page.check_iframe, iframe_entries, Page.domain, push.
  destruct src as [s|]; cbn [truthy]; [|now rewrite app_nil_r].
  destruct (String.eqb s ""); cbn [negb]; [now rewrite app_nil_r|].
  destruct (URL_resolve s url) as [iframeUrl|]; [|now rewrite app_nil_r].
  destruct (String.eqb (hostname (resolved iframeUrl)) (hostname parsedUrl));
    cbn [negb]; [now rewrite app_nil_r|reflexivity].
Qed.

Lemma fold_check_iframe (sources : list (option string)) (found : list string) :
  fold_left (Page.check_iframe URL_resolve url parsedUrl) sources found
  = (found ++ flat_map iframe_entries sources)%list.
Proof.
  revert found. induction sources as [|src t IH]; intros found; cbn [fold_left flat_map].
  - now rewrite app_nil_r.
  - rewrite IH, check_iframe_entries. now rewrite <- app_assoc.
Qed.

Lemma iframe_count (sources : list (option string)) :
  (List.length (flat_map iframe_entries sources) <= List.length sources)%nat.
Proof.
  induction sources as [|src t IH]; cbn [flat_map List.length]; [lia|].
  rewrite length_app.
  assert (H : (List.length (iframe_entries src) <= 1)%nat).
  { unfold iframe_entries. destruct src as [s|]; [|cbn; lia].
    destruct (String.eqb s ""); [cbn; lia|].
    destruct (URL_resolve s url) as [iframeUrl|]; [|cbn; lia].
    destruct (String.eqb (hostname (resolved iframeUrl)) (hostname parsedUrl));
      cbn; lia. }
  lia.
Qed.

(** A reference that is not empty and resolves, against the URL of the
    page, to a URL on another host than the page's. *)
Lemma foreign_reference (attribute : string) (A : Type) (entry : Resolved -> list A)
    (x : A) :
  In x (if String.eqb attribute "" then []
        else match URL_resolve attribute url with
             | Some u =>
                 if String.eqb (hostname (resolved u)) (hostname parsedUrl) then []
                 else entry u
             | None => []
             end)
  <-> exists u, (attribute <> ""
                 /\ URL_resolve attribute url = Some u
                 /\ hostname (resolved u) <> hostname parsedUrl)
                /\ In x (entry u).
Proof.
  destruct (String.eqb attribute "") eqn:E.
  - apply String.eqb_eq in E. split; [intros []|].
    intros (u & (H & _) & _). contradiction.
  - apply String.eqb_neq in E.
    destruct (URL_resolve attribute url) as [u|].
    + destruct (String.eqb (hostname (resolved u)) (hostname parsedUrl)) eqn:D.
      * apply String.eqb_eq in D. split; [intros []|].
        intros (u' & (_ & H & N) & _). injection H as <-. contradiction.
      * apply String.eqb_neq in D. split.
        -- intros H. exists u. auto.
        -- intros (u' & (_ & H & _) & I). injection H as <-. exact I.
    + split; [intros []|]. intros (u & (_ & H & _) & _). discriminate H.
Qed.

(** X12. The link and iframe analysis reports what the page holds.  An
    entry is in [externalLinks] exactly when it is made of the resolved
    URL and the text of an anchor of the page whose [href] is not empty
    and resolves to another host than the page's; a pattern is in
    [suspiciousLinkPatterns] exactly when it quotes the text of such an
    anchor and that text, lower-cased, contains one of the three phrases;
    an entry is in [suspiciousIframes] exactly when it is the resolved URL
    of an [iframe] of the page whose [src] is not empty and resolves to
    another host.  Hence there are no more suspicious link patterns than
    external links, no more external links than anchors and no more
    suspicious iframes than iframes; the reported list of external links
    is the first ten of them. *)
Theorem link_and_iframe_counts (document : Page.Document) :
  let externalLinks :=
    Page.externalLinks URL_resolve String_toLowerCase url parsedUrl document in
  let patterns :=
    Page.suspiciousLinkPatterns URL_resolve String_toLowerCase url parsedUrl document in
  let reported :=
    Page.externalLinkList URL_resolve String_toLowerCase url parsedUrl document in
  let suspiciousIframes := Page.suspiciousIframes URL_resolve url parsedUrl document in
  let elsewhere (attribute : string) (u : Resolved) : Prop :=
    attribute <> ""
    /\ URL_resolve attribute url = Some u
    /\ hostname (resolved u) <> hostname parsedUrl in
  let phrase (text : string) : bool :=
    includes (String_toLowerCase text) "click here"
    || includes (String_toLowerCase text) "verify now"
    || includes (String_toLowerCase text) "update now" in
  (forall l, In l externalLinks <->
     exists a u, In a (Page.allLinks document)
                 /\ elsewhere (Page.anchor_href a) u
                 /\ l = {| Page.link_url := href u;
                           Page.link_text := Page.linkText a;
                           Page.isExternal := true |})
  /\ (forall p, In p patterns <->
        exists a u, In a (Page.allLinks document)
                    /\ elsewhere (Page.anchor_href a) u
                    /\ phrase (Page.linkText a) = true
                    /\ p = "Suspicious link text: " ++ double_quote
                           ++ Page.linkText a ++ double_quote)
  /\ (forall s, In s suspiciousIframes <->
        exists src u, In (Some src) (Page.iframes document)
                      /\ elsewhere src u /\ s = href u)
  /\ (List.length patterns <= List.length externalLinks
      <= List.length (Page.allLinks document))%nat
  /\ (List.length suspiciousIframes <= List.length (Page.iframes document))%nat
  /\ List.length reported = Nat.min 10 (List.length externalLinks)
  /\ (exists rest, externalLinks = (reported ++ rest)%list).
Proof.
  intros externalLinks patterns reported suspiciousIframes elsewhere phrase.
  subst externalLinks patterns reported suspiciousIframes.
  unfold Page.externalLinkList, Page.externalLinks, Page.suspiciousLinkPatterns,
    Page.link_analysis, Page.suspiciousIframes, slice_0.
  rewrite fold_check_link, fold_check_iframe. cbn [fst snd app].
  split; [|split; [|split; [|split; [|split; [|split]]]]].
  - intros l. rewrite in_flat_map. split.
    + intros (a & Ha & Hl). apply foreign_reference in Hl.
      destruct Hl as (u & F & [<-|[]]). exists a, u. auto.
    + intros (a & u & Ha & F & ->). exists a. split; [exact Ha|].
      apply foreign_reference. exists u. split; [exact F|now left].
  - intros p. rewrite in_flat_map. split.
    + intros (a & Ha & Hp). unfold link_patterns in Hp.
      apply (foreign_reference (Page.anchor_href a) string
               (fun _ => if phrase (Page.linkText a)
                         then ["Suspicious link text: " ++ double_quote
                               ++ Page.linkText a ++ double_quote]
                         else [])) in Hp.
      destruct Hp as (u & F & Hp).
      destruct (phrase (Page.linkText a)) eqn:P; [|destruct Hp].
      destruct Hp as [<-|[]]. exists a, u. auto.
    + intros (a & u & Ha & F & P & ->). exists a. split; [exact Ha|].
      unfold link_patterns.
      apply (foreign_reference (Page.anchor_href a) string
               (fun _ => if phrase (Page.linkText a)
                         then ["Suspicious link text: " ++ double_quote
                               ++ Page.linkText a ++ double_quote]
                         else [])).
      exists u. split; [exact F|]. rewrite P. now left.
  - intros s. rewrite in_flat_map. split.
    + intros ([src|] & Hs & H); [|destruct H].
      apply (foreign_reference src string (fun u => [href u])) in H.
      destruct H as (u & F & [<-|[]]). exists src, u. auto.
    + intros (src & u & Hs & F & ->). exists (Some src). split; [exact Hs|].
      apply (foreign_reference src string (fun u => [href u])).
      exists u. split; [exact F|now left].
  - apply link_counts.
  - apply iframe_count.
  - apply length_firstn.
  - exists (skipn 10 (flat_map link_entries (Page.allLinks document))).
    symmetry. apply firstn_skipn.
Qed.

(** X13. A password form that posts to another apex domain is never
    rated LOW: whenever the page analysis sets the action-mismatch flag,
    both the Password Form and the Action Mismatch rule fire, the score
    is at least 0.45 and the risk level is MEDIUM or HIGH, whatever the
    signals and the rest of the page are. *)
Theorem action_mismatch_is_never_low
    (Number_toString : number -> string) (sig : Signals) (document : Page.Document)
    (Hmismatch : Page.hasActionMismatch URL_parse URL_resolve url document = true) :
  let r := scan Number_toString sig
             (Page.analysis URL_parse URL_resolve String_toLowerCase url parsedUrl
                document) in
  In "Password Form" (map factor (result_riskFactors r))
  /\ In "Action Mismatch" (map factor (result_riskFactors r))
  /\ (decimal 45 2 <=? result_score r)%js = true
  /\ riskLevel r <> LOW.
Proof.
  intros r. subst r.
  set (page := Page.analysis URL_parse URL_resolve String_toLowerCase url parsedUrl
                 document).
  assert (F1 : rule_fires sig page PasswordForm = true).
  { cbn [rule_fires rule_condition page Page.analysis hasPasswordForm].
    apply hasActionMismatch_hasPasswordForm, Hmismatch. }
  assert (F2 : rule_fires sig page ActionMismatch = true).
  { cbn [rule_fires rule_condition page Page.analysis hasActionMismatch].
    exact Hmismatch. }
  split; [|split; [|split]].
  - unfold_scan. rewrite rules_applied_riskFactors, map_map.
    apply in_map_iff. exists PasswordForm. split; [reflexivity|].
    apply filter_In. split; [cbn; tauto|exact F1].
  - unfold_scan. rewrite rules_applied_riskFactors, map_map.
    apply in_map_iff. exists ActionMismatch. split; [reflexivity|].
    apply filter_In. split; [cbn; tauto|exact F2].
  - rewrite scan_score_decimal.
    change (decimal 45 2)
      with (decimal (Z.min (weight_sum [PasswordForm; ActionMismatch]) 100) 2).
    apply capped_decimal_monotone.
    change [PasswordForm; ActionMismatch]
      with (filter (holds_in [PasswordForm; ActionMismatch]) rule_set).
    apply weight_sum_filter_le.
    intros x Hx. destruct x; try discriminate Hx; assumption.
  - rewrite scan_riskLevel_accumulate.
    pose proof check_mismatch_level_all as C. rewrite forallb_forall in C.
    specialize (C _ (fired_rules_in_sublists sig page)).
    unfold check_mismatch_level in C. unfold fired_rules in C at 1 2.
    rewrite !holds_in_filter, F1, F2 in C. cbn [andb negb orb] in C.
    intros E. rewrite E in C. discriminate C.
Qed.

End PageFacts.

(** X11. The suspicious keywords found are keywords of the fixed list of
    eighteen, each at most once and in the order of that list: a keyword
    is found exactly when the lower-cased text of the page contains it.
    The keywords overlap: a text in which [social security] is found also
    yields [security], so that the one phrase counts as two keywords. *)
Theorem foundSuspiciousKeywords_of_the_list
    (String_toLowerCase : string -> string) (document : Page.Document)
    (Hlower : forall k, In k Page.suspiciousKeywords -> String_toLowerCase k = k) :
  let found := Page.foundSuspiciousKeywords String_toLowerCase document in
  let pageText := String_toLowerCase (Page.bodyText document) in
  (forall k, In k found <->
             In k Page.suspiciousKeywords /\ includes pageText k = true)
  /\ NoDup found
  /\ (List.length found <= 18)%nat
  /\ (In "social security" found -> In "security" found)
  /\ (includes pageText "social security" = true -> (2 <= List.length found)%nat).
Proof.
  intros found pageText.
  assert (A : forall k, In k found <->
                In k Page.suspiciousKeywords /\ includes pageText k = true).
  { intros k. subst found. unfold Page.foundSuspiciousKeywords. rewrite filter_In.
    fold pageText. unfold Page.pageText. fold pageText.
    split; intros [Hk Hi]; (split; [exact Hk|]); rewrite (Hlower k Hk) in *; exact Hi. }
  assert (N : NoDup found).
  { subst found. unfold Page.foundSuspiciousKeywords. apply NoDup_filter.
    unfold Page.suspiciousKeywords.
    repeat (constructor; [cbn; intuition discriminate|]). constructor. }
  assert (S1 : In "social security" found -> In "security" found).
  { intros H. apply A in H. destruct H as [_ H]. apply A. split.
    - cbn. tauto.
    - apply (includes_suffix_of_search pageText "social " "security"). exact H. }
  split; [exact A|]. split; [exact N|]. split; [|split; [exact S1|]].
  - subst found. unfold Page.foundSuspiciousKeywords.
    etransitivity; [apply filter_length_le|]. cbn. lia.
  - intros H.
    assert (H1 : In "social security" found) by (apply A; split; [cbn; tauto|exact H]).
    pose proof (S1 H1) as H2.
    assert (I : incl ["social security"; "security"] found).
    { intros x [<-|[<-|[]]]; assumption. }
    apply NoDup_incl_length in I.
    + exact I.
    + repeat constructor; cbn; intuition discriminate.
Qed.


Lemma foundSuspiciousKeywords_of_the_list_witness :
  (2 <= List.length (Page.foundSuspiciousKeywords toLowerCase login_document))%nat.
Proof.
  refine (proj2 (proj2 (proj2 (proj2
            (foundSuspiciousKeywords_of_the_list toLowerCase login_document _)))) _).
  - intros k H. simpl in H.
    repeat (destruct H as [<-|H]; [reflexivity|]). destruct H.
  - vm_compute. reflexivity.
Defined.

Lemma get_form_flagged_on_password_page_witness :
  In Page.uses_GET (Page.suspiciousFormPatterns toLowerCase login_document).
Proof.
  refine (proj1 (get_form_flagged_on_password_page URL_parse_simple
                   URL_resolve_simple toLowerCase shop_url shop_parsedUrl
                   login_document search_form _ _ _)).
  - discriminate.
  - simpl. right. left. reflexivity.
  - reflexivity.
Defined.

Lemma action_mismatch_is_never_low_witness :
  riskLevel
    (scan Number_toString_integral no_signals
       (Page.analysis URL_parse_simple URL_resolve_simple toLowerCase shop_url
          shop_parsedUrl login_document))
  <> LOW.
Proof.
  refine (proj2 (proj2 (proj2
            (action_mismatch_is_never_low URL_parse_simple URL_resolve_simple
               toLowerCase shop_url shop_parsedUrl Number_toString_integral
               no_signals login_document _)))).
  vm_compute. reflexivity.
Defined.

(** ** Exact integer arithmetic in binary64 *)

Lemma shr_1_exact (m : Z) :
  (0 <= m)%Z -> Z.even m = true ->
  shr_1 {| shr_m := m; shr_r := false; shr_s := false |}
  = {| shr_m := m / 2; shr_r := false; shr_s := false |}.
Proof.
  intros H0 He. destruct m as [|p|p]; [reflexivity| |lia].
  destruct p as [p|p|]; try discriminate He.
  cbn [shr_1 orb]. f_equal. rewrite Pos2Z.inj_xO, Z.mul_comm, Z.div_mul by lia.
  reflexivity.
Qed.

Lemma iter_shr_1_exact (n : nat) (m k : Z) :
  (0 <= k)%Z -> m = (k * 2 ^ Z.of_nat n)%Z ->
  Nat.iter n shr_1 {| shr_m := m; shr_r := false; shr_s := false |}
  = {| shr_m := k; shr_r := false; shr_s := false |}.
Proof.
  revert m k. induction n as [|n IH]; intros m k Hk Hm.
  - simpl Nat.iter. rewrite Hm. cbn. now rewrite Z.mul_1_r.
  - simpl Nat.iter. rewrite (IH m (2 * k)%Z); [|lia|].
    + rewrite shr_1_exact; [|lia|].
      * f_equal. rewrite Z.mul_comm, Z.div_mul by lia. reflexivity.
      * rewrite Z.even_mul. reflexivity.
    + rewrite Hm, Nat2Z.inj_succ, Z.pow_succ_r by lia. lia.
Qed.

(** A mantissa that is a 53-bit mantissa shifted to the left is shifted
    back without rounding. *)
Lemma binary_round_aux_shift_exact (s : bool) (p m : positive) (e e' : Z) :
  (e <= e')%Z -> (-1074 <= e' <= 971)%Z ->
  Zdigits2 (Z.pos m) = 53%Z ->
  Z.pos p = (Z.pos m * 2 ^ (e' - e))%Z ->
  binary_round_aux prec emax s (Z.pos p) e loc_Exact = S754_finite s m e'.
Proof.
  intros Hle He' Hd Hp.
  destruct (Z.eq_dec e e') as [->|Hne].
  { rewrite Z.sub_diag, Z.mul_1_r in Hp. injection Hp as ->.
    now apply binary_round_aux_exact. }
  assert (Dp : Zdigits2 (Z.pos p) = (53 + (e' - e))%Z).
  { rewrite Hp, Zdigits2_mul_pow2 by lia. lia. }
  unfold binary_round_aux, shr_fexp. rewrite Dp.
  assert (HF : fexp prec emax (53 + (e' - e) + e) = e')
    by (unfold fexp, emin, prec, emax; lia).
  rewrite HF. unfold shr.
  destruct (e' - e)%Z as [|k|k] eqn:Ek; try lia.
  rewrite iter_pos_nat. cbn [shr_record_of_loc].
  rewrite (iter_shr_1_exact (Pos.to_nat k) (Z.pos p) (Z.pos m));
    [|lia|now rewrite positive_nat_Z].
  cbn [loc_of_shr_record shr_m shr_r shr_s round_nearest_even].
  unfold shr_fexp. rewrite Hd.
  assert (HF' : fexp prec emax (53 + (e + Z.pos k)) = (e + Z.pos k)%Z)
    by (unfold fexp, emin, prec, emax; lia).
  rewrite HF', Z.sub_diag. cbn [shr shr_record_of_loc shr_m].
  replace (e + Z.pos k <=? emax - prec)%Z with true.
  - f_equal. lia.
  - symmetry. apply Z.leb_le. change (emax - prec)%Z with 971%Z. lia.
Qed.

(** The number that denotes a positive integer below [2^53]: its
    mantissa is the integer shifted to 53 bits. *)
Lemma binary_round_integer (s : bool) (p n : positive) (e : Z) :
  (e <= 0)%Z -> (Z.pos n < 2 ^ 53)%Z -> Z.pos p = (Z.pos n * 2 ^ (- e))%Z ->
  exists m,
    binary_round prec emax s p e = S754_finite s m (Zdigits2 (Z.pos n) - 53)
    /\ Z.pos m = (Z.pos n * 2 ^ (53 - Zdigits2 (Z.pos n)))%Z.
Proof.
  intros He Hn Hp.
  assert (Hd : (1 <= Zdigits2 (Z.pos n) <= 53)%Z).
  { split; [simpl; lia|]. apply Zdigits2_lt_pow; lia. }
  set (D := Zdigits2 (Z.pos n)) in *.
  assert (Dp : Zdigits2 (Z.pos p) = (D - e)%Z).
  { rewrite Hp, Zdigits2_mul_pow2 by lia. subst D. lia. }
  assert (Hm : exists m, Z.pos m = (Z.pos n * 2 ^ (53 - D))%Z).
  { assert (0 < Z.pos n * 2 ^ (53 - D))%Z
      by (apply Z.mul_pos_pos; [lia|apply Z.pow_pos_nonneg; lia]).
    destruct (Z.pos n * 2 ^ (53 - D))%Z as [|m|m] eqn:E; try lia. now exists m. }
  destruct Hm as [m Hm]. exists m. split; [|exact Hm].
  assert (Dm : Zdigits2 (Z.pos m) = 53%Z).
  { rewrite Hm, Zdigits2_mul_pow2 by lia. subst D. lia. }
  unfold binary_round.
  pose proof (shl_align_spec p e (fexp prec emax (Z.pos (digits2_pos p) + e))) as Hs.
  destruct (shl_align p e (fexp prec emax (Z.pos (digits2_pos p) + e))) as [mz ez].
  destruct Hs as [Hez Hmz].
  change (Z.pos (digits2_pos p)) with (Zdigits2 (Z.pos p)) in Hez.
  rewrite Dp in Hez.
  assert (HF : fexp prec emax (D - e + e) = (D - 53)%Z)
    by (unfold fexp, emin, prec, emax; lia).
  rewrite HF in Hez.
  apply binary_round_aux_shift_exact; [lia|lia|exact Dm|].
  rewrite Hmz, Hp, Hm, <- !Z.mul_assoc, <- !Z.pow_add_r by lia.
  f_equal. f_equal. lia.
Qed.

Lemma binary_normalize_integer (v k e : Z) :
  (e <= 0)%Z -> (Z.abs k < 2 ^ 53)%Z -> v = (k * 2 ^ (- e))%Z ->
  binary_normalize prec emax v e false = of_Z k.
Proof.
  intros He Hk Hv.
  assert (Hpow : (0 < 2 ^ (- e))%Z) by (apply Z.pow_pos_nonneg; lia).
  unfold of_Z, binary_normalize.
  destruct k as [|n|n].
  - rewrite Hv. reflexivity.
  - destruct v as [|p|p]; try lia.
    destruct (binary_round_integer false p n e) as (m & E & Hm); [lia|lia|lia|].
    destruct (binary_round_integer false n n 0) as (m' & E' & Hm'); [lia|lia|cbn; lia|].
    rewrite E, E'. f_equal. lia.
  - destruct v as [|p|p]; try lia.
    destruct (binary_round_integer true p n e) as (m & E & Hm); [lia|lia|lia|].
    destruct (binary_round_integer true n n 0) as (m' & E' & Hm'); [lia|lia|cbn; lia|].
    rewrite E, E'. f_equal. lia.
Qed.

Lemma of_Z_canonical (a : Z) :
  a <> 0%Z -> (Z.abs a < 2 ^ 53)%Z ->
  exists m,
    of_Z a = S754_finite (a <? 0)%Z m (Zdigits2 (Z.abs a) - 53)
    /\ Z.pos m = (Z.abs a * 2 ^ (53 - Zdigits2 (Z.abs a)))%Z.
Proof.
  intros Ha Hb. unfold of_Z, binary_normalize. destruct a as [|n|n]; [congruence| |].
  - apply (binary_round_integer false n n 0); [lia|exact Hb|cbn; lia].
  - apply (binary_round_integer true n n 0); [lia|exact Hb|cbn; lia].
Qed.

Lemma of_Z_opp (a : Z) :
  a <> 0%Z -> (Z.abs a < 2 ^ 53)%Z ->
  forall s m e, of_Z a = S754_finite s m e -> of_Z (- a) = S754_finite (negb s) m e.
Proof.
  intros Ha Hb s m e E.
  destruct (of_Z_canonical a Ha Hb) as (m1 & E1 & H1).
  destruct (of_Z_canonical (- a)) as (m2 & E2 & H2); [lia|lia|].
  rewrite Z.abs_opp in *. rewrite E in E1. injection E1 as -> -> ->.
  rewrite E2. f_equal; [|lia].
  destruct (Z.ltb_spec (- a) 0), (Z.ltb_spec a 0); try reflexivity; lia.
Qed.

(** The shape of the number that denotes a non-zero integer. *)
Lemma of_Z_finite (a : Z) :
  a <> 0%Z -> (Z.abs a < 2 ^ 53)%Z ->
  exists m e,
    of_Z a = S754_finite (a <? 0)%Z m e
    /\ (-52 <= e <= 0)%Z
    /\ cond_Zopp (a <? 0)%Z (Z.pos m) = (a * 2 ^ (- e))%Z.
Proof.
  intros Ha Hb.
  destruct (of_Z_exact a Ha Hb) as (m & e & E & He & Hm & _).
  exists m, e. split; [exact E|]. split; [exact He|].
  destruct (a <? 0)%Z eqn:L; cbn [cond_Zopp].
  - apply Z.ltb_lt in L. rewrite Z.abs_neq in Hm by lia. lia.
  - apply Z.ltb_ge in L. rewrite Z.abs_eq in Hm by lia. lia.
Qed.

Lemma aligned_value (s : bool) (m : positive) (e ez a : Z) :
  (ez <= e)%Z -> (e <= 0)%Z ->
  cond_Zopp s (Z.pos m) = (a * 2 ^ (- e))%Z ->
  cond_Zopp s (Z.pos (fst (shl_align m e ez))) = (a * 2 ^ (- ez))%Z.
Proof.
  intros Hle He Hm.
  pose proof (shl_align_spec m e ez) as Hs.
  destruct (shl_align m e ez) as [mz ez']. destruct Hs as [Hez Hmz]. cbn [fst].
  assert (ez' = ez) by lia. subst ez'.
  replace (2 ^ (- ez))%Z with (2 ^ (- e) * 2 ^ (e - ez))%Z
    by (rewrite <- Z.pow_add_r by lia; f_equal; lia).
  rewrite Z.mul_assoc, <- Hm.
  destruct s; cbn [cond_Zopp]; rewrite Hmz, H; ring.
Qed.

(** Sums and differences of integers are exact as long as they stay
    below [2^53] in absolute value. *)
Lemma add_exact (a b : Z) :
  (Z.abs a < 2 ^ 53)%Z -> (Z.abs b < 2 ^ 53)%Z -> (Z.abs (a + b) < 2 ^ 53)%Z ->
  (of_Z a + of_Z b)%js = of_Z (a + b).
Proof.
  intros Ha Hb Hab.
  destruct (Z.eq_dec a 0) as [->|Na].
  { change (of_Z 0) with (S754_zero false). rewrite Z.add_0_l.
    destruct (Z.eq_dec b 0) as [->|Nb]; [reflexivity|].
    destruct (of_Z_finite b Nb Hb) as (m & e & E & _). rewrite E. reflexivity. }
  destruct (of_Z_finite a Na Ha) as (ma & ea & Ea & Hea & Hma).
  destruct (Z.eq_dec b 0) as [->|Nb].
  { change (of_Z 0) with (S754_zero false). rewrite Z.add_0_r, Ea. reflexivity. }
  destruct (of_Z_finite b Nb Hb) as (mb & eb & Eb & Heb & Hmb).
  rewrite Ea, Eb. unfold add, SFadd.
  apply binary_normalize_integer; [lia|exact Hab|].
  rewrite (aligned_value _ _ _ _ a) by (try exact Hma; lia).
  rewrite (aligned_value _ _ _ _ b) by (try exact Hmb; lia).
  lia.
Qed.

Lemma sub_exact (a b : Z) :
  (Z.abs a < 2 ^ 53)%Z -> (Z.abs b < 2 ^ 53)%Z -> (Z.abs (a - b) < 2 ^ 53)%Z ->
  (of_Z a - of_Z b)%js = of_Z (a - b).
Proof.
  intros Ha Hb Hab.
  destruct (Z.eq_dec b 0) as [->|Nb].
  { change (of_Z 0) with (S754_zero false). rewrite Z.sub_0_r.
    destruct (Z.eq_dec a 0) as [->|Na]; [reflexivity|].
    destruct (of_Z_finite a Na Ha) as (m & e & E & _). rewrite E. reflexivity. }
  destruct (of_Z_finite b Nb Hb) as (mb & eb & Eb & Heb & Hmb).
  destruct (Z.eq_dec a 0) as [->|Na].
  { change (of_Z 0) with (S754_zero false). rewrite Eb. unfold sub, SFsub.
    rewrite Z.sub_0_l. symmetry. now apply of_Z_opp. }
  destruct (of_Z_finite a Na Ha) as (ma & ea & Ea & Hea & Hma).
  rewrite Ea, Eb. unfold sub, SFsub.
  apply binary_normalize_integer; [lia|exact Hab|].
  rewrite (aligned_value _ _ _ _ a) by (try exact Hma; lia).
  rewrite (aligned_value _ _ _ _ b) by (try exact Hmb; lia).
  lia.
Qed.

Lemma mul_exact (a b : Z) :
  (0 <= a < 2 ^ 53)%Z -> (0 <= b < 2 ^ 53)%Z -> (a * b < 2 ^ 53)%Z ->
  (of_Z a * of_Z b)%js = of_Z (a * b).
Proof.
  intros [Ha Ba] [Hb Bb] Hab.
  destruct (Z.eq_dec a 0) as [->|Na].
  { change (of_Z 0) with (S754_zero false). rewrite Z.mul_0_l.
    change (of_Z 0) with (S754_zero false).
    destruct (Z.eq_dec b 0) as [->|Nb]; [reflexivity|].
    destruct (of_Z_canonical b) as (m & E & _); [lia|lia|].
    rewrite E. replace (b <? 0)%Z with false by (symmetry; apply Z.ltb_ge; lia).
    reflexivity. }
  destruct (Z.eq_dec b 0) as [->|Nb].
  { change (of_Z 0) with (S754_zero false). rewrite Z.mul_0_r.
    change (of_Z 0) with (S754_zero false).
    destruct (of_Z_canonical a) as (m & E & _); [lia|lia|].
    rewrite E. replace (a <? 0)%Z with false by (symmetry; apply Z.ltb_ge; lia).
    reflexivity. }
  destruct (of_Z_canonical a) as (ma & Ea & Hma); [lia|lia|].
  destruct (of_Z_canonical b) as (mb & Eb & Hmb); [lia|lia|].
  destruct (of_Z_canonical (a * b)) as (m & E & Hm); [nia|rewrite Z.abs_eq; nia|].
  rewrite Z.abs_eq in * by nia.
  replace (a <? 0)%Z with false in Ea by (symmetry; apply Z.ltb_ge; lia).
  replace (b <? 0)%Z with false in Eb by (symmetry; apply Z.ltb_ge; lia).
  replace (a * b <? 0)%Z with false in E by (symmetry; apply Z.ltb_ge; nia).
  rewrite Ea, Eb, E. unfold mul, SFmul. cbn [xorb].
  set (Da := Zdigits2 a) in *. set (Db := Zdigits2 b) in *.
  set (D := Zdigits2 (a * b)) in *.
  assert (Ra : (1 <= Da <= 53)%Z).
  { subst Da. split; [rewrite Zdigits2_log2 by lia; pose proof (Z.log2_nonneg a); lia|].
    apply Zdigits2_lt_pow; lia. }
  assert (Rb : (1 <= Db <= 53)%Z).
  { subst Db. split; [rewrite Zdigits2_log2 by lia; pose proof (Z.log2_nonneg b); lia|].
    apply Zdigits2_lt_pow; lia. }
  assert (R : (Da <= D <= 53)%Z).
  { subst Da D. split; [apply Zdigits2_mono; nia|apply Zdigits2_lt_pow; nia]. }
  apply binary_round_aux_shift_exact; [lia|lia| |].
  - rewrite Hm, Zdigits2_mul_pow2 by (try nia; lia). fold D. lia.
  - rewrite Pos2Z.inj_mul, Hma, Hmb, Hm.
    assert (HP : (2 ^ (53 - D) * 2 ^ (D - 53 - (Da - 53 + (Db - 53)))
                  = 2 ^ (53 - Da) * 2 ^ (53 - Db))%Z).
    { rewrite <- !Z.pow_add_r by lia. f_equal. lia. }
    transitivity (a * b * (2 ^ (53 - Da) * 2 ^ (53 - Db)))%Z; [ring|].
    rewrite <- HP. ring.
Qed.

(** ** The reported duration *)

Lemma of_Z_zero_iff (k : Z) : (Z.abs k < 2 ^ 53)%Z -> (of_Z k = of_Z 0 <-> k = 0%Z).
Proof.
  intros H. split; [|intros ->; reflexivity].
  intros E. destruct (Z.eq_dec k 0) as [|N]; [assumption|].
  destruct (of_Z_canonical k N H) as (m & Em & _). rewrite Em in E. discriminate E.
Qed.

Lemma zero_ltb_of_Z (k : Z) :
  (Z.abs k < 2 ^ 53)%Z -> (of_Z 0 <? of_Z k)%js = (0 <? k)%Z.
Proof.
  intros H. destruct (Z.eq_dec k 0) as [->|N]; [reflexivity|].
  destruct (of_Z_canonical k N H) as (m & Em & _). rewrite Em.
  change (of_Z 0) with (S754_zero false). unfold ltb, SFltb, SFcompare.
  destruct (Z.ltb_spec k 0), (Z.ltb_spec 0 k); try reflexivity; lia.
Qed.

(** X14. The duration that [scan] reports is the first of two readings
    of the clock minus the second: as long as the clock (a time after
    1970 within the range of dates) does not run backwards between the
    two it is never positive; it is zero when the two readings are equal
    and negative otherwise. *)
Theorem scanDuration_never_positive (first second : Z)
    (Hfirst : (0 <= first)%Z)
    (Hclock : (first <= second)%Z)
    (Hsecond : (second <= maxTimeValue)%Z) :
  scanDuration first second = of_Z (first - second)
  /\ (of_Z 0 <? scanDuration first second)%js = false
  /\ (scanDuration first second = of_Z 0 <-> first = second)
  /\ (first < second -> (scanDuration first second <? of_Z 0)%js = true)%Z.
Proof.
  unfold maxTimeValue in *.
  assert (B : (Z.abs (first - second) < 2 ^ 53)%Z) by (change (2 ^ 53)%Z with 9007199254740992%Z; lia).
  assert (E : scanDuration first second = of_Z (first - second)).
  { unfold scanDuration. apply sub_exact; change (2 ^ 53)%Z with 9007199254740992%Z; lia. }
  rewrite E. split; [reflexivity|]. split; [|split].
  - rewrite zero_ltb_of_Z by exact B. apply Z.ltb_ge. lia.
  - rewrite of_Z_zero_iff by exact B. lia.
  - intros L. destruct (of_Z_canonical (first - second)) as (m & Em & _); [lia|exact B|].
    rewrite Em. replace (first - second <? 0)%Z with true by (symmetry; apply Z.ltb_lt; lia).
    reflexivity.
Qed.

Lemma scanDuration_never_positive_witness :
  (of_Z 0 <? scanDuration new_year_2024 (new_year_2024 + 1))%js = false.
Proof.
  refine (proj1 (proj2 (scanDuration_never_positive new_year_2024
                          (new_year_2024 + 1) _ _ _))).
  - vm_compute. discriminate.
  - vm_compute. discriminate.
  - vm_compute. discriminate.
Defined.

(** ** The report *)

(** X15. The class that colours an age in the report follows the
    thresholds of the scoring: the domain age is shown as suspicious
    exactly when the New Domain rule fires, and as a warning exactly when
    it is unknown or the Recent Domain rule fires; the certificate age is
    shown as suspicious exactly when the New Certificate rule fires.  An
    age that is not a number, which a date that does not parse yields,
    is shown as safe. *)
Theorem getAgeClass_follows_the_scoring
    (Number_toString : number -> string) (sig : Signals) (page : PageAnalysis) :
  let r := scan Number_toString sig page in
  (Report.getAgeClass (domainAgeDays r) = "suspicious"
   <-> rule_fires sig page NewDomain = true)
  /\ (Report.getAgeClass (domainAgeDays r) = "warning"
      <-> domainAge sig = None \/ rule_fires sig page RecentDomain = true)
  /\ (Report.getAgeClass (tlsAgeDays r) = "suspicious"
      <-> rule_fires sig page NewCertificate = true)
  /\ (Report.getAgeClass (tlsAgeDays r) = "warning"
      -> rule_fires sig page NewCertificate = false)
  /\ Report.getAgeClass (Some NaN) = "safe".
Proof.
  intros r. subst r. unfold scan. cbn [domainAgeDays tlsAgeDays].
  unfold Report.getAgeClass. cbn [rule_fires rule_condition].
  destruct (domainAge sig) as [d|]; destruct (tlsAge sig) as [c|];
    try set (d7 := (d <? of_Z 7)%js); try set (d30 := (d <? of_Z 30)%js);
    try set (c7 := (c <? of_Z 7)%js); try set (c30 := (c <? of_Z 30)%js);
    try destruct d7; try destruct d30; try destruct c7; try destruct c30;
    cbn [negb andb];
    repeat split; try discriminate; try reflexivity; try tauto;
    try (intros [H|H]; discriminate H); auto.
Qed.

Lemma append_length (a b : string) :
  String.length (a ++ b) = (String.length a + String.length b)%nat.
Proof. induction a as [|c a IH]; cbn; [reflexivity|now rewrite IH]. Qed.

Lemma days_not_unknown (s : string) :
  s ++ " days" <> "Unknown" /\ s ++ " days ago" <> "Unknown".
Proof.
  split; intros H.
  - assert (L : String.length s = 2%nat).
    { apply (f_equal String.length) in H. rewrite append_length in H. cbn in H. lia. }
    destruct s as [|c0 [|c1 [|c2 s]]]; try discriminate L. discriminate H.
  - apply (f_equal String.length) in H. rewrite append_length in H. cbn in H. lia.
Qed.

Lemma age_in_days_same (a : Z) :
  (Z.abs a <= maxTimeValue)%Z -> age_in_days (TimeValue a) (TimeValue a) = of_Z 0.
Proof.
  intros H. unfold age_in_days, Date_valueOf.
  replace (Z.abs a <=? maxTimeValue)%Z with true by (symmetry; now apply Z.leb_le).
  unfold maxTimeValue in H.
  rewrite sub_exact by (change (2 ^ 53)%Z with 9007199254740992%Z; lia).
  rewrite Z.sub_diag. vm_compute. reflexivity.
Qed.

Lemma positive_integer_truthy (x : number) (n : Z) :
  to_Z x = Some n -> (1 <= n)%Z -> number_truthy (Some x) = true.
Proof.
  intros H Hn. destruct x as [s|s| |s m e]; cbn in *; try reflexivity;
    try discriminate H. injection H as <-. lia.
Qed.

(** X16. The domain card prints an age through a truthiness test: the
    text is [Unknown] exactly when the age is [null], not a number or
    zero.  For an age that a provider computed from a date, it is
    [Unknown] when the date does not parse and when the date is the very
    moment of the scan, and the number of days otherwise; an age of zero
    is printed as unknown although it is coloured as suspicious, and an
    age that is not a number although it is coloured as safe. *)
Theorem age_or_unknown_hides_zero
    (Number_toString : number -> string) (age : nullable) :
  (Report.age_or_unknown Number_toString age " days" = "Unknown"
   <-> number_truthy age = false)
  /\ (Report.age_or_unknown Number_toString age " days ago" = "Unknown"
      <-> number_truthy age = false)
  /\ (number_truthy age = false
      <-> age = None \/ age = Some NaN \/ exists s, age = Some (S754_zero s))
  /\ (forall now date,
        (Z.abs now <= maxTimeValue)%Z -> (Z.abs date <= maxTimeValue)%Z ->
        (Report.age_or_unknown Number_toString
           (Some (age_in_days (TimeValue now) (TimeValue date))) " days" = "Unknown"
         <-> date = now))
  /\ (forall now,
        Report.age_or_unknown Number_toString
          (Some (age_in_days (TimeValue now) InvalidDate)) " days" = "Unknown")
  /\ Report.getAgeClass (Some (of_Z 0)) = "suspicious"
  /\ Report.getAgeClass (Some NaN) = "safe".
Proof.
  assert (U : forall (a : nullable) (unit : string),
            unit = " days" \/ unit = " days ago" ->
            (Report.age_or_unknown Number_toString a unit = "Unknown"
             <-> number_truthy a = false)).
  { intros a unit Hu. unfold Report.age_or_unknown.
    destruct (days_not_unknown (show Number_toString a)) as [D1 D2].
    destruct (number_truthy a); destruct Hu as [-> | ->]; split; congruence. }
  split; [apply U; auto|]. split; [apply U; auto|].
  split; [|split; [|split; [|split]]].
  - destruct age as [[s|s| |s m e]|]; cbn; split; try discriminate; eauto;
      intros [H|[H|[s' H]]]; discriminate H.
  - intros now date Hnow Hdate. rewrite U by auto. split.
    + intros H. destruct (Z.eq_dec date now) as [|N]; [assumption|].
      destruct (age_in_days_positive now date Hnow Hdate) as (n & Hn & Hz); [congruence|].
      rewrite (positive_integer_truthy _ _ Hz Hn) in H. discriminate H.
    + intros ->. now rewrite age_in_days_same.
  - intros now. rewrite U by auto. now rewrite age_in_days_invalid.
  - reflexivity.
  - reflexivity.
Qed.

Lemma check_percentage_all : forallb check_percentage (Z_range 0 101) = true.
Proof. vm_compute. reflexivity. Qed.

Lemma Z_range_In (lo : Z) (n : nat) (x : Z) :
  (lo <= x < lo + Z.of_nat n)%Z -> In x (Z_range lo n).
Proof.
  intros H. unfold Z_range. apply in_map_iff. exists (Z.to_nat (x - lo)).
  split; [lia|]. apply in_seq. lia.
Qed.

Lemma percentage_of_decimal (k : Z) :
  (0 <= k <= 100)%Z -> Math_round (decimal k 2 * of_Z 100)%js = of_Z k.
Proof.
  intros H. pose proof check_percentage_all as C. rewrite forallb_forall in C.
  specialize (C k (Z_range_In 0 101 k ltac:(lia))).
  apply identical_eq. exact C.
Qed.

(** X17. The percentage in the score circle of the report is exact: for
    the object that [scan] returns it is the sum of the weights of the
    fired rules in hundredths, capped at 100, a whole number between 0
    and 100; the same holds for the object of the server's inline scan
    with its five rules. *)
Theorem scorePercentage_is_the_capped_weight_sum
    (Number_toString : number -> string) (sig : Signals) (page : PageAnalysis)
    (url scannedAt : string) (content : Report.Content) (forms : Report.Forms)
    (links : Report.Links) (iframes : Report.Iframes)
    (technical : Report.Technical) :
  let scanned :=
    scan_object url (scan Number_toString sig page) content forms links iframes
      technical scannedAt in
  let served := server_object url (server_scan Number_toString sig page) in
  Report.scorePercentage scanned
  = of_Z (Z.min (weight_sum (fired_rules sig page)) 100)
  /\ Report.scorePercentage served
     = of_Z (Z.min (weight_sum (server_fired_rules sig page)) 100)
  /\ (0 <= Z.min (weight_sum (fired_rules sig page)) 100 <= 100)%Z.
Proof.
  intros scanned served. subst scanned served.
  unfold Report.scorePercentage, scan_object, server_object. cbn [Report.score].
  destruct (server_scan_score_decimal Number_toString sig page) as (Hs & _ & _).
  rewrite Hs, scan_score_decimal.
  pose proof (weight_sum_nonneg (fired_rules sig page)).
  pose proof (weight_sum_nonneg (server_fired_rules sig page)).
  split; [|split]; try (apply percentage_of_decimal); lia.
Qed.

(** ** Templates *)






Section ReportFacts.

Variable Number_toString : number -> string.
Variable parseInt16 : string -> number.
Variable Number_toString16 : number -> string.
Variable JSON_stringify_strings : list string -> string.
Variable JSON_stringify_numbers : list number -> string.
Variable Date_toLocaleString : option string -> string.

Let generateHTML :=
  Report.generateHTML Number_toString parseInt16 Number_toString16
    JSON_stringify_strings JSON_stringify_numbers Date_toLocaleString.
Let generateReport :=
  Report.generateReport Number_toString parseInt16 Number_toString16
    JSON_stringify_strings JSON_stringify_numbers Date_toLocaleString.

Lemma generateHTML_without_technical (scanResult : Report.ScanObject)
    (reportId : string) :
  Report.technical scanResult = None ->
  generateHTML scanResult reportId
  = Thrown (TypeError "Cannot read properties of undefined (reading 'domain')").
Proof.
  intros H. unfold generateHTML, Report.generateHTML. rewrite H. reflexivity.
Qed.

Lemma generateReport_without_technical (scanResult : Report.ScanObject)
    (reportId : string) :
  Report.technical scanResult = None ->
  generateReport reportId scanResult
  = (Thrown (TypeError "Cannot read properties of undefined (reading 'domain')"),
     []).
Proof.
  intros H. unfold generateReport, Report.generateReport. fold generateHTML.
  rewrite (generateHTML_without_technical scanResult reportId H). reflexivity.
Qed.

(** X18. The report cannot be generated for an object that has no
    [technical] property, whatever else it holds: the first substitution
    of the page template reads [technical.domain] and throws a
    [TypeError], so that [generateHTML] throws and [generateReport]
    throws before it writes a file.  The object that the inline scan of
    the server returns is such an object. *)
Theorem generateReport_needs_technical
    (scanResult : Report.ScanObject) (reportId : string)
    (Htechnical : Report.technical scanResult = None) :
  generateHTML scanResult reportId
  = Thrown (TypeError "Cannot read properties of undefined (reading 'domain')")
  /\ generateReport reportId scanResult
     = (Thrown (TypeError "Cannot read properties of undefined (reading 'domain')"),
        [])
  /\ (forall url r, Report.technical (server_object url r) = None).
Proof.
  split; [|split].
  - now apply generateHTML_without_technical.
  - now apply generateReport_without_technical.
  - reflexivity.
Qed.

(** X19. The [/scan] endpoint never answers with a scan result.  It
    answers 400 when the [url] parameter is missing, empty or not a URL,
    and 500 in every other case: when the inline scan fails, and also
    when it succeeds, because the report generator then throws on the
    inline scan's result, which lacks the [technical] property; the
    message of the response is that of the [TypeError].  No report file
    is ever written. *)
Theorem scan_endpoint_never_succeeds
    (URL_parse : string -> option URL) (url : option string)
    (browsed : Awaited (Signals * PageAnalysis)) (reportId : string) :
  let outcome :=
    scan_endpoint URL_parse Number_toString parseInt16 Number_toString16
      JSON_stringify_strings JSON_stringify_numbers Date_toLocaleString
      url browsed reportId in
  (status (fst outcome) = 400%nat \/ status (fst outcome) = 500%nat)
  /\ snd outcome = []
  /\ (status (fst outcome) = 400%nat
      <-> truthy url = false \/ exists u, url = Some u /\ URL_parse u = None)
  /\ (forall u parsed sig page,
        url = Some u -> u <> EmptyString -> URL_parse u = Some parsed ->
        browsed = Resolves (sig, page) ->
        fst outcome
        = {| status := 500;
             body := ErrorBody
                       [("error", "Scan failed");
                        ("message",
                         "Cannot read properties of undefined (reading 'domain')")] |}).
Proof.
  intros outcome. subst outcome. unfold scan_endpoint.
  fold generateReport.
  destruct (truthy url) eqn:T; cbn [negb].
  - destruct url as [u|]; [|discriminate T].
    destruct (URL_parse u) as [parsed|] eqn:P.
    + destruct browsed as [[sig page]|e].
      * rewrite generateReport_without_technical by reflexivity.
        cbn [fst snd status]. repeat split; auto.
        -- intros H. discriminate H.
        -- intros [H|(u' & Hu & H)]; [discriminate H|]. congruence.
      * cbn [fst snd status]. repeat split; auto.
        -- intros H. discriminate H.
        -- intros [H|(u' & Hu & H)]; [discriminate H|]. congruence.
        -- intros u' parsed' sig page _ _ _ H. discriminate H.
    + cbn [fst snd status]. repeat split; auto.
      * intros _. right. eauto.
      * intros u' parsed' sig page Hu _ H. congruence.
  - cbn [fst snd status]. repeat split; auto.
    intros u parsed sig page -> Hu _ _. cbn in T.
    destruct (String.eqb u "") eqn:E; [|discriminate T].
    apply String.eqb_eq in E. congruence.
Qed.





End ReportFacts.

(** ** The colours of the report *)

Lemma truncate_of_Z (n : Z) : (0 <= n < 2 ^ 53)%Z -> truncate (of_Z n) = n.
Proof.
  intros [H0 H1]. destruct (Z.eq_dec n 0) as [->|N]; [reflexivity|].
  destruct (of_Z_exact n N) as (m & e & E & He & Hm & _); [lia|].
  rewrite E. replace (n <? 0)%Z with false by (symmetry; apply Z.ltb_ge; lia).
  unfold truncate, signed. rewrite Z.abs_eq in Hm by lia.
  destruct (0 <=? e)%Z eqn:L.
  - apply Z.leb_le in L. assert (e = 0)%Z by lia. subst e.
    rewrite Hm. cbn. lia.
  - rewrite Hm. apply Z.quot_mul. apply Z.pow_nonzero; lia.
Qed.

Lemma ToInt32_of_Z (n : Z) : (0 <= n < 2 ^ 31)%Z -> ToInt32 (of_Z n) = n.
Proof.
  intros H. unfold ToInt32. rewrite truncate_of_Z.
  - rewrite Z.mod_small.
    + replace (n <? 2 ^ 31)%Z with true; [reflexivity|].
      symmetry. apply Z.ltb_lt. lia.
    + change (2 ^ 32)%Z with (2 * 2 ^ 31)%Z. lia.
  - change (2 ^ 53)%Z with (2 ^ 22 * 2 ^ 31)%Z. lia.
Qed.

Lemma check_clamp_all : forallb check_clamp (Z_range (-255) 766) = true.
Proof. vm_compute. reflexivity. Qed.

Lemma check_amount_all : forallb check_amount (Z_range (-100) 201) = true.
Proof. vm_compute. reflexivity. Qed.

Lemma clamp_channel_of_Z (x : Z) :
  (-255 <= x <= 510)%Z -> clamp_channel (of_Z x) = of_Z (Z.max 0 (Z.min 255 x)).
Proof.
  intros H. pose proof check_clamp_all as C. rewrite forallb_forall in C.
  apply identical_eq, C, Z_range_In. lia.
Qed.

Lemma darken_amount_spec (percent : Z) :
  (-100 <= percent <= 100)%Z ->
  Math_round (decimal 255 2 * of_Z percent)%js = of_Z (darken_amount percent)
  /\ (255 * percent - 50 <= 100 * darken_amount percent <= 255 * percent + 50)%Z.
Proof.
  intros H. pose proof check_amount_all as C. rewrite forallb_forall in C.
  specialize (C percent (Z_range_In (-100) 201 percent ltac:(lia))).
  unfold check_amount in C.
  apply andb_prop in C. destruct C as [C C2].
  apply andb_prop in C. destruct C as [C C1].
  apply identical_eq in C. apply Z.leb_le in C1, C2. auto.
Qed.

Lemma darkenColor_unfold (parseInt16 : string -> number)
    (Number_toString16 : number -> string) (color : string) (percent : number) :
  Report.darkenColor parseInt16 Number_toString16 color percent
  = let num := parseInt16 color in
    let amt := Math_round (decimal 255 2 * percent)%js in
    String_slice 1
      (Number_toString16
         (((of_Z 16777216
            + clamp_channel (shift_right num 16 - amt) * of_Z 65536)
           + clamp_channel (bit_and (shift_right num 8) (of_Z 255) - amt) * of_Z 256)
          + clamp_channel (bit_and num (of_Z 255) - amt))%js).
Proof. reflexivity. Qed.

(** X21. [darkenColor] moves the three channels of a colour by the same
    amount and clamps each of them to [0..255], so that no channel
    borrows from or carries into its neighbour.  For a colour of
    channels [r], [g], [b] and a whole percentage between -100 and 100
    the result is the hexadecimal form, without its leading digit, of
    [0x1000000 + 0x10000 r' + 0x100 g' + b'], where each [x'] is
    [x - amt] clamped to [0..255] and [amt] is [Math.round(2.55 * percent)],
    within half a unit of 2.55 times the percentage. *)
Theorem darkenColor_clamps_each_channel
    (parseInt16 : string -> number) (Number_toString16 : number -> string)
    (color : string) (r g b percent : Z)
    (Hr : (0 <= r <= 255)%Z) (Hg : (0 <= g <= 255)%Z) (Hb : (0 <= b <= 255)%Z)
    (Hcolor : parseInt16 color = of_Z (65536 * r + 256 * g + b))
    (Hpercent : (-100 <= percent <= 100)%Z) :
  let amt := darken_amount percent in
  let channel (x : Z) := Z.max 0 (Z.min 255 (x - amt)) in
  Report.darkenColor parseInt16 Number_toString16 color (of_Z percent)
  = String_slice 1
      (Number_toString16
         (of_Z (16777216 + 65536 * channel r + 256 * channel g + channel b)))
  /\ Math_round (decimal 255 2 * of_Z percent)%js = of_Z amt
  /\ (255 * percent - 50 <= 100 * amt <= 255 * percent + 50)%Z
  /\ (16777216 <= 16777216 + 65536 * channel r + 256 * channel g + channel b
      < 2 * 16777216)%Z.
Proof.
  intros amt channel.
  destruct (darken_amount_spec percent Hpercent) as [Ha Hb'].
  fold amt in Ha, Hb'.
  assert (Hamt : (-255 <= amt <= 255)%Z) by lia.
  assert (Hc : forall x, (0 <= x <= 255)%Z -> (0 <= channel x <= 255)%Z)
    by (intros x Hx; subst channel; cbv beta; lia).
  pose proof (Hc r Hr). pose proof (Hc g Hg). pose proof (Hc b Hb).
  split; [|split; [exact Ha|split; [exact Hb'|lia]]].
  rewrite darkenColor_unfold. cbv zeta. rewrite Hcolor, Ha.
  set (n := (65536 * r + 256 * g + b)%Z).
  assert (Hn : (0 <= n < 2 ^ 24)%Z) by (change (2 ^ 24)%Z with 16777216%Z; lia).
  assert (S16 : shift_right (of_Z n) 16 = of_Z r).
  { unfold shift_right. rewrite ToInt32_of_Z by (change (2 ^ 31)%Z with (2 ^ 24 * 128)%Z; lia).
    f_equal. rewrite Z.shiftr_div_pow2 by lia. change (2 ^ 16)%Z with 65536%Z.
    symmetry. apply (Z.div_unique n 65536 r (256 * g + b)); lia. }
  assert (S8 : shift_right (of_Z n) 8 = of_Z (256 * r + g)).
  { unfold shift_right. rewrite ToInt32_of_Z by (change (2 ^ 31)%Z with (2 ^ 24 * 128)%Z; lia).
    f_equal. rewrite Z.shiftr_div_pow2 by lia. change (2 ^ 8)%Z with 256%Z.
    symmetry. apply (Z.div_unique n 256 (256 * r + g) b); lia. }
  assert (A8 : bit_and (of_Z (256 * r + g)) (of_Z 255) = of_Z g).
  { unfold bit_and. rewrite !ToInt32_of_Z by (change (2 ^ 31)%Z with 2147483648%Z; lia).
    f_equal. change 255%Z with (Z.ones 8). rewrite Z.land_ones by lia.
    change (2 ^ 8)%Z with 256%Z.
    symmetry. apply (Z.mod_unique (256 * r + g) 256 r g); lia. }
  assert (A0 : bit_and (of_Z n) (of_Z 255) = of_Z b).
  { unfold bit_and. rewrite !ToInt32_of_Z by (change (2 ^ 31)%Z with 2147483648%Z; lia).
    f_equal. change 255%Z with (Z.ones 8). rewrite Z.land_ones by lia.
    change (2 ^ 8)%Z with 256%Z.
    symmetry. apply (Z.mod_unique n 256 (256 * r + g) b); lia. }
  rewrite S16, S8, A8, A0.
  assert (P53 : (2 ^ 53 = 9007199254740992)%Z) by reflexivity.
  rewrite !sub_exact by (rewrite P53; lia).
  rewrite !clamp_channel_of_Z by lia.
  fold (channel r) (channel g) (channel b).
  rewrite !mul_exact by (rewrite P53; lia).
  rewrite !add_exact by (rewrite P53; lia).
  do 2 f_equal. f_equal. lia.
Qed.

Lemma darkenColor_clamps_each_channel_witness :
  Report.darkenColor parseInt16_digits Number_toString16_integer "28a745" (of_Z 20)
  = String_slice 1 (Number_toString16_integer (of_Z (16777216 + 256 * 116 + 18))).
Proof.
  refine (proj1 (darkenColor_clamps_each_channel parseInt16_digits
                   Number_toString16_integer "28a745" 40 167 69 20 _ _ _ _ _)).
  - lia.
  - lia.
  - lia.
  - vm_compute. reflexivity.
  - lia.
Defined.

(** ** The two page analyses *)

Lemma inline_check_action (URL_parse : string -> option URL)
    (URL_resolve : string -> string -> option Resolved) (url : string)
    (state : bool * list string) (input : option Page.Form) :
  Inline.check_action URL_parse URL_resolve url (fst state) input
  = (fst (fst (Page.check_action URL_parse URL_resolve url state input)),
     snd (Page.check_action URL_parse URL_resolve url state input)).
Proof.
  unfold Inline.check_action, Page.check_action, Inline.pageETLD, Page.pageETLD.
  destruct (truthy _); [|reflexivity].
  destruct (URL_resolve _ url) as [actionUrl|]; [|reflexivity].
  destruct (truthy _ && differs _ _); reflexivity.
Qed.

Lemma inline_each_check_action (URL_parse : string -> option URL)
    (URL_resolve : string -> string -> option Resolved) (url : string)
    (inputs : list (option Page.Form)) (state : bool * list string) :
  each (Inline.check_action URL_parse URL_resolve url) inputs (fst state)
  = fst (each (Page.check_action URL_parse URL_resolve url) inputs state).
Proof.
  revert state. induction inputs as [|input rest IH]; intros state; [reflexivity|].
  cbn [each]. rewrite inline_check_action.
  destruct (Page.check_action URL_parse URL_resolve url state input) as [state' continue].
  cbn [fst snd]. destruct continue; [apply IH|reflexivity].
Qed.

(** X22. The page analysis that the server's inline scan repeats agrees
    with that of [scan]: on the same page both find the same password
    flag, the same action-mismatch flag and the same set of external
    hosts.  The inline scoring therefore gives the same result on the
    variables of either analysis. *)
Theorem inline_analysis_agrees_with_scan
    (URL_parse : string -> option URL)
    (URL_resolve : string -> string -> option Resolved)
    (String_toLowerCase : string -> string) (Number_toString : number -> string)
    (url : string) (parsedUrl : URL) (document : Page.Document) (sig : Signals) :
  let inline := Inline.analysis URL_parse URL_resolve url parsedUrl document in
  let page :=
    Page.analysis URL_parse URL_resolve String_toLowerCase url parsedUrl document in
  hasPasswordForm inline = hasPasswordForm page
  /\ hasActionMismatch inline = hasActionMismatch page
  /\ Inline.externalHosts URL_resolve url parsedUrl document
     = Page.externalHosts URL_resolve url parsedUrl document
  /\ externalHostsCount inline = externalHostsCount page
  /\ server_scan Number_toString sig inline = server_scan Number_toString sig page.
Proof.
  intros inline page.
  assert (M : hasActionMismatch inline = hasActionMismatch page).
  { subst inline page. cbn [Inline.analysis Page.analysis hasActionMismatch].
    unfold Inline.hasActionMismatch, Page.hasActionMismatch, Page.action_mismatches,
      Inline.hasPasswordForm, Page.hasPasswordForm.
    destruct (Nat.ltb 0 (List.length (Page.passwordInputs document))); [|reflexivity].
    apply (inline_each_check_action URL_parse URL_resolve url
             (Page.passwordInputs document) (false, [])). }
  assert (S : server_scan Number_toString sig inline = server_scan Number_toString sig page).
  { unfold server_scan, server_external_hosts, server_action_mismatch,
      server_password_form. rewrite M. reflexivity. }
  split; [reflexivity|]. split; [exact M|]. split; [reflexivity|].
  split; [reflexivity|]. exact S.
Qed.

Lemma generateReport_needs_technical_witness :
  Report.generateReport Number_toString_integral parseInt16_digits
    Number_toString16_integer (fun _ => EmptyString) (fun _ => EmptyString)
    (fun _ => EmptyString) "0b1e"
    (server_object shop_url (server_scan Number_toString_integral no_signals plain_page))
  = (Thrown (TypeError "Cannot read properties of undefined (reading 'domain')"), []).
Proof.
  refine (proj1 (proj2 (generateReport_needs_technical Number_toString_integral
                          parseInt16_digits Number_toString16_integer
                          (fun _ => EmptyString) (fun _ => EmptyString)
                          (fun _ => EmptyString) _ "0b1e" _))).
  reflexivity.
Defined.

(** ** The command line *)


(** ** The three lookups together *)

Lemma provider_settles Date_parse now (whois : Awaited WhoisResult) (fetched : Fetched) :
  (exists v, getDomainAge Date_parse now whois = Fulfilled v)
  /\ (exists v, getWaybackFirstSeen Date_parse now fetched = Fulfilled v).
Proof.
  split.
  - unfold getDomainAge. rewrite swallow.
    destruct whois as [result|e]; [|eexists; reflexivity].
    destruct (truthy _); eexists; reflexivity.
  - unfold getWaybackFirstSeen. rewrite swallow.
    match goal with |- exists v, match ?b with _ => _ end = _ => destruct b as [|[v|e]] end;
      eexists; reflexivity.
Qed.

(** X24. The three lookups never make [scan] fail: the promise that
    [scan] awaits for the domain age, the certificate age and the first
    archived snapshot is never rejected, whatever the registration
    service, the socket and the archive do.  It is pending exactly while
    the registration service has not answered, the socket has seen no
    event or the archive has not answered; otherwise it is fulfilled,
    with the results of the three lookups in that order. *)
Theorem lookups_never_reject
    (Date_parse : string -> Date) (now : Z)
    (whois : option (Awaited WhoisResult)) (connection : Connection)
    (fetched : option Fetched) :
  (forall e, lookups Date_parse now whois connection fetched <> Rejected e)
  /\ (lookups Date_parse now whois connection fetched = Pending
      <-> whois = None \/ connection = Connected [] \/ fetched = None)
  /\ (forall sig,
        lookups Date_parse now whois connection fetched = Fulfilled sig ->
        exists answer reply,
          whois = Some answer /\ fetched = Some reply
          /\ getDomainAge Date_parse now answer = Fulfilled (domainAge sig)
          /\ getTLSAge Date_parse now connection = Fulfilled (tlsAge sig)
          /\ getWaybackFirstSeen Date_parse now reply
             = Fulfilled (waybackFirstSeen sig)).
Proof.
  assert (T : getTLSAge Date_parse now connection = Pending /\ connection = Connected []
              \/ (exists t, getTLSAge Date_parse now connection = Fulfilled t)
                 /\ connection <> Connected []).
  { destruct connection as [err|[|ev rest]].
    - right. split; [eexists; reflexivity|discriminate].
    - left. split; reflexivity.
    - right. split; [|discriminate]. rewrite getTLSAge_first_event.
      destruct ev as [[c|]| |]; cbn [on_socket_event on_secureConnect resolve];
        try destruct (truthy (valid_from c)); eexists; reflexivity. }
  unfold lookups, Promise_all, awaiting.
  destruct whois as [answer|], fetched as [reply|].
  - destruct (provider_settles Date_parse now answer reply) as [[d Hd] [w Hw]].
    rewrite Hd, Hw.
    destruct T as [[-> ->]|[[t ->] N]].
    + split; [discriminate|]. split; [split; auto|]. intros s H. discriminate H.
    + split; [discriminate|]. split.
      * split; [discriminate|]. intros [H|[H|H]]; [discriminate H|contradiction|discriminate H].
      * intros s H. injection H as <-. exists answer, reply. cbn. auto.
  - destruct (getDomainAge Date_parse now answer) eqn:Hd.
    + destruct T as [[-> _]|[[t ->] _]]; (split; [discriminate|]);
        (split; [split; auto|]); intros s H; discriminate H.
    + destruct T as [[-> _]|[[t ->] _]]; (split; [discriminate|]);
        (split; [split; auto|]); intros s H; discriminate H.
    + exfalso. destruct (provider_settles Date_parse now answer (FetchRejects e))
        as [[d Hd'] _]. congruence.
  - destruct T as [[-> _]|[[t ->] _]].
    + destruct (getWaybackFirstSeen Date_parse now reply) eqn:Hw.
      * split; [discriminate|]. split; [split; auto|]. intros s H. discriminate H.
      * split; [discriminate|]. split; [split; auto|]. intros s H. discriminate H.
      * exfalso.
        destruct (provider_settles Date_parse now (Rejects e) reply) as [_ [w Hw']].
        congruence.
    + destruct (getWaybackFirstSeen Date_parse now reply) eqn:Hw.
      * split; [discriminate|]. split; [split; auto|]. intros s H. discriminate H.
      * split; [discriminate|]. split; [split; auto|]. intros s H. discriminate H.
      * exfalso.
        destruct (provider_settles Date_parse now (Rejects e) reply) as [_ [w Hw']].
        congruence.
  - destruct T as [[-> _]|[[t ->] _]]; (split; [discriminate|]);
      (split; [split; auto|]); intros s H; discriminate H.
Qed.
